(** * Zillow property scraper (scraper.py): model and properties

    A shallow embedding of [ZillowScraper] from [scraper.py]: the URL
    validator, the five field extractors, the record assembler
    [extract_property_data], the CSV loop [scrape_urls], the reader
    [read_urls_from_file] and the entry point [main].

    Conventions.
    - A Python [str] is a [string]; each character is a code point in
      U+0000..U+00FF, and the [str] methods below follow CPython on
      that range.
    - A Python exception is a value of [exn]; code that may raise
      returns a [result].
    - The libraries the program calls (urllib, requests, bs4, csv) are
      modelled by what the program observes of them.  A parsed page is
      a tree of tags and strings; a string carries its class (plain
      text, comment, script, ...), since the searches by string visit
      every class while [get_text] keeps the plain ones.
    - An output file is its text.  The csv writer produces the text of
      a row in the default dialect, and a row appended to a file comes
      right after the last character the file held.
    - What the program meets outside is given to the model: the answers
      of the server and of the parser, the clock, what [parse_args]
      does with the command line, the line read at the prompt, and for
      an output path the file it holds and whether [Path.exists] and
      each [open] raise.
    - Logging, printing and sleeping have no effect on any value
      computed here and are left out: the console takes what is
      printed, and a file once opened takes what is written. *)

From Stdlib Require Import String Ascii List Bool Arith Lia.
From Stdlib Require Import Numbers.DecimalString.
Import ListNotations.
Open Scope string_scope.
Open Scope list_scope.

Set Implicit Arguments.
Set Warnings "-register-all".

(* ===================================================================== *)
(** * Python [str] operations *)
(* ===================================================================== *)

Module Py.

(** Code point of a character. *)
Definition ord (c : ascii) : nat := nat_of_ascii c.

Definition between (lo hi n : nat) : bool := Nat.leb lo n && Nat.leb n hi.

(** [c.isspace()]: TAB..CR, FS..US, SPACE, NEL and NBSP. *)
Definition isspace (c : ascii) : bool :=
  let n := ord c in
  between 9 13 n || between 28 32 n || Nat.eqb n 133 || Nat.eqb n 160.

(** [c.isdigit()]: 0..9 and the superscripts two, three and one. *)
Definition isdigit_char (c : ascii) : bool :=
  let n := ord c in
  between 48 57 n || Nat.eqb n 178 || Nat.eqb n 179 || Nat.eqb n 185.

(** [c.isascii() and c.isalpha()]. *)
Definition isascii_alpha (c : ascii) : bool :=
  let n := ord c in between 65 90 n || between 97 122 n.

(** [c.lower()] for one character: A..Z and the Latin-1 capitals. *)
Definition lower_char (c : ascii) : ascii :=
  let n := ord c in
  if between 65 90 n || (between 192 222 n && negb (Nat.eqb n 215))
  then ascii_of_nat (n + 32) else c.

(** [s.lower()]. *)
Fixpoint lower (s : string) : string :=
  match s with
  | EmptyString => EmptyString
  | String c s' => String (lower_char c) (lower s')
  end.

(** [bool(s)]: a string is truthy when it is not empty. *)
Definition truthy (s : string) : bool :=
  match s with EmptyString => false | String _ _ => true end.

(** [s.startswith(p)]. *)
Fixpoint startswith (p s : string) : bool :=
  match p, s with
  | EmptyString, _ => true
  | String a p', String b s' => Ascii.eqb a b && startswith p' s'
  | String _ _, EmptyString => false
  end.

(** [sub in s]. *)
Fixpoint contains (sub s : string) : bool :=
  startswith sub s ||
  match s with
  | EmptyString => false
  | String _ s' => contains sub s'
  end.

(** [any(c.isdigit() for c in s)]. *)
Fixpoint any_isdigit (s : string) : bool :=
  match s with
  | EmptyString => false
  | String c s' => isdigit_char c || any_isdigit s'
  end.

Fixpoint all_isdigit (s : string) : bool :=
  match s with
  | EmptyString => true
  | String c s' => isdigit_char c && all_isdigit s'
  end.

(** [s.isdigit()]: every character is a digit and there is at least one. *)
Definition isdigit (s : string) : bool := truthy s && all_isdigit s.

(** [s.replace(c, '')] for a one-character [c]. *)
Fixpoint remove_char (c : ascii) (s : string) : string :=
  match s with
  | EmptyString => EmptyString
  | String a s' =>
      if Ascii.eqb a c then remove_char c s' else String a (remove_char c s')
  end.

(** [s.lstrip(chars)], the characters given as a predicate. *)
Fixpoint lstrip_by (f : ascii -> bool) (s : string) : string :=
  match s with
  | EmptyString => EmptyString
  | String c s' => if f c then lstrip_by f s' else s
  end.

(** [s.rstrip()]. *)
Fixpoint rstrip (s : string) : string :=
  match s with
  | EmptyString => EmptyString
  | String c s' =>
      let r := rstrip s' in
      if isspace c && negb (truthy r) then EmptyString else String c r
  end.

(** [s.strip()]. *)
Definition strip (s : string) : string := rstrip (lstrip_by isspace s).

(** [s.split()]: the maximal runs of non-whitespace characters.
    [word] is the run being read. *)
Fixpoint split_from (word s : string) : list string :=
  match s with
  | EmptyString => if truthy word then [word] else []
  | String c s' =>
      if isspace c
      then (if truthy word then word :: split_from "" s' else split_from "" s')
      else split_from (word ++ String c "") s'
  end.

Definition split (s : string) : list string := split_from "" s.

(** [s.find(c)] for a one-character [c]: [None] stands for [-1]. *)
Fixpoint find_char (f : ascii -> bool) (s : string) : option nat :=
  match s with
  | EmptyString => None
  | String c s' =>
      if f c then Some 0
      else match find_char f s' with Some i => Some (S i) | None => None end
  end.

(** [s[:n]] and [s[n:]]. *)
Fixpoint take (n : nat) (s : string) : string :=
  match n, s with
  | S n', String c s' => String c (take n' s')
  | _, _ => EmptyString
  end.

Fixpoint drop (n : nat) (s : string) : string :=
  match n, s with
  | S n', String _ s' => drop n' s'
  | _, _ => s
  end.

(** [sep.join(xs)]. *)
Fixpoint join (sep : string) (xs : list string) : string :=
  match xs with
  | [] => ""
  | [x] => x
  | x :: xs' => x ++ sep ++ join sep xs'
  end.

(** [str(n)] for a non-negative [int]. *)
Definition str_int (n : nat) : string :=
  NilZero.string_of_uint (Nat.to_uint n).

End Py.

(* ===================================================================== *)
(** * Exceptions *)
(* ===================================================================== *)

(** The exception classes the program tells apart, in the order of the
    [except] clauses of [extract_property_data].  [Timeout] and
    [HTTPError] are subclasses of [RequestException]; the constructor
    [RequestException] stands for every other member of that class and
    [Exception] for every exception outside it. *)
Inductive exn : Type :=
| Timeout (msg : string)
| HTTPError (status_code : nat)
| RequestException (msg : string)
| Exception (msg : string).

Inductive result (A : Type) : Type :=
| Ok (a : A)
| Raise (e : exn).

Arguments Ok {A} a.
Arguments Raise {A} e.

Definition bind {A B} (c : result A) (k : A -> result B) : result B :=
  match c with
  | Ok a => k a
  | Raise e => Raise e
  end.

Declare Scope py_scope.
Delimit Scope py_scope with py.
Notation "x <- c ;; k" := (bind c (fun x => k))
  (at level 61, c at next level, right associativity) : py_scope.
Open Scope py_scope.

Definition is_some {A} (o : option A) : bool :=
  match o with Some _ => true | None => false end.

Definition is_nil {A} (l : list A) : bool :=
  match l with [] => true | _ :: _ => false end.

(** A [for] loop whose body may [return]: the body answers [Some v]
    when it executes [return v] and [None] when it runs to its end.
    The loop stops at the first [return] and at the first exception. *)
Fixpoint for_ {A B} (xs : list A) (body : A -> result (option B))
  : result (option B) :=
  match xs with
  | [] => Ok None
  | x :: xs' =>
      r <- body x ;;
      match r with
      | Some v => Ok (Some v)
      | None => for_ xs' body
      end
  end.

(** The first answer of a function along a list. *)
Fixpoint first_some {A B} (f : A -> option B) (xs : list A) : option B :=
  match xs with
  | [] => None
  | x :: xs' =>
      match f x with
      | Some b => Some b
      | None => first_some f xs'
      end
  end.

(** Statements that follow a block which may have returned. *)
Definition otherwise {B} (r : option B) (rest : result (option B))
  : result (option B) :=
  match r with
  | Some v => Ok (Some v)
  | None => rest
  end.

(** [try: body / except Exception as e: logger.debug(...)], followed by
    [return dflt]. *)
Definition try_or (dflt : string) (body : result (option string))
  : result string :=
  match body with
  | Ok (Some v) => Ok v
  | Ok None => Ok dflt
  | Raise _ => Ok dflt
  end.

(* ===================================================================== *)
(** * urllib.parse *)
(* ===================================================================== *)

Module Urllib.

Record ParseResult : Type := mkParseResult {
  scheme : string;
  netloc : string;
  rest : string   (* path, parameters, query and fragment, not split *)
}.

Definition is_char (c : ascii) : ascii -> bool := fun a => Ascii.eqb a c.

(** [_WHATWG_C0_CONTROL_OR_SPACE]. *)
Definition c0_control_or_space (c : ascii) : bool := Nat.leb (Py.ord c) 32.

(** [_UNSAFE_URL_BYTES_TO_REMOVE]. *)
Definition remove_unsafe (url : string) : string :=
  Py.remove_char "010"%char
    (Py.remove_char "013"%char (Py.remove_char "009"%char url)).

(** [scheme_chars]: letters, digits, [+], [-] and [.]. *)
Definition scheme_char (c : ascii) : bool :=
  let n := Py.ord c in
  Py.isascii_alpha c || Py.between 48 57 n ||
  Nat.eqb n 43 || Nat.eqb n 45 || Nat.eqb n 46.

Fixpoint all_chars (f : ascii -> bool) (s : string) : bool :=
  match s with
  | EmptyString => true
  | String c s' => f c && all_chars f s'
  end.

(** The scheme split of [urlsplit]: [(scheme, rest of url)]. *)
Definition split_scheme (url : string) : string * string :=
  match Py.find_char (is_char ":"%char) url, url with
  | Some (S i), String c0 _ =>
      if Py.isascii_alpha c0 && all_chars scheme_char (Py.take (S i) url)
      then (Py.lower (Py.take (S i) url), Py.drop (S (S i)) url)
      else ("", url)
  | _, _ => ("", url)
  end.

(** [_splitnetloc(url, 2)]: the text after the two slashes up to the
    first of [/], [?] and [#]. *)
Definition netloc_delim (c : ascii) : bool :=
  is_char "/"%char c || is_char "?"%char c || is_char "#"%char c.

Definition _splitnetloc (url : string) : string * string :=
  let after := Py.drop 2 url in
  match Py.find_char netloc_delim after with
  | Some d => (Py.take d after, Py.drop d after)
  | None => (after, "")
  end.

(** [s.partition(c)]: [(before, found, after)]. *)
Definition partition (c : ascii) (s : string) : string * bool * string :=
  match Py.find_char (is_char c) s with
  | Some i => (Py.take i s, true, Py.drop (S i) s)
  | None => (s, false, "")
  end.

(** Index of the last occurrence of [c]. *)
Fixpoint rfind_char (c : ascii) (s : string) : option nat :=
  match s with
  | EmptyString => None
  | String a s' =>
      match rfind_char c s' with
      | Some i => Some (S i)
      | None => if Ascii.eqb a c then Some 0 else None
      end
  end.

(** [s.rpartition(c)[2]]. *)
Definition after_last (c : ascii) (s : string) : string :=
  match rfind_char c s with
  | Some i => Py.drop (S i) s
  | None => s
  end.

(** [ParseResult.hostname]: the host of the network location, without
    user information and port, in lower case; [None] when empty. *)
Definition _hostinfo (netloc : string) : string :=
  let hostinfo := after_last "@"%char netloc in
  let '(_, have_open_br, bracketed) := partition "["%char hostinfo in
  if have_open_br then
    let '(hostname, _, _) := partition "]"%char bracketed in hostname
  else
    let '(hostname, _, _) := partition ":"%char hostinfo in hostname.

Definition hostname (p : ParseResult) : option string :=
  let h := _hostinfo (netloc p) in
  if Py.truthy h then
    let '(host, percent, zone) := partition "%"%char h in
    Some (Py.lower host ++ (if percent then "%" else "") ++ zone)%string
  else None.

Section Urlsplit.

(** [_check_bracketed_host] parses its argument with the [ipaddress]
    module; it is taken as given: [true] when the host is accepted. *)
Variable check_bracketed_host : string -> bool.

Definition ValueError (msg : string) : exn := Exception msg.

Definition _check_bracketed_netloc (netloc : string) : result unit :=
  let hostname_and_port := after_last "@"%char netloc in
  let '(before_bracket, have_open_br, bracketed) :=
    partition "["%char hostname_and_port in
  if have_open_br then
    if Py.truthy before_bracket then Raise (ValueError "Invalid IPv6 URL")
    else
      let '(hostname, _, port) := partition "]"%char bracketed in
      if Py.truthy port && negb (Py.startswith ":" port)
      then Raise (ValueError "Invalid IPv6 URL")
      else if check_bracketed_host hostname then Ok tt
           else Raise (ValueError "invalid bracketed host")
  else
    let '(hostname, _, _) := partition ":"%char hostname_and_port in
    if check_bracketed_host hostname then Ok tt
    else Raise (ValueError "invalid bracketed host").

(** [urlparse(url)], up to the network location.  [_checknetloc]
    raises only when NFKC normalisation of the netloc yields one of
    [/?#@:], which no code point below U+0100 does. *)
Definition urlparse (url : string) : result ParseResult :=
  let url := Py.lstrip_by c0_control_or_space url in
  let url := remove_unsafe url in
  let '(scheme, url) := split_scheme url in
  if Py.startswith "//" url then
    let '(netloc, url) := _splitnetloc url in
    let has_open := Py.contains "[" netloc in
    let has_close := Py.contains "]" netloc in
    if (has_open && negb has_close) || (has_close && negb has_open)
    then Raise (ValueError "Invalid IPv6 URL")
    else
      _ <- (if has_open && has_close then _check_bracketed_netloc netloc
            else Ok tt) ;;
      Ok (mkParseResult scheme netloc url)
  else Ok (mkParseResult scheme "" url).

End Urlsplit.

End Urllib.

(* ===================================================================== *)
(** * The document interface used by the extractors *)
(* ===================================================================== *)

(** What a search is asked to match: a string to compare with, or a
    Python function applied to the value ([None] when it is absent). *)
Inductive matcher : Type :=
| Exact (s : string)
| Lambda (f : option string -> bool).

(** The arguments of [find] / [find_all]: a tag name, a dictionary of
    attribute matchers and the [string=] argument. *)
Record criteria : Type := mkCriteria {
  c_name : option string;
  c_attrs : list (string * matcher);
  c_string : option (option string -> bool)
}.

Definition by_tag (name : string) (attrs : list (string * matcher)) : criteria :=
  mkCriteria (Some name) attrs None.

Definition by_tag_string (name : string) (f : option string -> bool) : criteria :=
  mkCriteria (Some name) [] (Some f).

Definition by_string (f : option string -> bool) : criteria :=
  mkCriteria None [] (Some f).

Definition no_criteria : criteria := mkCriteria None [] None.

(** The methods the extractors call on the soup and on the elements it
    hands back.  Every call may raise.  [as_str] is the use of an
    element as a [str], which is what a text node is. *)
Class DocumentModel (E : Type) : Type := {
  find : E -> criteria -> result (option E);
  find_all : E -> criteria -> result (list E);
  get_text : E -> result string;           (* get_text(strip=True) *)
  find_parent : E -> result (option E);
  find_next : E -> criteria -> result (option E);
  find_next_siblings : E -> result (list E);
  find_previous_sibling : E -> result (option E);
  as_str : E -> result string
}.

(* ===================================================================== *)
(** * The field extractors *)
(* ===================================================================== *)

Section Extractors.

Context {E : Type} `{DocumentModel E}.

(** [lambda text: text and kw in text] *)
Definition text_has (kw : string) : option string -> bool :=
  fun text =>
    match text with
    | Some t => Py.truthy t && Py.contains kw t
    | None => false
    end.

(** [lambda x: x and kw in x.lower() if x else False] *)
Definition lower_has (kw : string) : option string -> bool :=
  fun x =>
    match x with
    | Some t => Py.truthy t && Py.contains kw (Py.lower t)
    | None => false
    end.

(** [lambda text: text and kw.lower() in text.lower() if text else False] *)
Definition ci_has (kw : string) : option string -> bool :=
  lower_has (Py.lower kw).

(** [lambda text: text and '$' in text and any(c.isdigit() for c in text)] *)
Definition dollar_and_digit : option string -> bool :=
  fun text =>
    match text with
    | Some t => Py.truthy t && Py.contains "$" t && Py.any_isdigit t
    | None => false
    end.

Definition address_selectors : list criteria :=
  [ by_tag "h1" [("class", Exact "ds-address-container")];
    by_tag "h1" [("data-testid", Exact "bdp-address")];
    by_tag "h1" [] ].

(** The loop over the selectors. *)
Definition address_by_selectors (soup : E) : result (option string) :=
  for_ address_selectors (fun sel =>
    element <- find soup sel ;;
    match element with
    | Some element =>
        address_text <- get_text element ;;
        if Py.truthy address_text then Ok (Some address_text)
        else Ok None
    | None => Ok None
    end).

(** No [try] here: an exception leaves the function. *)
Definition _extract_address (soup : E) : result string :=
  r <- address_by_selectors soup ;;
  match r with
  | Some address_text => Ok address_text
  | None => Ok "N/A"
  end.

Definition lot_keywords : list string := ["Lot size"; "Lot Size"; "lot size"].

Definition lot_units : list string := ["sqft"; "sq ft"; "acres"; "acre"].

(** Method 1 of the lot-size extractor: the two nested loops. *)
Definition lot_size_method1 (soup : E) : result (option string) :=
  for_ lot_keywords (fun keyword =>
    spans <- find_all soup (by_tag_string "span" (text_has keyword)) ;;
    for_ spans (fun span =>
      parent <- find_parent span ;;
      match parent with
      | Some parent =>
          next_span <- find_next parent (by_tag "span" []) ;;
          match next_span with
          | Some next_span =>
              lot_text <- get_text next_span ;;
              if Py.truthy lot_text && negb (String.eqb lot_text keyword)
              then Ok (Some lot_text)
              else Ok None
          | None => Ok None
          end
      | None => Ok None
      end)).

(** Method 2 of the lot-size extractor. *)
Definition lot_size_method2 (soup : E) : result (option string) :=
  facts <- find_all soup (by_tag "span" [("data-testid", Lambda (lower_has "lot"))]) ;;
  for_ facts (fun fact =>
    text <- get_text fact ;;
    if existsb (fun unit => Py.contains unit (Py.lower text)) lot_units
    then Ok (Some text)
    else Ok None).

Definition lot_size_try (soup : E) : result (option string) :=
  r <- lot_size_method1 soup ;;
  otherwise r (lot_size_method2 soup).

Definition _extract_lot_size (soup : E) : result string :=
  try_or "N/A" (lot_size_try soup).

Definition price_selectors : list criteria :=
  [ by_tag "span" [("data-testid", Exact "price")];
    by_tag "span" [("class", Lambda (lower_has "price"))];
    by_tag "div" [("class", Lambda (lower_has "price"))] ].

Definition IndexError : exn := Exception "list index out of range".

(** [xs[0]] *)
Definition first_item (xs : list string) : result string :=
  match xs with
  | x :: _ => Ok x
  | [] => Raise IndexError
  end.

Definition price_by_selectors (soup : E) : result (option string) :=
  for_ price_selectors (fun sel =>
    element <- find soup sel ;;
    match element with
    | Some element =>
        price_text <- get_text element ;;
        if Py.truthy price_text && Py.contains "$" price_text
        then Ok (Some price_text)
        else Ok None
    | None => Ok None
    end).

Definition price_fallback (soup : E) : result (option string) :=
  all_text <- find_all soup (by_string dollar_and_digit) ;;
  for_ all_text (fun text =>
    text <- as_str text ;;
    let text := Py.strip text in
    if Py.startswith "$" text && Py.contains "," text
    then w <- first_item (Py.split text) ;; Ok (Some w)
    else Ok None).

Definition price_try (soup : E) : result (option string) :=
  r <- price_by_selectors soup ;;
  otherwise r (price_fallback soup).

Definition _extract_price (soup : E) : result string :=
  try_or "N/A" (price_try soup).

Definition sqft_patterns : list string := ["$/sqft"; "per sqft"; "Price/sqft"].

Definition price_per_sqft_labels (soup : E) : result (option string) :=
  for_ sqft_patterns (fun pattern =>
    spans <- find_all soup (by_tag_string "span" (ci_has pattern)) ;;
    for_ spans (fun span =>
      parent <- find_parent span ;;
      match parent with
      | Some parent =>
          siblings <- find_next_siblings parent ;;
          r <- for_ siblings (fun sibling =>
                 text <- get_text sibling ;;
                 if Py.truthy text && Py.contains "$" text
                 then Ok (Some text) else Ok None) ;;
          otherwise r (
            prev <- find_previous_sibling parent ;;
            match prev with
            | Some prev =>
                text <- get_text prev ;;
                if Py.truthy text && Py.contains "$" text
                then Ok (Some text) else Ok None
            | None => Ok None
            end)
      | None => Ok None
      end)).

Definition price_per_sqft_testid (soup : E) : result (option string) :=
  price_sqft_elem <-
    find soup (by_tag "span" [("data-testid", Lambda (lower_has "price-per-sqft"))]) ;;
  match price_sqft_elem with
  | Some price_sqft_elem => text <- get_text price_sqft_elem ;; Ok (Some text)
  | None => Ok None
  end.

Definition price_per_sqft_try (soup : E) : result (option string) :=
  r <- price_per_sqft_labels soup ;;
  otherwise r (price_per_sqft_testid soup).

Definition _extract_price_per_sqft (soup : E) : result string :=
  try_or "N/A" (price_per_sqft_try soup).

Definition day_keywords : list string :=
  ["Time on Zillow"; "Days on Zillow"; "on Zillow"; "Days on market"].

(** [word.isdigit() or word.replace(',', '').isdigit()] *)
Definition numeric_word (word : string) : bool :=
  Py.isdigit word || Py.isdigit (Py.remove_char ","%char word).

(** [i + 1 < len(words) and 'day' in words[i + 1].lower()], where
    [following] is [words[i + 1:]]. *)
Definition next_is_day (following : list string) : bool :=
  match following with
  | w :: _ => Py.contains "day" (Py.lower w)
  | [] => false
  end.

(** The loop [for i, word in enumerate(words)] of the days extractor. *)
Fixpoint scan_words (full_text : string) (words : list string) : option string :=
  match words with
  | [] => None
  | word :: following =>
      if numeric_word word then
        if next_is_day following then Some (word ++ " days")%string
        else if Py.contains "zillow" (Py.lower full_text)
                || Py.contains "market" (Py.lower full_text)
             then Some (word ++ " days")%string
             else scan_words full_text following
      else scan_words full_text following
  end.

(** Every element has [find_parent], so the [hasattr] test holds. *)
Definition days_on_market_try (soup : E) : result (option string) :=
  for_ day_keywords (fun keyword =>
    elements <- find_all soup (by_string (ci_has keyword)) ;;
    for_ elements (fun elem =>
      parent <- find_parent elem ;;
      match parent with
      | Some parent =>
          full_text <- get_text parent ;;
          Ok (scan_words full_text (Py.split full_text))
      | None => Ok None
      end)).

Definition _extract_days_on_market (soup : E) : result string :=
  try_or "N/A" (days_on_market_try soup).

End Extractors.

(* ===================================================================== *)
(** * bs4: the parsed tree and its searches *)
(* ===================================================================== *)

Module Bs4.

(** An attribute value: a string, or a list of strings for the
    multi-valued attributes such as [class]. *)
Inductive attr_value : Type :=
| Single (s : string)
| Multi (l : list string).

(** The class of a string of the tree.  [Plain] is [NavigableString]
    itself; the others are its subclasses: what the parser makes of a
    CDATA section, a comment, a declaration, a doctype and a processing
    instruction, and of the text inside [script], [style], [template],
    [rt] and [rp]. *)
Inductive string_class : Type :=
| Plain
| CData
| Comment
| Declaration
| Doctype
| ProcessingInstruction
| Script
| Stylesheet
| TemplateString
| RubyTextString
| RubyParenthesisString.

(** A parsed document: tags and strings.  The [BeautifulSoup] object
    is itself a tag, named [[document]], that holds the top level
    nodes.  The searches follow bs4 4.12. *)
Inductive node : Type :=
| NavigableString (cls : string_class) (s : string)
| Tag (name : string) (attrs : list (string * attr_value)) (contents : list node).

(** The place of a node: the child indices leading to it from the root. *)
Definition path : Type := list nat.

(** A node of a document, as the program holds it: the document and
    the place in it. *)
Record PageElement : Type := mkPageElement {
  root : node;
  loc : path
}.

Definition BeautifulSoup (contents : list node) : PageElement :=
  mkPageElement (Tag "[document]" [] contents) [].

Fixpoint node_at (n : node) (p : path) : option node :=
  match p with
  | [] => Some n
  | i :: p' =>
      match n with
      | Tag _ _ cs =>
          match nth_error cs i with
          | Some c => node_at c p'
          | None => None
          end
      | NavigableString _ _ => None
      end
  end.

Definition here (e : PageElement) : option node := node_at (root e) (loc e).

(** Document order: a node, then its children from left to right,
    each with its own descendants. *)
Fixpoint walk (p : path) (n : node) : list (path * node) :=
  (p, n) ::
  match n with
  | NavigableString _ _ => []
  | Tag _ _ cs =>
      (fix kids (i : nat) (cs : list node) : list (path * node) :=
         match cs with
         | [] => []
         | c :: cs' => walk (p ++ [i]) c ++ kids (S i) cs'
         end) 0 cs
  end.

Fixpoint walk_kids (p : path) (i : nat) (cs : list node) : list (path * node) :=
  match cs with
  | [] => []
  | c :: cs' => walk (p ++ [i]) c ++ walk_kids p (S i) cs'
  end.

Fixpoint path_eqb (p q : path) : bool :=
  match p, q with
  | [], [] => true
  | i :: p', j :: q' => Nat.eqb i j && path_eqb p' q'
  | _, _ => false
  end.

(** [.descendants] *)
Definition descendants (e : PageElement) : list (path * node) :=
  match here e with
  | Some n => tl (walk (loc e) n)
  | None => []
  end.

(** What follows the entry at [p] in a document-order list. *)
Fixpoint after (p : path) (l : list (path * node)) : list (path * node) :=
  match l with
  | [] => []
  | (q, _) :: l' => if path_eqb p q then l' else after p l'
  end.

(** [.next_elements]: what follows the element in document order.  The
    parser links every node it makes to the node made before it, and
    the [BeautifulSoup] object is not one of them: its [next_element]
    stays [None], and nothing follows it. *)
Definition next_elements (e : PageElement) : list (path * node) :=
  match loc e with
  | [] => []
  | _ :: _ => after (loc e) (walk [] (root e))
  end.

(** The children of the parent of [e] with their indices, and the
    index of [e] among them. *)
Fixpoint number_from (p : path) (i : nat) (cs : list node) : list (path * node) :=
  match cs with
  | [] => []
  | c :: cs' => (p ++ [i], c) :: number_from p (S i) cs'
  end.

Definition siblings_split (e : PageElement)
  : list (path * node) * list (path * node) :=
  match loc e with
  | [] => ([], [])
  | _ :: _ =>
      let q := removelast (loc e) in
      let i := last (loc e) 0 in
      match node_at (root e) q with
      | Some (Tag _ _ cs) =>
          let numbered := number_from q 0 cs in
          (firstn i numbered, skipn (S i) numbered)
      | _ => ([], [])
      end
  end.

(** [.next_siblings] and [.previous_siblings] (nearest first). *)
Definition next_siblings (e : PageElement) : list (path * node) :=
  snd (siblings_split e).

Definition previous_siblings (e : PageElement) : list (path * node) :=
  rev (fst (siblings_split e)).

Fixpoint get_attr (attrs : list (string * attr_value)) (k : string)
  : option attr_value :=
  match attrs with
  | [] => None
  | (k', v) :: attrs' => if String.eqb k' k then Some v else get_attr attrs' k
  end.

(** How one attribute value is compared with a matcher. *)
Definition _matches (v : option attr_value) (m : matcher) : bool :=
  match m, v with
  | Exact s, None => negb (Py.truthy s)
  | Exact s, Some (Single x) => String.eqb x s
  | Exact s, Some (Multi l) =>
      existsb (fun x => String.eqb x s) l || String.eqb (Py.join " " l) s
  | Lambda f, None => f None
  | Lambda f, Some (Single x) => f (Some x)
  | Lambda f, Some (Multi l) =>
      existsb (fun x => f (Some x)) l || f (Some (Py.join " " l))
  end.

(** [.string]: the single string inside a tag, if there is exactly one. *)
Fixpoint string_of (n : node) : option string :=
  match n with
  | NavigableString _ s => Some s
  | Tag _ _ [c] => string_of c
  | Tag _ _ _ => None
  end.

(** Whether a node is a result of a search with the criteria [c]. *)
Definition search (c : criteria) (n : node) : bool :=
  match n with
  | Tag name attrs _ =>
      let text_only :=
        is_some (c_string c) && negb (is_some (c_name c)) && is_nil (c_attrs c) in
      negb text_only &&
      match c_name c with Some nm => String.eqb name nm | None => true end &&
      forallb (fun '(k, m) => _matches (get_attr attrs k) m) (c_attrs c) &&
      match c_string c with Some f => f (string_of n) | None => true end
  | NavigableString _ s =>
      Py.truthy s &&
      match c_name c, c_attrs c, c_string c with
      | None, [], Some f => f (Some s)
      | _, _, _ => false
      end
  end.

Definition handles (r : node) (l : list (path * node)) : list PageElement :=
  map (fun pn => mkPageElement r (fst pn)) l.

Definition matching (c : criteria) (l : list (path * node)) : list (path * node) :=
  filter (fun pn => search c (snd pn)) l.

Definition find_all (e : PageElement) (c : criteria) : list PageElement :=
  handles (root e) (matching c (descendants e)).

Definition find (e : PageElement) (c : criteria) : option PageElement :=
  hd_error (find_all e c).

Definition find_next (e : PageElement) (c : criteria) : option PageElement :=
  hd_error (handles (root e) (matching c (next_elements e))).

Definition find_next_siblings (e : PageElement) : list PageElement :=
  handles (root e) (matching no_criteria (next_siblings e)).

Definition find_previous_sibling (e : PageElement) : option PageElement :=
  hd_error (handles (root e) (matching no_criteria (previous_siblings e))).

Definition find_parent (e : PageElement) : option PageElement :=
  match loc e with
  | [] => None
  | _ :: _ => Some (mkPageElement (root e) (removelast (loc e)))
  end.

(** [DEFAULT_INTERESTING_STRING_TYPES]: the classes of string that
    count as the text of an element. *)
Definition default_interesting (k : string_class) : bool :=
  match k with
  | Plain | CData => true
  | _ => false
  end.

(** [interesting_string_types] of a tag: the builder's string container
    for its name, else the default. *)
Definition interesting_string_types (name : string) (k : string_class) : bool :=
  if String.eqb name "rt"
  then match k with RubyTextString => true | _ => false end
  else if String.eqb name "rp"
  then match k with RubyParenthesisString => true | _ => false end
  else if String.eqb name "style"
  then match k with Stylesheet => true | _ => false end
  else if String.eqb name "script"
  then match k with Script => true | _ => false end
  else if String.eqb name "template"
  then match k with TemplateString => true | _ => false end
  else default_interesting k.

(** The strings of the classes [types] in a document-order list,
    stripped, the empty ones dropped. *)
Fixpoint stripped_strings (types : string_class -> bool)
  (l : list (path * node)) : list string :=
  match l with
  | [] => []
  | (_, NavigableString k s) :: l' =>
      if types k && Py.truthy (Py.strip s)
      then Py.strip s :: stripped_strings types l'
      else stripped_strings types l'
  | (_, Tag _ _ _) :: l' => stripped_strings types l'
  end.

(** [get_text(strip=True)]: of a tag, the interesting strings below
    it; of a string, itself when its class is one of the default. *)
Definition get_text (e : PageElement) : string :=
  match here e with
  | Some (Tag name attrs cs) =>
      String.concat ""
        (stripped_strings (interesting_string_types name)
           (tl (walk (loc e) (Tag name attrs cs))))
  | Some (NavigableString k s) =>
      if default_interesting k then Py.strip s else ""
  | None => ""
  end.

Definition TypeError : exn := Exception "'NoneType' object is not callable".

(** A text node is a [str]; a tag is not, and a [str] method looked
    up on it is [None]. *)
Definition as_str (e : PageElement) : result string :=
  match here e with
  | Some (NavigableString _ s) => Ok s
  | _ => Raise TypeError
  end.


(** Structural induction on documents. *)
Section NodeInduction.

Variable P : node -> Prop.
Hypothesis P_string : forall cls s, P (NavigableString cls s).
Hypothesis P_tag : forall name attrs cs, Forall P cs -> P (Tag name attrs cs).

Fixpoint node_induction (n : node) : P n :=
  match n with
  | NavigableString cls s => P_string cls s
  | Tag name attrs cs =>
      P_tag name attrs
        ((fix all (cs : list node) : Forall P cs :=
            match cs with
            | [] => Forall_nil P
            | c :: cs' => Forall_cons c (node_induction c) (all cs')
            end) cs)
  end.

End NodeInduction.

(** An entry of a walk is [valid] in a document when its place holds
    its node. *)
Definition valid (r : node) (pn : path * node) : Prop :=
  node_at r (fst pn) = Some (snd pn).


Definition occurs (p : path) (l : list (path * node)) : bool :=
  existsb (fun pn => path_eqb p (fst pn)) l.

(** Every place of a walk lies at or below the place it starts from. *)
Definition below (b : path) (pn : path * node) : Prop :=
  exists t, fst pn = b ++ t.

End Bs4.

#[export] Instance bs4_model : DocumentModel Bs4.PageElement := {
  find e c := Ok (Bs4.find e c);
  find_all e c := Ok (Bs4.find_all e c);
  get_text e := Ok (Bs4.get_text e);
  find_parent e := Ok (Bs4.find_parent e);
  find_next e c := Ok (Bs4.find_next e c);
  find_next_siblings e := Ok (Bs4.find_next_siblings e);
  find_previous_sibling e := Ok (Bs4.find_previous_sibling e);
  as_str e := Bs4.as_str e
}.

(* ===================================================================== *)
(** * requests and the record under construction *)
(* ===================================================================== *)

Record Response : Type := mkResponse {
  status_code : nat;
  text : string
}.

(** [response.raise_for_status()]: client and server error codes raise. *)
Definition raise_for_status (r : Response) : result unit :=
  if Nat.leb 400 (status_code r) && Nat.ltb (status_code r) 600
  then Raise (HTTPError (status_code r))
  else Ok tt.

(** [str(e)] *)
Definition str_exn (e : exn) : string :=
  match e with
  | Timeout msg => msg
  | HTTPError code => Py.str_int code
  | RequestException msg => msg
  | Exception msg => msg
  end.

(** A Python [dict] with string keys, in insertion order.  A value is
    a string or [None]. *)
Definition dict : Type := list (string * option string).

Fixpoint dict_get (k : string) (d : dict) : option (option string) :=
  match d with
  | [] => None
  | (k', v) :: d' => if String.eqb k' k then Some v else dict_get k d'
  end.

(** [d[k] = v]: an existing key keeps its place, a new one goes last. *)
Fixpoint dict_set (k : string) (v : option string) (d : dict) : dict :=
  match d with
  | [] => [(k, v)]
  | (k', v') :: d' =>
      if String.eqb k' k then (k, v) :: d' else (k', v') :: dict_set k v d'
  end.

Definition keys (d : dict) : list string := map fst d.

(** What the program does to the outside, in the order it does it. *)
Inductive event : Type :=
| Fetch (url : string)        (* session.get *)
| ParseHtml                   (* BeautifulSoup(response.text, 'html.parser') *)
| Extract (field : string).   (* one of the five extractors is called *)

(** The state a call of [extract_property_data] works on: the [result]
    dictionary and the events so far.  It survives an exception. *)
Record state : Type := mkState {
  fields : dict;
  trace : list event
}.

Definition run (A : Type) : Type := state -> result A * state.

Definition run_bind {A B} (c : run A) (k : A -> run B) : run B :=
  fun s =>
    match c s with
    | (Ok a, s') => k a s'
    | (Raise e, s') => (Raise e, s')
    end.

Definition lift {A} (r : result A) : run A := fun s => (r, s).

Definition emit (ev : event) : run unit :=
  fun s => (Ok tt, mkState (fields s) (trace s ++ [ev])).

(** [result[k] = v] *)
Definition assign (k v : string) : run unit :=
  fun s => (Ok tt, mkState (dict_set k (Some v) (fields s)) (trace s)).

(** [try: body / except ... as e: handler e] *)
Definition try_except (body : run unit) (handler : exn -> run unit) : run unit :=
  fun s =>
    match body s with
    | (Ok a, s') => (Ok a, s')
    | (Raise e, s') => handler e s'
    end.

Declare Scope run_scope.
Delimit Scope run_scope with run.
Notation "x <~ c ;; k" := (run_bind c (fun x => k))
  (at level 61, c at next level, right associativity) : run_scope.
Notation "c ;;; k" := (run_bind c (fun _ => k))
  (at level 61, right associativity) : run_scope.

(* ===================================================================== *)
(** * The scraper *)
(* ===================================================================== *)

(** What lies outside the program during one call: the clock, the
    address parser of [urllib], the HTTP session and the HTML parser. *)
Record World (E : Type) : Type := mkWorld {
  now : string;                              (* datetime.now().strftime(...) *)
  check_bracketed_host : string -> bool;
  session_get : string -> result Response;   (* session.get(url, timeout=...) *)
  html_parser : string -> result E           (* BeautifulSoup(text, 'html.parser') *)
}.

Definition fieldnames : list string :=
  ["url"; "address"; "lot_size"; "price"; "price_per_sqft";
   "days_on_market"; "scrape_timestamp"; "error"].

Definition data_fields : list string :=
  ["address"; "lot_size"; "price"; "price_per_sqft"; "days_on_market"].

Section Scraper.

Context {E : Type} `{DocumentModel E}.
Variable w : World E.

Definition validate_url (url : string) : bool :=
  match
    (parsed <- Urllib.urlparse (check_bracketed_host w) url ;;
     Ok (Py.contains "zillow.com" (Py.lower (Urllib.netloc parsed))))
  with
  | Ok b => b
  | Raise _ => false
  end.

Definition initial_result (url : string) : dict :=
  [ ("url", Some url);
    ("address", Some "N/A");
    ("lot_size", Some "N/A");
    ("price", Some "N/A");
    ("price_per_sqft", Some "N/A");
    ("days_on_market", Some "N/A");
    ("scrape_timestamp", Some (now w));
    ("error", None) ].

Open Scope run_scope.

(** One [result[field] = extractor(soup)] statement. *)
Definition extract_into (field : string) (extractor : E -> result string)
  (soup : E) : run unit :=
  emit (Extract field) ;;;
  v <~ lift (extractor soup) ;;
  assign field v.

(** The [try] block of [extract_property_data]. *)
Definition fetch_and_extract (url : string) : run unit :=
  emit (Fetch url) ;;;
  response <~ lift (session_get w url) ;;
  lift (raise_for_status response) ;;;
  emit ParseHtml ;;;
  soup <~ lift (html_parser w (text response)) ;;
  extract_into "address" _extract_address soup ;;;
  extract_into "lot_size" _extract_lot_size soup ;;;
  extract_into "price" _extract_price soup ;;;
  extract_into "price_per_sqft" _extract_price_per_sqft soup ;;;
  extract_into "days_on_market" _extract_days_on_market soup.

(** The [except] clauses, in their order. *)
Definition on_exception (e : exn) : run unit :=
  match e with
  | Timeout _ => assign "error" "Request timeout"
  | HTTPError code => assign "error" ("HTTP " ++ Py.str_int code)
  | RequestException _ => assign "error" ("Request failed: " ++ str_exn e)
  | Exception _ => assign "error" ("Parsing error: " ++ str_exn e)
  end.

Close Scope run_scope.

Definition extract_property_data_run (url : string) : state :=
  let result := initial_result url in
  if negb (validate_url url) then
    mkState (dict_set "error" (Some "Invalid Zillow URL") result) []
  else
    snd (try_except (fetch_and_extract url) on_exception (mkState result [])).

(** The dictionary [extract_property_data] returns. *)
Definition extract_property_data (url : string) : dict :=
  fields (extract_property_data_run url).

(** What it did to the outside on the way. *)
Definition extract_property_data_trace (url : string) : list event :=
  trace (extract_property_data_run url).

End Scraper.

(* ===================================================================== *)
(** * csv and [scrape_urls] *)
(* ===================================================================== *)

Definition row : Type := list string.

(** [csv.DictWriter(f, fieldnames).writerow(rowdict)]: a key outside
    [fieldnames] is an error; the cells follow [fieldnames], a missing
    key and [None] giving the empty cell. *)
Definition cell (rowdict : dict) (k : string) : string :=
  match dict_get k rowdict with
  | Some (Some v) => v
  | _ => ""
  end.

Definition writerow (rowdict : dict) : result row :=
  if forallb (fun k => existsb (String.eqb k) fieldnames) (keys rowdict)
  then Ok (map (cell rowdict) fieldnames)
  else Raise (Exception "dict contains fields not in fieldnames").

(** The [csv.writer] underneath, with the default dialect.  A field
    that holds a comma, a double quote, a carriage return or a line
    feed is put between double quotes, its own double quotes doubled;
    the fields are joined by commas and the line ends with CR LF.  A
    row of one empty field is written as two double quotes. *)
Definition dquote : ascii := "034"%char.
Definition carriage_return : ascii := "013"%char.
Definition line_feed : ascii := "010"%char.

Definition crlf : string := String carriage_return (String line_feed "").

Definition special (c : ascii) : bool :=
  Ascii.eqb c ","%char || Ascii.eqb c dquote
  || Ascii.eqb c carriage_return || Ascii.eqb c line_feed.

Fixpoint any_char (f : ascii -> bool) (s : string) : bool :=
  match s with
  | EmptyString => false
  | String c s' => f c || any_char f s'
  end.

Fixpoint double_quotes (s : string) : string :=
  match s with
  | EmptyString => EmptyString
  | String c s' =>
      if Ascii.eqb c dquote then String c (String c (double_quotes s'))
      else String c (double_quotes s')
  end.

Definition csv_field (s : string) : string :=
  if any_char special s
  then String dquote (double_quotes s ++ String dquote "")
  else s.

Definition csv_line (r : row) : string :=
  match r with
  | [EmptyString] => String dquote (String dquote crlf)
  | _ => (Py.join "," (map csv_field r) ++ crlf)%string
  end.

(** The output file: [None] while it does not exist, else its text. *)
Definition file : Type := option string.

Inductive open_mode : Type := mode_a | mode_w.

Definition text_of (f : file) : string :=
  match f with
  | Some text => text
  | None => ""
  end.

(** What the file holds once [open(output_file, mode)] has returned:
    ['w'] empties it, ['a'] keeps it; both create it. *)
Definition open_file (m : open_mode) (f : file) : string :=
  match m with
  | mode_a => text_of f
  | mode_w => ""
  end.

(** What [scrape_urls] meets at the path [output_file]: the file there
    before the run, whether [Path(output_file).exists()] raises (a
    directory that may not be searched), and whether
    [open(output_file, mode)] raises in the [i]-th iteration (a missing
    directory, a directory at the path, a file that may not be
    written).  A file that has been opened takes what is written to
    it. *)
Record Disk : Type := mkDisk {
  existing : file;
  stat_raises : option exn;
  open_raises : nat -> option exn
}.

Definition OSError (msg : string) : exn := Exception msg.
Definition EOFError : exn := Exception "EOF when reading a line".
Definition ZeroDivisionError : exn := Exception "division by zero".

(** [Path(output_file).exists()] *)
Definition path_exists (d : Disk) : result bool :=
  match stat_raises d with
  | Some e => Raise e
  | None => Ok (is_some (existing d))
  end.

Definition MAX_URLS_WARNING : nat := 20.

Record loop_state : Type := mkLoop {
  output : file;
  write_header : bool;
  results : list dict;
  failed_count : nat;
  written : list row     (* every row handed to the csv writer, in order *)
}.

(** [if result['error']] *)
Definition has_error (result : dict) : bool :=
  match dict_get "error" result with
  | Some (Some e) => Py.truthy e
  | _ => false
  end.

(** How a call ends: it returns, the process exits through
    [sys.exit], or an exception leaves the function.  The state is the
    one reached at that point. *)
Inductive outcome : Type :=
| Finished (st : loop_state)
| Exited (code : nat)
| Crashed (e : exn) (st : loop_state).

(** The state before the loop: nothing made, counted or written. *)
Definition untouched (d : Disk) : loop_state :=
  mkLoop (existing d) true [] 0 [].

(** [writer.writerow] on the open file (and [writeheader], which
    writes the field names as a row). *)
Definition write (r : row) (st : loop_state) : loop_state :=
  mkLoop (Some (text_of (output st) ++ csv_line r)%string)
    (write_header st) (results st) (failed_count st) (written st ++ [r]).

Section ScrapeUrls.

Context {E : Type} `{DocumentModel E}.

(** The world as it is during the [i]-th iteration, the output path,
    and the line the user types when asked to confirm ([None] at the
    end of the input).  The console takes what is printed. *)
Variable world : nat -> World E.
Variable disk : Disk.
Variable stdin : option string.

(** The prompt of a long run: whether to go on. *)
Definition confirm (urls : list string) : result bool :=
  if Nat.ltb MAX_URLS_WARNING (length urls) then
    match stdin with
    | Some response => Ok (String.eqb (Py.lower response) "y")
    | None => Raise EOFError
    end
  else Ok true.

(** [mode] and [write_header]. *)
Definition prepare (append : bool) : result (open_mode * bool) :=
  mode <- (if append
           then e <- path_exists disk ;; Ok (if e then mode_a else mode_w)
           else Ok mode_w) ;;
  write_header <- match mode with
                  | mode_w => Ok true
                  | mode_a => e <- path_exists disk ;; Ok (negb e)
                  end ;;
  Ok (mode, write_header).

(** The body of [for i, url in enumerate(urls, 1)]: the state it
    reaches and the exception that stopped it, if any. *)
Definition scrape_one (m : open_mode) (i : nat) (url : string) (st : loop_state)
  : loop_state * option exn :=
  let result := extract_property_data (world i) url in
  let st := mkLoop (output st) (write_header st) (results st ++ [result])
              (if has_error result then S (failed_count st) else failed_count st)
              (written st) in
  match open_raises disk i with
  | Some e => (st, Some e)
  | None =>
      let st := mkLoop (Some (open_file m (output st))) (write_header st)
                  (results st) (failed_count st) (written st) in
      let st := if write_header st
                then write fieldnames
                       (mkLoop (output st) false (results st) (failed_count st)
                          (written st))
                else st in
      match writerow result with
      | Raise e => (st, Some e)
      | Ok r => (write r st, None)
      end
  end.

Fixpoint scrape_loop (m : open_mode) (i : nat) (urls : list string) (st : loop_state)
  : loop_state * option exn :=
  match urls with
  | [] => (st, None)
  | url :: urls' =>
      match scrape_one m i url st with
      | (st', None) => scrape_loop m (S i) urls' st'
      | (st', Some e) => (st', Some e)
      end
  end.

(** [scrape_urls(urls, output_file, append)]. *)
Definition scrape_urls (urls : list string) (append : bool) : outcome :=
  match confirm urls with
  | Raise e => Crashed e (untouched disk)
  | Ok false => Exited 0
  | Ok true =>
      match prepare append with
      | Raise e => Crashed e (untouched disk)
      | Ok (mode, write_header) =>
          match scrape_loop mode 1 urls
                  (mkLoop (existing disk) write_header [] 0 []) with
          | (st, Some e) => Crashed e st
          | (st, None) =>
              (* the summary divides by len(urls) *)
              match urls with
              | [] => Crashed ZeroDivisionError st
              | _ :: _ => Finished st
              end
          end
      end
  end.

End ScrapeUrls.

(* ===================================================================== *)
(** * [read_urls_from_file] and [main] *)
(* ===================================================================== *)

(** What [open(file_path, 'r')] and reading the file give: the text of
    the file, its line ends already translated to the newline
    character as text mode does, or an exception. *)
Inductive read_result : Type :=
| FileNotFoundError
| ReadError (msg : string)        (* any other exception *)
| Content (text : string).

Definition newline : ascii := "010"%char.

(** [for line in f]: the lines of a text, each with its newline, the
    last one without when the text does not end with one.  [cur] is
    the line being read. *)
Fixpoint lines_from (cur : string) (text : string) : list string :=
  match text with
  | EmptyString => if Py.truthy cur then [cur] else []
  | String c text' =>
      if Ascii.eqb c newline
      then (cur ++ String c "")%string :: lines_from "" text'
      else lines_from (cur ++ String c "") text'
  end.

Definition lines_of (text : string) : list string := lines_from "" text.

(** A function that returns, or ends the process with [sys.exit]. *)
Inductive exit_or (A : Type) : Type :=
| Returned (a : A)
| SysExit (code : nat).

Arguments Returned {A} a.
Arguments SysExit {A} code.

(** The condition of the list comprehension. *)
Definition is_url_line (line : string) : bool :=
  Py.truthy (Py.strip line) && negb (Py.startswith "#" (Py.strip line)).

(** [[line.strip() for line in f if line.strip() and not
    line.strip().startswith('#')]] *)
Definition urls_of_lines (lines : list string) : list string :=
  map Py.strip (filter is_url_line lines).

(** [read_urls_from_file(file_path)].  [file_path] is [None] when
    [main] passes an absent [--file]; [open(None)] raises a
    [TypeError], which the second handler takes. *)
Definition read_urls_from_file (open_ : string -> read_result)
  (file_path : option string) : exit_or (list string) :=
  match file_path with
  | None => SysExit 1
  | Some path =>
      match open_ path with
      | Content text => Returned (urls_of_lines (lines_of text))
      | FileNotFoundError => SysExit 1
      | ReadError _ => SysExit 1
      end
  end.

(** The namespace [parser.parse_args()] returns. *)
Record Namespace : Type := mkNamespace {
  arg_url : option string;
  arg_file : option string;
  arg_output : option string;
  arg_append : bool
}.

Section Main.

Context {E : Type} `{DocumentModel E}.

(** What [main] meets outside: what [parser.parse_args()] does with the
    command line (it returns the namespace, or ends the process: status
    2 after a usage error, 0 after [--help]), the text files, the
    output paths, the clock reading used for the default file name, the
    worlds of the iterations and the line typed at the prompt. *)
Variable parse_args : exit_or Namespace.
Variable open_ : string -> read_result.
Variable disk_at : string -> Disk.
Variable stamp : string.     (* datetime.now().strftime('%Y-%m-%d_%H-%M') *)
Variable world : nat -> World E.
Variable stdin : option string.

Definition output_file_of (args : Namespace) : string :=
  match arg_output args with
  | Some name => if Py.truthy name then name
                 else ("zillow_data_" ++ stamp ++ ".csv")%string
  | None => ("zillow_data_" ++ stamp ++ ".csv")%string
  end.

(** The URLs [main] gathers. *)
Definition gather_urls (args : Namespace) : exit_or (list string) :=
  match arg_url args with
  | Some url => if Py.truthy url then Returned [url]
                else read_urls_from_file open_ (arg_file args)
  | None => read_urls_from_file open_ (arg_file args)
  end.

Definition main : outcome :=
  match parse_args with
  | SysExit code => Exited code
  | Returned args =>
      match gather_urls args with
      | SysExit code => Exited code
      | Returned urls =>
          if is_nil urls then Exited 1
          else scrape_urls world (disk_at (output_file_of args)) stdin urls
                 (arg_append args)
      end
  end.

End Main.

(* ===================================================================== *)
(** * Sample worlds and documents *)
(* ===================================================================== *)


(** Replace the clock reading of a world. *)
Definition at_time {E} (t : string) (w : World E) : World E :=
  mkWorld t (check_bracketed_host w) (session_get w) (html_parser w).

(** A world whose server answers by the last path segment of the URL. *)
Definition demo_get (url : string) : result Response :=
  if Py.contains "/slow" url then Raise (Timeout "read timed out")
  else if Py.contains "/missing" url then Ok (mkResponse 404 "not found")
  else if Py.contains "/refused" url then Raise (RequestException "connection refused")
  else Ok (mkResponse 200 "<html></html>").

Definition demo_world : World Bs4.PageElement :=
  mkWorld "2024-05-01 12:00:00" (fun _ => true) demo_get
    (fun _ => Ok (Bs4.BeautifulSoup [])).

(** The listing page of the specification's scenario. *)
Definition main_st_listing : list Bs4.node :=
  [ Bs4.Tag "html" [] [ Bs4.Tag "body" []
      [ Bs4.Tag "h1" [("data-testid", Bs4.Single "bdp-address")]
          [Bs4.NavigableString Bs4.Plain "123 Main St, Springfield"];
        Bs4.Tag "span" [("data-testid", Bs4.Single "price")]
          [Bs4.NavigableString Bs4.Plain "$350,000"] ] ] ].

Definition main_st_world : World Bs4.PageElement :=
  mkWorld "2024-05-01 12:00:00" (fun _ => true)
    (fun _ => Ok (mkResponse 200 "<html>...</html>"))
    (fun _ => Ok (Bs4.BeautifulSoup main_st_listing)).

(** A world whose parser hands back a document that raises. *)
Definition broken_world : World unit :=
  mkWorld "2024-05-01 12:00:00" (fun _ => true)
    (fun _ => Ok (mkResponse 200 "<html>...</html>"))
    (fun _ => Ok tt).

(** A document model every method of which raises. *)
Definition broken_document : DocumentModel unit := {|
  find := fun _ _ => Raise (Exception "boom");
  find_all := fun _ _ => Raise (Exception "boom");
  get_text := fun _ => Raise (Exception "boom");
  find_parent := fun _ => Raise (Exception "boom");
  find_next := fun _ _ => Raise (Exception "boom");
  find_next_siblings := fun _ => Raise (Exception "boom");
  find_previous_sibling := fun _ => Raise (Exception "boom");
  as_str := fun _ => Raise (Exception "boom")
|}.

(* ===================================================================== *)
(** * Notions used to state the properties *)
(* ===================================================================== *)

(** ** Records, rows and the text of the output file *)

Definition eight_columns (r : row) : Prop := length r = 8.

(** A value of a record as a cell shows it: [None] is the empty cell. *)
Definition shown (v : option (option string)) : string :=
  match v with
  | Some (Some s) => s
  | _ => ""
  end.

(** The header, and the row of a record: the eight columns in their
    order. *)
Definition header_row : row :=
  [ "url"; "address"; "lot_size"; "price"; "price_per_sqft";
    "days_on_market"; "scrape_timestamp"; "error" ].

Definition row_of (d : dict) : row :=
  [ shown (dict_get "url" d);
    shown (dict_get "address" d);
    shown (dict_get "lot_size" d);
    shown (dict_get "price" d);
    shown (dict_get "price_per_sqft" d);
    shown (dict_get "days_on_market" d);
    shown (dict_get "scrape_timestamp" d);
    shown (dict_get "error" d) ].

(** The text of some rows, one line each. *)
Fixpoint lines_of_rows (rows : list row) : string :=
  match rows with
  | [] => ""
  | r :: rows' => (csv_line r ++ lines_of_rows rows')%string
  end.

(** The records of a run, the [i]-th world serving the [i]-th URL. *)
Fixpoint records_from {E : Type} `{DocumentModel E}
  (world : nat -> World E) (i : nat) (urls : list string)
  : list dict :=
  match urls with
  | [] => []
  | url :: urls' =>
      extract_property_data (world i) url :: records_from world (S i) urls'
  end.

(** The five data fields of a record all hold the sentinel. *)
Definition data_fields_na (d : dict) : Prop :=
  map (fun k => dict_get k d) data_fields
  = map (fun _ => Some (Some "N/A")) data_fields.

(** The run is not stopped at the prompt: it is short, or the user
    answers [y]. *)
Definition goes_ahead (urls : list string) (stdin : option string) : Prop :=
  length urls <= MAX_URLS_WARNING
  \/ exists response, stdin = Some response /\ Py.lower response = "y".

(** The mode a run opens the file with, and whether its first write
    is the header. *)
Definition mode_of (append : bool) (f : file) : open_mode :=
  if append && is_some f then mode_a else mode_w.

Definition header_due (append : bool) (f : file) : bool :=
  match mode_of append f with
  | mode_w => true
  | mode_a => false
  end.

(** What an output file holds after a run that opened it with ['w']
    for each record: the last record only, under the header when the
    run had a single record. *)
Definition text_after_overwrite (records : list dict) : string :=
  match records with
  | [r] => lines_of_rows [header_row; row_of r]
  | _ => lines_of_rows [row_of (last records [])]
  end.

(** What the output file holds once the rows of [records] are written
    in a run on the file [f]: appending keeps the text of a file that
    exists and adds the rows; otherwise the file is overwritten. *)
Definition file_after (append : bool) (f : file) (records : list dict) : file :=
  match records, f with
  | [], _ => f
  | _ :: _, Some old =>
      Some (if append
            then (old ++ lines_of_rows (map row_of records))%string
            else text_after_overwrite records)
  | _ :: _, None => Some (text_after_overwrite records)
  end.

(** ** Elements and strings of a page *)

(** Case-insensitive substring test. *)
Definition mentions (kw s : string) : bool :=
  Py.contains (Py.lower kw) (Py.lower s).

(** A tag of a given name. *)
Definition tag_named (name : string) (n : Bs4.node) : bool :=
  match n with
  | Bs4.Tag nm _ _ => String.eqb nm name
  | Bs4.NavigableString _ _ => false
  end.

(** The strings an attribute value is compared as: the value; for a
    multi-valued attribute each of its values, and all of them joined
    by spaces. *)
Definition attr_strings (v : Bs4.attr_value) : list string :=
  match v with
  | Bs4.Single x => [x]
  | Bs4.Multi l => l ++ [Py.join " " l]
  end.

(** A tag that has the attribute [k] with a value satisfying [p]. *)
Definition attr_holds (k : string) (p : string -> bool) (n : Bs4.node) : bool :=
  match n with
  | Bs4.Tag _ attrs _ =>
      match Bs4.get_attr attrs k with
      | Some v => existsb p (attr_strings v)
      | None => false
      end
  | Bs4.NavigableString _ _ => false
  end.

(** A node whose single string ([.string]) satisfies [p]. *)
Definition single_string_holds (p : string -> bool) (n : Bs4.node) : bool :=
  match Bs4.string_of n with
  | Some s => p s
  | None => false
  end.

(** The nodes below an element that satisfy [mark], in document order;
    the first of them; and the first one that follows the element in
    document order. *)
Definition elements (mark : Bs4.node -> bool) (e : Bs4.PageElement)
  : list Bs4.PageElement :=
  Bs4.handles (Bs4.root e)
    (filter (fun pn => mark (snd pn)) (Bs4.descendants e)).

Definition first_element (mark : Bs4.node -> bool) (e : Bs4.PageElement)
  : option Bs4.PageElement :=
  hd_error (elements mark e).

Definition first_following (mark : Bs4.node -> bool) (e : Bs4.PageElement)
  : option Bs4.PageElement :=
  hd_error (Bs4.handles (Bs4.root e)
              (filter (fun pn => mark (snd pn)) (Bs4.next_elements e))).

(** The strings of the tree below an element, in document order: its
    text nodes, and with them the comments, the declarations and the
    strings inside [script] and [style], which the tree holds as
    strings too. *)
Definition text_nodes (e : Bs4.PageElement) : list string :=
  flat_map (fun pn => match snd pn with
                      | Bs4.NavigableString _ s => [s]
                      | Bs4.Tag _ _ _ => []
                      end) (Bs4.descendants e).

(** ** The price, in the words of the specification *)

(** The three selector strategies: a [span] whose [data-testid] is
    [price]; a [span] whose class contains [price]; a [div] whose class
    contains [price] (in any case). *)
Definition price_testid (n : Bs4.node) : bool :=
  tag_named "span" n && attr_holds "data-testid" (fun x => String.eqb x "price") n.

Definition price_class (tag : string) (n : Bs4.node) : bool :=
  tag_named tag n && attr_holds "class" (mentions "price") n.

(** One selector strategy: the first element of the page that the
    selector matches, accepted only if its text contains the currency
    symbol. *)
Definition price_strategy_spec (soup : Bs4.PageElement)
  (mark : Bs4.node -> bool) : option string :=
  match first_element mark soup with
  | Some el =>
      if Py.contains "$" (Bs4.get_text el) then Some (Bs4.get_text el) else None
  | None => None
  end.

(** The fallback: among the text nodes that contain the currency
    symbol and a digit, the first whose trimmed text starts with the
    symbol and contains a comma; of it, the first whitespace-delimited
    token. *)
Definition has_dollar_and_digit (s : string) : bool :=
  Py.contains "$" s && Py.any_isdigit s.

Definition looks_like_price (s : string) : bool :=
  Py.startswith "$" (Py.strip s) && Py.contains "," (Py.strip s).

Definition first_token (s : string) : option string :=
  hd_error (Py.split (Py.strip s)).

Definition price_fallback_spec (soup : Bs4.PageElement) : option string :=
  match List.find looks_like_price
          (filter has_dollar_and_digit (text_nodes soup)) with
  | Some s => first_token s
  | None => None
  end.

Definition price_spec (soup : Bs4.PageElement) : string :=
  match first_some (price_strategy_spec soup)
          [price_testid; price_class "span"; price_class "div"] with
  | Some t => t
  | None =>
      match price_fallback_spec soup with
      | Some w => w
      | None => "N/A"
      end
  end.

(** A page whose only price stands in a comment. *)
Definition commented_price_listing : list Bs4.node :=
  [ Bs4.Tag "div" []
      [ Bs4.NavigableString Bs4.Comment " $1,250,000 before the cut ";
        Bs4.Tag "p" [] [Bs4.NavigableString Bs4.Plain "Price on request"] ] ].

(** ** The days on market, in the words of the specification *)

(** The strings of the page that mention a label, in document order. *)
Definition label_nodes (soup : Bs4.PageElement) (kw : string)
  : list (Bs4.path * Bs4.node) :=
  filter (fun pn => match snd pn with
                    | Bs4.NavigableString _ s => mentions kw s
                    | Bs4.Tag _ _ _ => false
                    end) (Bs4.descendants soup).

(** The full text of the parent element of the node at a place. *)
Definition parent_full_text (r : Bs4.node) (p : Bs4.path) : option string :=
  option_map Bs4.get_text (Bs4.find_parent (Bs4.mkPageElement r p)).

(** The parent texts of the label nodes, label by label. *)
Definition days_full_texts (soup : Bs4.PageElement) : list (option string) :=
  flat_map (fun kw => map (fun pn => parent_full_text (Bs4.root soup) (fst pn))
                          (label_nodes soup kw))
           ["Time on Zillow"; "Days on Zillow"; "on Zillow"; "Days on market"].

(** A character of a number as the days extractor takes them. *)
Definition digit_or_comma (c : ascii) : bool :=
  Py.isdigit_char c || Ascii.eqb c ","%char.

(** A purely numeric token, commas allowed: digits and commas only,
    with a digit among them. *)
Definition purely_numeric (w : string) : bool :=
  Urllib.all_chars digit_or_comma w && Py.any_isdigit w.

(** The token after it contains [day], in any case. *)
Definition followed_by_day (following : list string) : bool :=
  match following with
  | w :: _ => mentions "day" w
  | [] => false
  end.

(** A token is taken when it is purely numeric and is followed by a
    token containing [day], or stands in a text that contains [zillow]
    or [market]. *)
Definition acceptable (full_text word : string) (following : list string) : bool :=
  purely_numeric word &&
  (followed_by_day following
   || mentions "zillow" full_text
   || mentions "market" full_text).

Fixpoint first_acceptable (full_text : string) (words : list string)
  : option string :=
  match words with
  | [] => None
  | word :: following =>
      if acceptable full_text word following then Some word
      else first_acceptable full_text following
  end.

Definition days_in_text (full_text : option string) : option string :=
  match full_text with
  | Some ft => first_acceptable ft (Py.split ft)
  | None => None
  end.




(** A listing that shows its age next to the label. *)
Definition days_listing : list Bs4.node :=
  [ Bs4.Tag "div" []
      [ Bs4.Tag "span" [] [Bs4.NavigableString Bs4.Plain " 1,204 views "];
        Bs4.Tag "span" [] [Bs4.NavigableString Bs4.Plain "12 days on Zillow"] ] ].

(** ** The lot size *)

(** A [span] whose single string contains the keyword. *)
Definition lot_label (kw : string) (n : Bs4.node) : bool :=
  tag_named "span" n && single_string_holds (Py.contains kw) n.

(** The spans the first strategy visits for a keyword, in document
    order. *)
Definition keyword_spans (soup : Bs4.PageElement) (kw : string)
  : list Bs4.PageElement :=
  elements (lot_label kw) soup.

(** The element whose text the code takes for such a span: the first
    [span] that follows the start of the span's parent in document
    order; and its text. *)
Definition lot_candidate_element (span : Bs4.PageElement)
  : option Bs4.PageElement :=
  match Bs4.find_parent span with
  | Some parent => first_following (tag_named "span") parent
  | None => None
  end.

Definition lot_candidate (span : Bs4.PageElement) : option string :=
  option_map Bs4.get_text (lot_candidate_element span).

(** The candidate value of the specification: the text of the next
    sibling element of the enclosing block. *)
Definition next_sibling_text (span : Bs4.PageElement) : option string :=
  match Bs4.find_parent span with
  | Some block =>
      option_map Bs4.get_text (hd_error (Bs4.find_next_siblings block))
  | None => None
  end.

(** A candidate is kept unless it is empty or is the keyword itself. *)
Definition lot_accept (kw : string) (candidate : option string) : option string :=
  match candidate with
  | Some t => if Py.truthy t && negb (String.eqb t kw) then Some t else None
  | None => None
  end.

(** The first strategy: the keywords in their order, for each the
    spans in document order, the first candidate kept. *)
Definition lot_method1_spec (soup : Bs4.PageElement) : option string :=
  first_some (fun kw =>
    first_some (fun span => lot_accept kw (lot_candidate span))
               (keyword_spans soup kw))
    ["Lot size"; "Lot Size"; "lot size"].

(** A span whose [data-testid] contains [lot], and a text that
    mentions a unit of area, both in any case. *)
Definition lot_fact (n : Bs4.node) : bool :=
  tag_named "span" n && attr_holds "data-testid" (mentions "lot") n.

Definition has_unit (t : string) : bool :=
  mentions "sqft" t || mentions "sq ft" t || mentions "acres" t
  || mentions "acre" t.

(** The second strategy: the first text with a unit among the spans
    whose [data-testid] contains [lot], in document order. *)
Definition lot_method2_spec (soup : Bs4.PageElement) : option string :=
  List.find has_unit (map Bs4.get_text (elements lot_fact soup)).

Definition lot_size_spec (soup : Bs4.PageElement) : string :=
  match lot_method1_spec soup with
  | Some v => v
  | None =>
      match lot_method2_spec soup with
      | Some v => v
      | None => "N/A"
      end
  end.

(** A listing whose label stands in a block of its own, the value in
    the next block; the place of the label span in it. *)
Definition lot_block_page : Bs4.PageElement :=
  Bs4.BeautifulSoup
    [ Bs4.Tag "div" []
        [ Bs4.Tag "div" []
            [Bs4.Tag "span" [] [Bs4.NavigableString Bs4.Plain "Lot size"]];
          Bs4.Tag "div" [] [Bs4.NavigableString Bs4.Plain "7,405 sqft"] ] ].

Definition lot_block_label : Bs4.PageElement :=
  Bs4.mkPageElement (Bs4.root lot_block_page) [0; 0; 0].

(** A listing whose lot-size label and value share one span. *)
Definition lot_listing : Bs4.PageElement :=
  Bs4.BeautifulSoup
    [ Bs4.Tag "div" []
        [ Bs4.Tag "span" [] [Bs4.NavigableString Bs4.Plain "Lot size: big"];
          Bs4.Tag "b" [] [Bs4.NavigableString Bs4.Plain "1 acre"] ];
      Bs4.Tag "p" [] [Bs4.NavigableString Bs4.Plain "7,405 sqft"] ].

(** A listing whose spans stand at the top of the document. *)
Definition lot_top_listing : Bs4.PageElement :=
  Bs4.BeautifulSoup
    [ Bs4.Tag "span" [] [Bs4.NavigableString Bs4.Plain "Lot size: big"];
      Bs4.Tag "span" [] [Bs4.NavigableString Bs4.Plain "1 acre"] ].

(** A page with a lot size in a labelled fact. *)
Definition lot_fact_listing : Bs4.PageElement :=
  Bs4.BeautifulSoup
    [ Bs4.Tag "span" [("data-testid", Bs4.Single "facts-lot")]
        [Bs4.NavigableString Bs4.Plain "0.25 Acres"] ].

(** ** The price per square foot *)

(** A [span] whose single string mentions the label, in any case. *)
Definition sqft_label (label : string) (n : Bs4.node) : bool :=
  tag_named "span" n && single_string_holds (mentions label) n.

(** A [span] whose [data-testid] contains [price-per-sqft], in any
    case. *)
Definition sqft_fact (n : Bs4.node) : bool :=
  tag_named "span" n && attr_holds "data-testid" (mentions "price-per-sqft") n.

(** The search of the second strategy of the price-per-sqft extractor. *)
Definition sqft_testid : criteria :=
  by_tag "span" [("data-testid", Lambda (lower_has "price-per-sqft"))].

Definition has_dollar (t : string) : bool := Py.contains "$" t.

(** The value looked for around a label span: the first text with a
    dollar sign among the later sibling elements of its parent, else
    the text of the nearest earlier sibling element if it has one. *)
Definition sqft_value_near (span : Bs4.PageElement) : option string :=
  match Bs4.find_parent span with
  | Some parent =>
      match List.find has_dollar
              (map Bs4.get_text (Bs4.find_next_siblings parent)) with
      | Some t => Some t
      | None =>
          match Bs4.find_previous_sibling parent with
          | Some prev =>
              if has_dollar (Bs4.get_text prev) then Some (Bs4.get_text prev)
              else None
          | None => None
          end
      end
  | None => None
  end.

Definition sqft_labels_spec (soup : Bs4.PageElement) : option string :=
  first_some (fun label =>
    first_some sqft_value_near (elements (sqft_label label) soup))
    ["$/sqft"; "per sqft"; "Price/sqft"].

Definition sqft_spec (soup : Bs4.PageElement) : string :=
  match sqft_labels_spec soup with
  | Some v => v
  | None =>
      match first_element sqft_fact soup with
      | Some el => Bs4.get_text el
      | None => "N/A"
      end
  end.

(** A page whose price per square foot stands before its label, and a
    page whose only mention of it is an empty element. *)
Definition sqft_listing : Bs4.PageElement :=
  Bs4.BeautifulSoup
    [ Bs4.Tag "div" []
        [ Bs4.Tag "b" [] [Bs4.NavigableString Bs4.Plain " $212 "];
          Bs4.Tag "div" [] [Bs4.Tag "span" [] [Bs4.NavigableString Bs4.Plain "Price/sqft"]];
          Bs4.Tag "i" [] [Bs4.NavigableString Bs4.Plain "approx."] ] ].

Definition empty_sqft_listing : Bs4.PageElement :=
  Bs4.BeautifulSoup
    [ Bs4.Tag "span" [("data-testid", Bs4.Single "Price-Per-Sqft")] [] ].

(** ** The address *)

(** One selector of the address extractor on a tree: the text of the
    first element it matches, when not empty. *)
Definition address_strategy (soup : Bs4.PageElement) (sel : criteria)
  : option string :=
  match Bs4.find soup sel with
  | Some el =>
      if Py.truthy (Bs4.get_text el) then Some (Bs4.get_text el) else None
  | None => None
  end.

(** [v] is the text, not empty, of an [h1] element of the page. *)
Definition is_h1_text (soup : Bs4.PageElement) (v : string) : Prop :=
  Py.truthy v = true
  /\ exists p attrs cs,
       In (p, Bs4.Tag "h1" attrs cs) (Bs4.descendants soup)
       /\ v = Bs4.get_text (Bs4.mkPageElement (Bs4.root soup) p).

(** A page without headings, spans and divisions, and without a string
    that holds a dollar sign or mentions a label of the days on
    market. *)
Definition plain_page (contents : list Bs4.node) : Prop :=
  forall p n,
    In (p, n) (Bs4.descendants (Bs4.BeautifulSoup contents)) ->
    match n with
    | Bs4.Tag name _ _ => name <> "h1" /\ name <> "span" /\ name <> "div"
    | Bs4.NavigableString _ s =>
        Py.contains "$" s = false
        /\ forall label,
             In label ["Time on Zillow"; "Days on Zillow"; "on Zillow";
                       "Days on market"] ->
             mentions label s = false
    end.

Definition plain_listing : list Bs4.node :=
  [ Bs4.Tag "html" [] [ Bs4.Tag "body" []
      [ Bs4.Tag "p" [] [Bs4.NavigableString Bs4.Plain "Sold. Time on the market: 3 weeks"];
        Bs4.NavigableString Bs4.Comment " no listing data " ] ] ].

(** ** Runs of the record assembler *)

(** Case analysis on every call into the outside world or into an
    extractor that a run of [extract_property_data] makes. *)
Ltac run_cases :=
  repeat (simpl;
    match goal with
    | |- context [match ?x with _ => _ end] =>
        lazymatch x with
        | context [match _ with _ => _ end] => fail
        | context [if _ then _ else _] => fail
        | _ => first [ is_var x; destruct x | destruct x eqn:? ]
        end
    | |- context [if ?x then _ else _] =>
        lazymatch x with
        | context [match _ with _ => _ end] => fail
        | _ => destruct x eqn:?
        end
    end).

Ltac run_unfold :=
  unfold extract_property_data, extract_property_data_trace,
    extract_property_data_run, try_except, fetch_and_extract, extract_into,
    on_exception, run_bind, lift, emit, assign.

(** The events of a run that goes through: the fetch, the parse and
    the five extractors in their order. *)
Definition full_trace (url : string) : list event :=
  [ Fetch url; ParseHtml; Extract "address"; Extract "lot_size";
    Extract "price"; Extract "price_per_sqft"; Extract "days_on_market" ].

(** The error of a record is not [None]. *)
Definition failed (r : dict) : bool :=
  match dict_get "error" r with
  | Some (Some _) => true
  | _ => false
  end.

(** The record of a run in which everything succeeded. *)
Definition complete_record (url timestamp address lot_size price
  price_per_sqft days_on_market : string) : dict :=
  [ ("url", Some url);
    ("address", Some address);
    ("lot_size", Some lot_size);
    ("price", Some price);
    ("price_per_sqft", Some price_per_sqft);
    ("days_on_market", Some days_on_market);
    ("scrape_timestamp", Some timestamp);
    ("error", None) ].

(** The error tag [extract_property_data] records for an exception
    raised inside its [try] block, by the class of the exception. *)
Definition error_tag (e : exn) : string :=
  match e with
  | Timeout _ => "Request timeout"
  | HTTPError code => ("HTTP " ++ Py.str_int code)%string
  | RequestException msg => ("Request failed: " ++ msg)%string
  | Exception msg => ("Parsing error: " ++ msg)%string
  end.

(** A URL as [read_urls_from_file] returns them: not empty, without
    whitespace at either end, not a comment, on one line. *)
Definition clean_url (u : string) : Prop :=
  Py.truthy u = true
  /\ Py.strip u = u
  /\ Py.startswith "#" u = false
  /\ Py.contains (String newline "") u = false.

(** A text file with one URL per line. *)
Fixpoint one_per_line (urls : list string) : string :=
  match urls with
  | [] => ""
  | u :: urls' => (u ++ String newline (one_per_line urls'))%string
  end.

(* ===================================================================== *)
(** * Properties of the record assembler *)
(* ===================================================================== *)

(** Closes a goal that is a disjunction of equations, some under an
    existential, one of which holds by computation. *)
Ltac one_of :=
  solve [ repeat first [ reflexivity
                       | eexists; reflexivity
                       | left; reflexivity
                       | left; eexists; reflexivity
                       | right ] ].

Section AssemblerFacts.

Context {E : Type} `{DocumentModel E}.

Lemma try_or_total (dflt : string) (body : result (option string)) :
  exists v, try_or dflt body = Ok v.
Proof.
  destruct body as [[v|]|e]; simpl; eauto.
Qed.

Lemma validate_url_notzillow (w : World E) :
  validate_url w "https://www.notzillow.com/x" = true.
Proof. reflexivity. Qed.

End AssemblerFacts.

Section AssemblerProps.

Context {E : Type} `{DocumentModel E}.

Lemma extract_property_data_keys (w : World E) (url : string) :
  keys (extract_property_data w url) = fieldnames.
Proof.
  run_unfold.
  destruct (validate_url w url); simpl; [|reflexivity].
  run_cases; reflexivity.
Qed.

Lemma writerow_record (w : World E) (url : string) :
  writerow (extract_property_data w url)
  = Ok (row_of (extract_property_data w url)).
Proof.
  unfold writerow. rewrite extract_property_data_keys. reflexivity.
Qed.

Lemma error_tags (w : World E) (url : string) :
  let error := dict_get "error" (extract_property_data w url) in
  error = Some None
  \/ error = Some (Some "Invalid Zillow URL")
  \/ error = Some (Some "Request timeout")
  \/ (exists code, error = Some (Some ("HTTP " ++ Py.str_int code)%string))
  \/ (exists msg, error = Some (Some ("Request failed: " ++ msg)%string))
  \/ (exists msg, error = Some (Some ("Parsing error: " ++ msg)%string)).
Proof.
  simpl. run_unfold.
  destruct (validate_url w url); simpl; [|one_of].
  run_cases; one_of.
Qed.

(** The test [if result['error']] holds exactly for the records whose
    error is not [None]: no error tag is the empty string. *)
Lemma has_error_failed (w : World E) (url : string) :
  has_error (extract_property_data w url) = failed (extract_property_data w url).
Proof.
  unfold has_error, failed.
  destruct (error_tags w url)
    as [He | [He | [He | [[c He] | [[m He] | [m He]]]]]];
    simpl in He; rewrite He; reflexivity.
Qed.

End AssemblerProps.

(* ===================================================================== *)
(** * The loop of [scrape_urls] *)
(* ===================================================================== *)

Lemma string_app_assoc (a b c : string) :
  ((a ++ b) ++ c = a ++ (b ++ c))%string.
Proof. induction a as [|x a IH]; simpl; [reflexivity|]. rewrite IH. reflexivity. Qed.

Lemma string_app_nil_r (a : string) : (a ++ "")%string = a.
Proof. induction a as [|x a IH]; simpl; [reflexivity|]. rewrite IH. reflexivity. Qed.

Lemma lines_of_rows_app (rows1 rows2 : list row) :
  lines_of_rows (rows1 ++ rows2)
  = (lines_of_rows rows1 ++ lines_of_rows rows2)%string.
Proof.
  induction rows1 as [|r rows1 IH]; simpl; [reflexivity|].
  rewrite IH, string_app_assoc. reflexivity.
Qed.

Section LoopFacts.

Context {E : Type} `{DocumentModel E}.
Variable world : nat -> World E.
Variable disk : Disk.

(** The rows one iteration writes. *)
Let rows_of_iteration (st : loop_state) (i : nat) (url : string) : list row :=
  (if write_header st then [header_row] else [])
  ++ [row_of (extract_property_data (world i) url)].

Let counted (st : loop_state) (i : nat) (url : string) : nat :=
  if has_error (extract_property_data (world i) url)
  then S (failed_count st) else failed_count st.

(** An iteration whose [open] raises: the record is made and counted,
    nothing is written. *)
Lemma scrape_one_refused m i url st e :
  open_raises disk i = Some e ->
  scrape_one world disk m i url st
  = (mkLoop (output st) (write_header st)
       (results st ++ [extract_property_data (world i) url])
       (counted st i url) (written st),
     Some e).
Proof. intros Ho. unfold scrape_one. rewrite Ho. reflexivity. Qed.

(** An iteration whose [open] returns: the header, if due, and the row
    of the record are written after what [open] left of the file. *)
Lemma scrape_one_written m i url st :
  open_raises disk i = None ->
  scrape_one world disk m i url st
  = (mkLoop
       (Some (open_file m (output st)
              ++ lines_of_rows (rows_of_iteration st i url))%string)
       false
       (results st ++ [extract_property_data (world i) url])
       (counted st i url)
       (written st ++ rows_of_iteration st i url),
     None).
Proof.
  intros Ho. unfold scrape_one, rows_of_iteration, counted.
  rewrite Ho, writerow_record.
  destruct (write_header st); cbn; unfold write; cbn;
    rewrite ?string_app_assoc, ?string_app_nil_r, <- ?app_assoc; reflexivity.
Qed.

(** What a run of the loop leaves: [k] iterations went through, and
    the file, the rows written, the records and the tally are those of
    the first [k] URLs; an exception, if any, is the one [open] raised
    in the next iteration, whose record was made and counted but not
    written. *)
Lemma scrape_loop_run (m : open_mode) (urls : list string) :
  forall i st st' oe,
    scrape_loop world disk m i urls st = (st', oe) ->
    exists k,
      k <= length urls
      /\ (forall j, j < k -> open_raises disk (i + j) = None)
      /\ (let done := records_from world i (firstn k urls) in
          written st'
          = written st
            ++ (if write_header st && negb (is_nil done) then [header_row] else [])
            ++ map row_of done
          /\ output st'
             = match done with
               | [] => output st
               | _ :: _ =>
                   Some (match m with
                         | mode_a =>
                             text_of (output st)
                             ++ lines_of_rows
                                  ((if write_header st then [header_row] else [])
                                   ++ map row_of done)
                         | mode_w =>
                             lines_of_rows
                               ((if write_header st && is_nil (tl done)
                                 then [header_row] else [])
                                ++ [row_of (last done [])])
                         end)%string
               end)
      /\ (let made := records_from world i
                        (firstn (match oe with None => k | Some _ => S k end) urls) in
          results st' = results st ++ made
          /\ failed_count st' = failed_count st + length (filter failed made))
      /\ match oe with
         | None => k = length urls
         | Some e => k < length urls /\ open_raises disk (i + k) = Some e
         end.
Proof.
  induction urls as [|url urls IH]; intros i st st' oe Hrun.
  - cbn in Hrun. injection Hrun as <- <-. exists 0. cbn.
    rewrite andb_false_r, !app_nil_r, Nat.add_0_r.
    split; [lia|]. split; [intros j Hj; lia|].
    repeat split; reflexivity.
  - cbn [scrape_loop] in Hrun.
    destruct (open_raises disk i) as [e|] eqn:Ho.
    + rewrite (@scrape_one_refused m i url st e Ho) in Hrun.
      injection Hrun as <- <-. exists 0. cbn.
      rewrite andb_false_r, !app_nil_r, Nat.add_0_r.
      unfold counted. rewrite has_error_failed.
      split; [lia|]. split; [intros j Hj; lia|].
      split; [split; reflexivity|]. split; [split; [reflexivity|]|].
      * destruct (failed _); cbn; lia.
      * split; [lia | exact Ho].
    + rewrite (@scrape_one_written m i url st Ho) in Hrun.
      apply IH in Hrun.
      destruct Hrun as [k [Hk [Hopen [[Hw Hout] [[Hr Hf] Hoe]]]]].
      cbn [written output results failed_count write_header] in Hw, Hout, Hr, Hf.
      exists (S k). cbn [firstn length records_from].
      split; [lia|]. split.
      { intros j Hj. destruct j as [|j]; [rewrite Nat.add_0_r; exact Ho|].
        rewrite Nat.add_succ_r. apply (Hopen j). lia. }
      split; [split|split; [split|]].
      * rewrite Hw. unfold rows_of_iteration. cbn [is_nil negb andb map].
        rewrite andb_true_r, <- !app_assoc. reflexivity.
      * rewrite Hout. unfold rows_of_iteration.
        destruct (records_from world (S i) (firstn k urls)) as [|r rs] eqn:Hrs.
        -- cbn [tl is_nil map last]. rewrite andb_true_r.
           destruct m; cbn [open_file]; reflexivity.
        -- f_equal. destruct m; cbn [open_file text_of].
           ++ rewrite string_app_assoc, <- lines_of_rows_app, <- app_assoc.
              reflexivity.
           ++ cbn [tl is_nil andb app]. rewrite andb_false_r. reflexivity.
      * destruct oe; rewrite Hr; cbn [firstn records_from];
          rewrite <- app_assoc; reflexivity.
      * destruct oe; rewrite Hf; cbn [firstn records_from filter];
          unfold counted; rewrite has_error_failed;
          destruct (failed (extract_property_data (world i) url)); cbn; lia.
      * destruct oe as [e|].
        -- destruct Hoe as [Hlt He]. split; [lia|].
           rewrite Nat.add_succ_r. exact He.
        -- rewrite Hoe. reflexivity.
Qed.

End LoopFacts.

Section ScrapeUrlsFacts.

Context {E : Type} `{DocumentModel E}.
Variable world : nat -> World E.
Variable disk : Disk.
Variable stdin : option string.

Lemma confirm_cases (urls : list string) :
  match confirm stdin urls with
  | Ok true => goes_ahead urls stdin
  | Ok false =>
      MAX_URLS_WARNING < length urls
      /\ exists response, stdin = Some response /\ Py.lower response <> "y"
  | Raise e => MAX_URLS_WARNING < length urls /\ stdin = None /\ e = EOFError
  end.
Proof.
  unfold confirm, goes_ahead.
  destruct (Nat.ltb MAX_URLS_WARNING (length urls)) eqn:Hlt.
  - apply Nat.ltb_lt in Hlt. destruct stdin as [response|]; [|auto].
    destruct (String.eqb_spec (Py.lower response) "y") as [Hy|Hy].
    + right. exists response. auto.
    + split; [exact Hlt|]. exists response. auto.
  - apply Nat.ltb_ge in Hlt. left. exact Hlt.
Qed.

Lemma prepare_cases (append : bool) :
  match prepare disk append with
  | Ok (mode, first) =>
      (append = true -> stat_raises disk = None)
      /\ mode = mode_of append (existing disk)
      /\ first = header_due append (existing disk)
  | Raise e => append = true /\ stat_raises disk = Some e
  end.
Proof.
  unfold prepare, path_exists, mode_of, header_due.
  destruct append; cbn; [|repeat split; discriminate].
  destruct (stat_raises disk) as [e|]; cbn; [auto|].
  destruct (existing disk); cbn; auto.
Qed.

(** The ways a call of [scrape_urls] goes: it stops at the prompt, or
    at the test for the output file, or it runs the loop. *)
Lemma scrape_urls_run (urls : list string) (append : bool) :
  let o := scrape_urls world disk stdin urls append in
  (MAX_URLS_WARNING < length urls
   /\ ((stdin = None /\ o = Crashed EOFError (untouched disk))
       \/ (exists response,
             stdin = Some response /\ Py.lower response <> "y"
             /\ o = Exited 0)))
  \/ (goes_ahead urls stdin
      /\ ((exists e, append = true /\ stat_raises disk = Some e
                     /\ o = Crashed e (untouched disk))
          \/ ((append = true -> stat_raises disk = None)
              /\ exists st oe,
                   scrape_loop world disk (mode_of append (existing disk)) 1 urls
                     (mkLoop (existing disk)
                        (header_due append (existing disk)) [] 0 [])
                   = (st, oe)
                   /\ o = match oe with
                          | Some e => Crashed e st
                          | None =>
                              match urls with
                              | [] => Crashed ZeroDivisionError st
                              | _ :: _ => Finished st
                              end
                          end))).
Proof.
  cbv zeta. unfold scrape_urls.
  pose proof (confirm_cases urls) as Hc.
  destruct (confirm stdin urls) as [[|]|e].
  - right. split; [exact Hc|].
    pose proof (prepare_cases append) as Hp.
    destruct (prepare disk append) as [[mode first]|e].
    + right. destruct Hp as [Hstat [-> ->]]. split; [exact Hstat|].
      destruct (scrape_loop world disk _ 1 urls _) as [st oe].
      exists st, oe. split; [reflexivity|]. destruct oe; reflexivity.
    + left. exists e. destruct Hp as [Ha Hs]. auto.
  - left. destruct Hc as [Hlt [response [Hs Hy]]]. split; [exact Hlt|].
    right. exists response. auto.
  - left. destruct Hc as [Hlt [Hs ->]]. split; [exact Hlt|]. left. auto.
Qed.

End ScrapeUrlsFacts.

(* ===================================================================== *)
(** * The validator and the assembler *)
(* ===================================================================== *)

(** C1.  On the URL [https://www.notzillow.com/x] the validator answers
    [True], because [zillow.com] is a substring of the network location
    [www.notzillow.com]; so the page is fetched, and the error of the
    record is never [Invalid Zillow URL]. *)
Theorem notzillow_url_is_accepted_and_fetched
  {E : Type} `{DocumentModel E} (w : World E) :
  let url := "https://www.notzillow.com/x" in
  validate_url w url = true
  /\ hd_error (extract_property_data_trace w url) = Some (Fetch url)
  /\ dict_get "error" (extract_property_data w url)
     <> Some (Some "Invalid Zillow URL").
Proof.
  simpl. split; [reflexivity|].
  run_unfold. rewrite validate_url_notzillow. simpl.
  split.
  - run_cases; reflexivity.
  - run_cases; discriminate.
Qed.

(** C2.  The URL [https://zillow.com@evil.example/x] has the host
    [evil.example], which does not contain [zillow.com]; its network
    location is [zillow.com@evil.example], which does; the validator
    tests the network location, answers [True], and the page is
    fetched. *)
Theorem userinfo_url_is_accepted_and_fetched
  {E : Type} `{DocumentModel E} (w : World E) :
  let url := "https://zillow.com@evil.example/x" in
  (exists parsed,
     Urllib.urlparse (check_bracketed_host w) url = Ok parsed
     /\ Urllib.netloc parsed = "zillow.com@evil.example"
     /\ Urllib.hostname parsed = Some "evil.example")
  /\ Py.contains "zillow.com" (Py.lower "evil.example") = false
  /\ validate_url w url = true
  /\ hd_error (extract_property_data_trace w url) = Some (Fetch url).
Proof.
  simpl.
  assert (Hv : validate_url w "https://zillow.com@evil.example/x" = true)
    by reflexivity.
  split; [eexists; repeat split; reflexivity|].
  split; [reflexivity|]. split; [exact Hv|].
  run_unfold. rewrite Hv. simpl. run_cases; reflexivity.
Qed.

(** What the validator does guarantee.  A URL whose network location,
    as [urlparse] gives it, does not contain [zillow.com]
    (case-insensitive) is not valid; a URL that [urlparse] refuses is
    not valid either, and no exception escapes; and for a URL that is
    not valid nothing is fetched: the record is returned with the
    error [Invalid Zillow URL] and no event. *)
Lemma netloc_without_zillow_is_rejected
  {E : Type} `{DocumentModel E} (w : World E) (url : string) :
  (exists e, Urllib.urlparse (check_bracketed_host w) url = Raise e)
  \/ (exists parsed,
        Urllib.urlparse (check_bracketed_host w) url = Ok parsed
        /\ Py.contains "zillow.com" (Py.lower (Urllib.netloc parsed)) = false) ->
  validate_url w url = false
  /\ extract_property_data_trace w url = []
  /\ dict_get "error" (extract_property_data w url)
     = Some (Some "Invalid Zillow URL").
Proof.
  intros Hurl.
  assert (Hv : validate_url w url = false).
  { unfold validate_url.
    destruct Hurl as [[e ->] | [parsed [-> Hsub]]]; simpl; auto. }
  split; [exact Hv|].
  run_unfold. rewrite Hv. simpl. split; reflexivity.
Qed.

Lemma netloc_without_zillow_examples :
  (validate_url demo_world "https://www.example.com/x" = false
   /\ extract_property_data_trace demo_world "https://www.example.com/x" = [])
  /\ validate_url demo_world "http://[::1/x" = false.
Proof.
  split.
  - destruct (netloc_without_zillow_is_rejected demo_world "https://www.example.com/x")
      as [Hv [Ht _]].
    + right. eexists. split; reflexivity.
    + split; assumption.
  - apply (netloc_without_zillow_is_rejected demo_world "http://[::1/x").
    left. eexists. reflexivity.
Defined.

(** C7.  For a valid URL whose fetch fails, the error of the record is
    [Request timeout] after a timeout, [HTTP <status>] after an HTTP
    error status, and [Request failed: <message>] after any other
    failure of the request; in the three cases the five data fields
    are still [N/A] and the only event is the fetch: the page is
    neither parsed nor searched. *)
Theorem fetch_failure_record
  {E : Type} `{DocumentModel E} (w : World E) (url : string) :
  validate_url w url = true ->
  let failed_with (err : string) :=
    dict_get "error" (extract_property_data w url) = Some (Some err)
    /\ data_fields_na (extract_property_data w url)
    /\ extract_property_data_trace w url = [Fetch url] in
  (forall msg, session_get w url = Raise (Timeout msg) ->
     failed_with "Request timeout")
  /\ (forall code body,
        session_get w url = Ok (mkResponse code body) ->
        400 <= code < 600 ->
        failed_with ("HTTP " ++ Py.str_int code)%string)
  /\ (forall code,
        session_get w url = Raise (HTTPError code) ->
        failed_with ("HTTP " ++ Py.str_int code)%string)
  /\ (forall msg, session_get w url = Raise (RequestException msg) ->
        failed_with ("Request failed: " ++ msg)%string).
Proof.
  intros Hv. simpl.
  assert (Hcode : forall code, 400 <= code < 600 ->
            forall body, raise_for_status (mkResponse code body)
                         = Raise (HTTPError code)).
  { intros code Hc body. unfold raise_for_status. simpl status_code.
    replace (Nat.leb 400 code) with true by (symmetry; apply Nat.leb_le; lia).
    replace (Nat.ltb code 600) with true by (symmetry; apply Nat.ltb_lt; lia).
    reflexivity. }
  split; [|split; [|split]].
  - intros msg Hg. run_unfold. rewrite Hv, Hg. repeat split.
  - intros code body Hg Hc. run_unfold. rewrite Hv, Hg.
    cbv beta iota zeta delta [negb snd fst].
    rewrite (Hcode code Hc body). repeat split.
  - intros code Hg. run_unfold. rewrite Hv, Hg. repeat split.
  - intros msg Hg. run_unfold. rewrite Hv, Hg. repeat split.
Qed.

Lemma fetch_failure_record_witness :
  dict_get "error" (extract_property_data demo_world "https://www.zillow.com/slow")
    = Some (Some "Request timeout")
  /\ dict_get "error" (extract_property_data demo_world "https://www.zillow.com/missing")
    = Some (Some "HTTP 404")
  /\ dict_get "error" (extract_property_data demo_world "https://www.zillow.com/refused")
    = Some (Some "Request failed: connection refused")
  /\ extract_property_data_trace demo_world "https://www.zillow.com/missing"
    = [Fetch "https://www.zillow.com/missing"].
Proof.
  split; [|split; [|split]].
  - destruct (@fetch_failure_record _ _ demo_world "https://www.zillow.com/slow"
                eq_refl) as [Ht _].
    apply (Ht "read timed out" eq_refl).
  - destruct (@fetch_failure_record _ _ demo_world "https://www.zillow.com/missing"
                eq_refl) as [_ [Hs _]].
    apply (Hs 404 "not found" eq_refl). lia.
  - destruct (@fetch_failure_record _ _ demo_world "https://www.zillow.com/refused"
                eq_refl) as [_ [_ [_ Hr]]].
    apply (Hr "connection refused" eq_refl).
  - destruct (@fetch_failure_record _ _ demo_world "https://www.zillow.com/missing"
                eq_refl) as [_ [Hs _]].
    apply (Hs 404 "not found" eq_refl). lia.
Defined.

Lemma row_of_eight (d : dict) : eight_columns (row_of d).
Proof. reflexivity. Qed.

Lemma header_if_eight (b : bool) :
  Forall eight_columns (if b then [header_row] else []).
Proof. destruct b; repeat constructor. Qed.

Lemma rows_of_eight (records : list dict) :
  Forall eight_columns (map row_of records).
Proof.
  apply Forall_forall. intros r Hin. apply in_map_iff in Hin.
  destruct Hin as [d [<- _]]. apply row_of_eight.
Qed.

(** C8.  The record returned for any URL, whether the extraction
    succeeded or failed, has the eight keys [url], [address],
    [lot_size], [price], [price_per_sqft], [days_on_market],
    [scrape_timestamp], [error], in this order.  Whatever way a run of
    [scrape_urls] ends, also by an exception, the rows it has handed to
    the writer are the header of these eight names, at most once and
    first, and one row per URL for the URLs it got to, each of the
    eight cells of the record in the same order; and the output file is
    as it was, or holds what [open] kept of it followed by the lines of
    rows of eight cells. *)
Theorem schema_is_stable {E : Type} `{DocumentModel E} :
  (forall (w : World E) (url : string),
     keys (extract_property_data w url)
     = ["url"; "address"; "lot_size"; "price"; "price_per_sqft";
        "days_on_market"; "scrape_timestamp"; "error"])
  /\ (forall (world : nat -> World E) disk stdin urls append,
        let stable st :=
          Forall eight_columns (written st)
          /\ (exists k header,
                k <= length urls
                /\ (header = []
                    \/ header = [["url"; "address"; "lot_size"; "price";
                                  "price_per_sqft"; "days_on_market";
                                  "scrape_timestamp"; "error"]])
                /\ written st
                   = header ++ map row_of (records_from world 1 (firstn k urls)))
          /\ (output st = existing disk
              \/ exists kept rows,
                   output st = Some (kept ++ lines_of_rows rows)%string
                   /\ Forall eight_columns rows
                   /\ (kept = "" \/ existing disk = Some kept)) in
        match scrape_urls world disk stdin urls append with
        | Finished st => stable st
        | Crashed _ st => stable st
        | Exited code => code = 0 /\ MAX_URLS_WARNING < length urls
        end).
Proof.
  split; [intros; apply extract_property_data_keys|].
  intros world disk stdin urls append stable.
  assert (Hfresh : stable (untouched disk)).
  { split; [constructor|]. split; [|left; reflexivity].
    exists 0, []. split; [lia|]. split; [left|]; reflexivity. }
  destruct (scrape_urls_run world disk stdin urls append)
    as [[Hlt [[_ ->] | [response [_ [_ ->]]]]]
       | [_ [[e [_ [_ ->]]] | [_ [st [oe [Hrun Ho]]]]]]];
    try exact Hfresh; [split; [reflexivity | exact Hlt]|].
  assert (Hst : stable st).
  { apply scrape_loop_run in Hrun.
    destruct Hrun as [k [Hk [_ [[Hw Hout] _]]]].
    cbn [written output write_header app] in Hw, Hout.
    set (done := records_from world 1 (firstn k urls)) in *.
    split; [|split].
    - rewrite Hw. apply Forall_app. split; [|apply rows_of_eight].
      apply header_if_eight.
    - exists k. eexists. split; [exact Hk|]. split; [|exact Hw].
      destruct (_ && _); [right | left]; reflexivity.
    - rewrite Hout. destruct done as [|r rs]; [left; reflexivity|].
      right. destruct (mode_of append (existing disk)).
      + exists (text_of (existing disk)). eexists.
        split; [reflexivity|]. split.
        * apply Forall_app. split; [|apply (rows_of_eight (r :: rs))].
          apply header_if_eight.
        * destruct (existing disk); [right | left]; reflexivity.
      + exists "". eexists. split; [reflexivity|]. split; [|left; reflexivity].
        apply Forall_app. split; [apply header_if_eight|].
        constructor; [apply row_of_eight | constructor]. }
  rewrite Ho. destruct oe; [exact Hst|]. destruct urls; exact Hst.
Qed.

(** C9.  Two runs on the same URL in worlds that differ only by the
    clock return records that agree on [url], the five data fields and
    [error], and do the same things to the outside: the second record
    is the first with its [scrape_timestamp] replaced. *)
Theorem extraction_is_repeatable
  {E : Type} `{DocumentModel E} (w : World E) (t1 t2 : string) (url : string) :
  let r1 := extract_property_data (at_time t1 w) url in
  let r2 := extract_property_data (at_time t2 w) url in
  r2 = dict_set "scrape_timestamp" (Some t2) r1
  /\ map (fun k => dict_get k r1) ("url" :: data_fields ++ ["error"])
     = map (fun k => dict_get k r2) ("url" :: data_fields ++ ["error"])
  /\ dict_get "scrape_timestamp" r1 = Some (Some t1)
  /\ dict_get "scrape_timestamp" r2 = Some (Some t2)
  /\ extract_property_data_trace (at_time t1 w) url
     = extract_property_data_trace (at_time t2 w) url.
Proof.
  simpl. run_unfold. unfold validate_url. simpl.
  run_cases; repeat split; reflexivity.
Qed.

(* ===================================================================== *)
(** * Loops and strings *)
(* ===================================================================== *)

Lemma for_some {A B} (xs : list A) (body : A -> result (option B)) (v : B) :
  for_ xs body = Ok (Some v) ->
  exists x, In x xs /\ body x = Ok (Some v).
Proof.
  induction xs as [|x xs IH]; simpl; [discriminate|].
  destruct (body x) as [[b|]|e] eqn:Hb; simpl; intros Hf.
  - injection Hf as <-. exists x. auto.
  - destruct (IH Hf) as [y [Hin Hy]]. exists y. auto.
  - discriminate.
Qed.

Lemma for_none {A B} (xs : list A) (body : A -> result (option B)) :
  (forall x, In x xs -> body x = Ok None) ->
  for_ xs body = Ok None.
Proof.
  induction xs as [|x xs IH]; simpl; intros Hb; [reflexivity|].
  rewrite (Hb x (or_introl eq_refl)). simpl. apply IH. intros; apply Hb; auto.
Qed.

Lemma for_pure {A B} (xs : list A) (body : A -> result (option B))
  (f : A -> option B) :
  (forall x, In x xs -> body x = Ok (f x)) ->
  for_ xs body = Ok (first_some f xs).
Proof.
  induction xs as [|x xs IH]; simpl; intros Hb; [reflexivity|].
  rewrite (Hb x (or_introl eq_refl)). simpl.
  destruct (f x); [reflexivity|]. apply IH. intros; apply Hb; auto.
Qed.

Lemma first_some_in {A B} (f : A -> option B) (xs : list A) (b : B) :
  first_some f xs = Some b -> exists x, In x xs /\ f x = Some b.
Proof.
  induction xs as [|x xs IH]; simpl; [discriminate|].
  destruct (f x) eqn:Hf; intros Hs.
  - injection Hs as <-. eauto.
  - destruct (IH Hs) as [y [Hin Hy]]. eauto.
Qed.

Lemma first_some_none {A B} (f : A -> option B) (xs : list A) :
  first_some f xs = None <-> forall x, In x xs -> f x = None.
Proof.
  induction xs as [|x xs IH]; simpl.
  - split; [intros _ x []| reflexivity].
  - destruct (f x) eqn:Hf; split.
    + discriminate.
    + intros Hall. rewrite <- Hf. apply Hall. auto.
    + intros Hn y [<-|Hin]; [exact Hf|]. apply IH; assumption.
    + intros Hall. apply IH. intros; apply Hall; auto.
Qed.

Lemma contains_truthy (sub s : string) :
  Py.truthy sub = true -> Py.contains sub s = true -> Py.truthy s = true.
Proof.
  destruct s; [|reflexivity].
  destruct sub; simpl; [discriminate|]. intros _ Hc. discriminate.
Qed.

Lemma contains_startswith (p s : string) :
  Py.startswith p s = true -> Py.contains p s = true.
Proof.
  intros Hp. destruct s; simpl in *; rewrite Hp; reflexivity.
Qed.

Lemma startswith_app (p u : string) : Py.startswith p (p ++ u) = true.
Proof.
  induction p as [|c p IH]; simpl; [reflexivity|].
  rewrite IH, Ascii.eqb_refl. reflexivity.
Qed.

(** The first word [split] gives begins with the run already read. *)
Lemma split_from_first (s word w : string) (rest : list string) :
  Py.truthy word = true ->
  Py.split_from word s = w :: rest ->
  exists u, w = (word ++ u)%string.
Proof.
  revert word. induction s as [|c s IH]; intros word Hw; simpl.
  - rewrite Hw. intros Hs. injection Hs as <- _. exists "".
    clear. induction word; simpl; congruence.
  - destruct (Py.isspace c).
    + rewrite Hw. intros Hs. injection Hs as <- _. exists "".
      clear. induction word; simpl; congruence.
    + intros Hs. apply IH in Hs.
      * destruct Hs as [u ->]. exists (String c u).
        clear. induction word; simpl; congruence.
      * destruct word; reflexivity.
Qed.

Lemma split_from_nonempty (s word : string) :
  Py.truthy word = true -> Py.split_from word s <> [].
Proof.
  revert word. induction s as [|c s IH]; intros word Hw; simpl.
  - rewrite Hw. discriminate.
  - destruct (Py.isspace c).
    + rewrite Hw. discriminate.
    + apply IH. destruct word; reflexivity.
Qed.

(** The first word of a text that starts with a dollar sign starts
    with it too, and there is one. *)
Lemma split_dollar (t : string) :
  Py.startswith "$" t = true ->
  exists w rest, Py.split t = w :: rest /\ Py.startswith "$" w = true.
Proof.
  destruct t as [|c t]; [discriminate|].
  cbn [Py.startswith].
  destruct (Ascii.eqb_spec "$"%char c) as [Hc|]; [|discriminate].
  subst c. intros _. unfold Py.split. simpl.
  destruct (Py.split_from "$" t) as [|w rest] eqn:Hs.
  - exfalso. exact (@split_from_nonempty t "$" eq_refl Hs).
  - exists w, rest. split; [reflexivity|].
    destruct (@split_from_first t "$" w rest eq_refl Hs) as [u ->].
    reflexivity.
Qed.

Lemma all_isdigit_digit_or_comma (w : string) :
  Py.all_isdigit (Py.remove_char ","%char w) = true ->
  Urllib.all_chars digit_or_comma w = true.
Proof.
  induction w as [|c w IH]; [reflexivity|].
  cbn [Py.remove_char Urllib.all_chars]. unfold digit_or_comma at 1.
  destruct (Ascii.eqb c ","%char) eqn:Hc.
  - intros Hd. rewrite orb_true_r. apply IH. exact Hd.
  - cbn [Py.all_isdigit]. intros Hd. apply andb_true_iff in Hd.
    destruct Hd as [Hd Hrest]. rewrite Hd. apply IH. exact Hrest.
Qed.

Lemma remove_comma_digit (w : string) :
  Py.isdigit (Py.remove_char ","%char w) = true -> Py.any_isdigit w = true.
Proof.
  unfold Py.isdigit. induction w as [|c w IH]; [discriminate|].
  cbn [Py.remove_char Py.any_isdigit].
  destruct (Ascii.eqb c ","%char).
  - intros Hd. rewrite (IH Hd). apply orb_true_r.
  - cbn [Py.truthy Py.all_isdigit andb]. intros Hd.
    apply andb_true_iff in Hd. destruct Hd as [Hd _]. rewrite Hd. reflexivity.
Qed.

Lemma remove_comma_of_digits (w : string) :
  Py.all_isdigit w = true -> Py.remove_char ","%char w = w.
Proof.
  induction w as [|c w IH]; [reflexivity|].
  cbn [Py.all_isdigit Py.remove_char]. intros Hd.
  apply andb_true_iff in Hd. destruct Hd as [Hc Hw].
  destruct (Ascii.eqb_spec c ","%char) as [->|_]; [discriminate Hc|].
  rewrite (IH Hw). reflexivity.
Qed.

(** A numeric word holds digits and commas only, and at least one digit. *)
Lemma numeric_word_shape (w : string) :
  numeric_word w = true ->
  Urllib.all_chars digit_or_comma w = true /\ Py.any_isdigit w = true.
Proof.
  unfold numeric_word. intros Hn.
  assert (Hr : Py.isdigit (Py.remove_char ","%char w) = true).
  { apply orb_true_iff in Hn. destruct Hn as [Hd | Hr]; [|exact Hr].
    assert (Hall : Py.all_isdigit w = true).
    { unfold Py.isdigit in Hd. apply andb_true_iff in Hd. apply Hd. }
    rewrite (remove_comma_of_digits _ Hall). exact Hd. }
  split; [|apply remove_comma_digit; exact Hr].
  apply all_isdigit_digit_or_comma. unfold Py.isdigit in Hr.
  apply andb_true_iff in Hr. apply Hr.
Qed.

(** Conversely, digits and commas with a digit among them make a
    numeric word. *)
Lemma digits_and_commas_all (w : string) :
  Urllib.all_chars digit_or_comma w = true ->
  Py.all_isdigit (Py.remove_char ","%char w) = true.
Proof.
  induction w as [|c w IH]; [reflexivity|].
  cbn [Urllib.all_chars Py.remove_char]. unfold digit_or_comma at 1.
  intros Hall. apply andb_true_iff in Hall. destruct Hall as [Hc Hw].
  destruct (Ascii.eqb c ","%char); [apply IH; exact Hw|].
  rewrite orb_false_r in Hc. cbn [Py.all_isdigit]. rewrite Hc.
  apply IH. exact Hw.
Qed.

Lemma digit_survives (w : string) :
  Py.any_isdigit w = true -> Py.truthy (Py.remove_char ","%char w) = true.
Proof.
  induction w as [|c w IH]; [discriminate|].
  cbn [Py.any_isdigit Py.remove_char].
  destruct (Ascii.eqb_spec c ","%char) as [->|_]; [|reflexivity].
  cbn [orb]. exact IH.
Qed.

(** The test of the days extractor is the test for a purely numeric
    token, commas allowed. *)
Lemma numeric_word_purely (w : string) :
  numeric_word w = purely_numeric w.
Proof.
  destruct (numeric_word w) eqn:Hn; symmetry.
  - apply andb_true_iff. apply numeric_word_shape. exact Hn.
  - apply not_true_is_false. intros Hp. apply andb_true_iff in Hp.
    destruct Hp as [Hall Hany].
    unfold numeric_word, Py.isdigit in Hn.
    rewrite (digit_survives _ Hany), (digits_and_commas_all _ Hall) in Hn.
    rewrite orb_true_r in Hn. discriminate.
Qed.

(* ===================================================================== *)
(** * Properties of the extractors that hold for every document model *)
(* ===================================================================== *)

Section ExtractorFacts.

Context {E : Type} `{DocumentModel E}.
Variable soup : E.

Lemma price_by_selectors_dollar (v : string) :
  price_by_selectors soup = Ok (Some v) -> Py.contains "$" v = true.
Proof.
  intros Hp. apply for_some in Hp. destruct Hp as [sel [_ Hb]].
  destruct (find soup sel) as [[el|]|e]; simpl in Hb; try discriminate.
  destruct (get_text el) as [t|e]; simpl in Hb; try discriminate.
  destruct (Py.truthy t && Py.contains "$" t) eqn:Hc; try discriminate.
  injection Hb as <-. apply andb_true_iff in Hc. apply Hc.
Qed.

Lemma price_fallback_dollar (v : string) :
  price_fallback soup = Ok (Some v) -> Py.contains "$" v = true.
Proof.
  unfold price_fallback.
  destruct (find_all soup (by_string dollar_and_digit)) as [all_text|e];
    cbn [bind]; [|discriminate].
  intros Hp. apply for_some in Hp. destruct Hp as [node [_ Hb]].
  destruct (as_str node) as [t|e]; cbn [bind] in Hb; [|discriminate].
  destruct (Py.startswith "$" (Py.strip t) && Py.contains "," (Py.strip t))
    eqn:Hc; [|discriminate].
  apply andb_true_iff in Hc. destruct Hc as [Hs _].
  destruct (split_dollar _ Hs) as [w [rest [Hsplit Hw]]].
  rewrite Hsplit in Hb. simpl in Hb. injection Hb as <-.
  apply contains_startswith. exact Hw.
Qed.

Lemma price_try_dollar (v : string) :
  price_try soup = Ok (Some v) -> Py.contains "$" v = true.
Proof.
  unfold price_try.
  destruct (price_by_selectors soup) as [[u|]|e] eqn:Hsel; simpl;
    try discriminate.
  - intros Hv. injection Hv as <-. apply price_by_selectors_dollar. exact Hsel.
  - apply price_fallback_dollar.
Qed.

End ExtractorFacts.

(** C10.  Whatever the document, the price extractor returns a value,
    and this value is the sentinel [N/A] or contains a dollar sign. *)
Theorem price_is_na_or_has_dollar {E : Type} `{DocumentModel E} (soup : E) :
  exists v, _extract_price soup = Ok v
            /\ (v = "N/A" \/ Py.contains "$" v = true).
Proof.
  unfold _extract_price.
  destruct (price_try soup) as [[v|]|e] eqn:Hp; simpl.
  - exists v. split; [reflexivity|]. right. eapply price_try_dollar. exact Hp.
  - exists "N/A". auto.
  - exists "N/A". auto.
Qed.

(** The record of a run whose address extractor raises: the exception
    is recorded by its class, the five data fields keep the sentinel,
    and the four extractors after it are not called. *)
Lemma address_failure_record {E : Type} `{DocumentModel E}
  (w : World E) (url : string) (resp : Response) (soup : E) (e : exn) :
  validate_url w url = true ->
  session_get w url = Ok resp ->
  raise_for_status resp = Ok tt ->
  html_parser w (text resp) = Ok soup ->
  _extract_address soup = Raise e ->
  dict_get "error" (extract_property_data w url) = Some (Some (error_tag e))
  /\ data_fields_na (extract_property_data w url)
  /\ extract_property_data_trace w url
     = [Fetch url; ParseHtml; Extract "address"].
Proof.
  intros Hv Hget Hstatus Hparse Haddr.
  run_unfold. rewrite Hv, Hget. cbv beta iota zeta delta [negb snd fst].
  rewrite Hstatus, Hparse, Haddr. destruct e; repeat split.
Qed.



Lemma address_failure_record_example :
  dict_get "error"
    (@extract_property_data unit broken_document broken_world
       "https://www.zillow.com/homedetails/1")
  = Some (Some "Parsing error: boom")
  /\ data_fields_na
       (@extract_property_data unit broken_document broken_world
          "https://www.zillow.com/homedetails/1").
Proof.
  destruct (@address_failure_record unit broken_document broken_world
              "https://www.zillow.com/homedetails/1"
              (mkResponse 200 "<html>...</html>") tt (Exception "boom")
              eq_refl eq_refl eq_refl eq_refl eq_refl) as [He [Hna _]].
  split; assumption.
Defined.

(* ===================================================================== *)
(** * The bs4 tree: document order and places *)
(* ===================================================================== *)

Module TreeFacts.

Import Bs4.

Lemma walk_tag (p : path) name attrs cs :
  walk p (Tag name attrs cs) = (p, Tag name attrs cs) :: walk_kids p 0 cs.
Proof.
  simpl. f_equal. generalize 0.
  induction cs as [|c cs IH]; intros i; simpl; [reflexivity|].
  rewrite IH. reflexivity.
Qed.

Lemma node_at_app (p q : path) : forall r,
  node_at r (p ++ q) = match node_at r p with
                       | Some n => node_at n q
                       | None => None
                       end.
Proof.
  induction p as [|i p IH]; intros r; simpl; [reflexivity|].
  destruct r as [k s|name attrs cs]; [reflexivity|].
  destruct (nth_error cs i); [apply IH | reflexivity].
Qed.

Lemma walk_valid (r : node) : forall n p,
  node_at r p = Some n -> Forall (valid r) (walk p n).
Proof.
  induction n as [k s|name attrs cs IH] using node_induction; intros p Hp.
  - simpl. repeat constructor. exact Hp.
  - rewrite walk_tag. constructor; [exact Hp|].
    assert (Hk : forall k i, (forall j c, nth_error k j = Some c ->
                                node_at r (p ++ [i + j]) = Some c) ->
                 Forall (fun c => forall p, node_at r p = Some c ->
                                  Forall (valid r) (walk p c)) k ->
                 Forall (valid r) (walk_kids p i k)).
    { induction k as [|c k IHk]; intros i Hnth Hall; simpl; [constructor|].
      inversion Hall as [|c' k' Hc Hk']; subst.
      apply Forall_app. split.
      - apply Hc. specialize (Hnth 0 c eq_refl).
        rewrite Nat.add_0_r in Hnth. exact Hnth.
      - apply IHk; [|exact Hk'].
        intros j c' Hj. specialize (Hnth (S j) c' Hj).
        rewrite Nat.add_succ_r in Hnth. exact Hnth. }
    apply Hk; [|exact IH].
    intros j c Hj. rewrite node_at_app, Hp. simpl. rewrite Hj. reflexivity.
Qed.

Lemma descendants_valid (contents : list node) :
  Forall (valid (root (BeautifulSoup contents)))
         (descendants (BeautifulSoup contents)).
Proof.
  unfold descendants, here, BeautifulSoup. cbn [root loc node_at].
  pose proof (@walk_valid (Tag "[document]" [] contents)
                (Tag "[document]" [] contents) [] eq_refl) as Hw.
  rewrite walk_tag in *. cbn [tl]. inversion Hw; subst. assumption.
Qed.

(** A loop over the results of a search, run on the bs4 model. *)
Lemma for_handles {B} (r : node) (c : criteria) (l : list (path * node))
  (body : PageElement -> result (option B)) (g : path * node -> option B) :
  (forall pn, In pn l -> search c (snd pn) = true ->
              body (mkPageElement r (fst pn)) = Ok (g pn)) ->
  for_ (handles r (matching c l)) body
  = Ok (first_some (fun pn => if search c (snd pn) then g pn else None) l).
Proof.
  induction l as [|pn l IH]; intros Hb; simpl; [reflexivity|].
  destruct (search c (snd pn)) eqn:Hs; simpl.
  - rewrite (Hb pn (or_introl eq_refl) Hs). simpl.
    destruct (g pn); [reflexivity|].
    apply IH. intros; apply Hb; [right|]; assumption.
  - apply IH. intros; apply Hb; [right|]; assumption.
Qed.

End TreeFacts.

(* ===================================================================== *)
(** * What the searches of the extractors match *)
(* ===================================================================== *)

Section SearchFacts.

Lemma truthy_and_contains (sub s : string) :
  Py.truthy sub = true ->
  Py.truthy s && Py.contains sub s = Py.contains sub s.
Proof.
  intros Hsub. destruct (Py.contains sub s) eqn:Hc.
  - rewrite (contains_truthy _ _ Hsub Hc). reflexivity.
  - apply andb_false_r.
Qed.

Lemma truthy_lower (s : string) : Py.truthy (Py.lower s) = Py.truthy s.
Proof. destruct s; reflexivity. Qed.

(** The three kinds of test the extractors pass to a search, on a
    string that is there. *)
Lemma text_has_contains (kw s : string) :
  Py.truthy kw = true -> text_has kw (Some s) = Py.contains kw s.
Proof. intros Hkw. apply truthy_and_contains. exact Hkw. Qed.

Lemma lower_has_mentions (kw s : string) :
  Py.truthy kw = true -> Py.lower kw = kw ->
  lower_has kw (Some s) = mentions kw s.
Proof.
  intros Hkw Hlow. unfold lower_has, mentions. rewrite Hlow.
  rewrite <- (truthy_lower s). apply truthy_and_contains. exact Hkw.
Qed.

Lemma ci_has_mentions (kw s : string) :
  Py.truthy kw = true -> ci_has kw (Some s) = mentions kw s.
Proof.
  intros Hkw. unfold ci_has, lower_has, mentions.
  rewrite <- (truthy_lower s). apply truthy_and_contains.
  rewrite truthy_lower. exact Hkw.
Qed.

(** How an attribute is compared with a string and with a test. *)
Lemma matches_exact (s : string) (v : option Bs4.attr_value) :
  Py.truthy s = true ->
  Bs4._matches v (Exact s)
  = match v with
    | Some a => existsb (fun x => String.eqb x s) (attr_strings a)
    | None => false
    end.
Proof.
  intros Hs. destruct v as [[x|l]|]; cbn [Bs4._matches attr_strings existsb].
  - rewrite orb_false_r. reflexivity.
  - rewrite existsb_app. cbn [existsb]. rewrite orb_false_r. reflexivity.
  - rewrite Hs. reflexivity.
Qed.

Lemma matches_test (f : option string -> bool) (p : string -> bool)
  (v : option Bs4.attr_value) :
  f None = false -> (forall x, f (Some x) = p x) ->
  Bs4._matches v (Lambda f)
  = match v with
    | Some a => existsb p (attr_strings a)
    | None => false
    end.
Proof.
  intros Hnone Hsome.
  destruct v as [[x|l]|]; cbn [Bs4._matches attr_strings existsb].
  - rewrite Hsome, orb_false_r. reflexivity.
  - rewrite existsb_app. cbn [existsb]. rewrite Hsome, orb_false_r.
    f_equal. clear - Hsome. induction l as [|x l IH]; [reflexivity|].
    cbn [existsb]. rewrite Hsome, IH. reflexivity.
  - exact Hnone.
Qed.

(** What a search by tag name, by tag name and one attribute, and by
    tag name and single string matches. *)
Lemma search_tag_only (name : string) (n : Bs4.node) :
  Bs4.search (by_tag name []) n = tag_named name n.
Proof.
  destruct n as [k s|nm attrs cs]; cbn.
  - apply andb_false_r.
  - rewrite !andb_true_r. reflexivity.
Qed.

Lemma search_tag_attr (name k : string) (m : matcher) (p : string -> bool)
  (n : Bs4.node) :
  (forall v, Bs4._matches v m
             = match v with
               | Some a => existsb p (attr_strings a)
               | None => false
               end) ->
  Bs4.search (by_tag name [(k, m)]) n = tag_named name n && attr_holds k p n.
Proof.
  intros Hm. destruct n as [c s|nm attrs cs]; cbn.
  - apply andb_false_r.
  - rewrite Hm, !andb_true_r. reflexivity.
Qed.

Lemma search_tag_string (name : string) (f : option string -> bool)
  (p : string -> bool) (n : Bs4.node) :
  f None = false -> (forall s, f (Some s) = p s) ->
  Bs4.search (by_tag_string name f) n
  = tag_named name n && single_string_holds p n.
Proof.
  intros Hnone Hsome. destruct n as [c s|nm attrs cs]; cbn - [Bs4.string_of].
  - apply andb_false_r.
  - rewrite andb_true_r. f_equal. unfold single_string_holds.
    destruct (Bs4.string_of (Bs4.Tag nm attrs cs)); [apply Hsome | exact Hnone].
Qed.

(** A search whose criteria amount to a test of the node finds the
    elements that pass the test. *)
Lemma matching_filter (c : criteria) (mark : Bs4.node -> bool)
  (l : list (Bs4.path * Bs4.node)) :
  (forall n, Bs4.search c n = mark n) ->
  Bs4.matching c l = filter (fun pn => mark (snd pn)) l.
Proof.
  intros Hs. unfold Bs4.matching. apply filter_ext. intros pn. apply Hs.
Qed.

Lemma find_all_elements (e : Bs4.PageElement) (c : criteria)
  (mark : Bs4.node -> bool) :
  (forall n, Bs4.search c n = mark n) ->
  Bs4.find_all e c = elements mark e.
Proof.
  intros Hs. unfold Bs4.find_all, elements.
  rewrite (@matching_filter _ _ _ Hs). reflexivity.
Qed.

Lemma find_first_element (e : Bs4.PageElement) (c : criteria)
  (mark : Bs4.node -> bool) :
  (forall n, Bs4.search c n = mark n) ->
  Bs4.find e c = first_element mark e.
Proof.
  intros Hs. unfold Bs4.find, first_element.
  rewrite (@find_all_elements _ _ _ Hs). reflexivity.
Qed.

Lemma find_next_following (e : Bs4.PageElement) (c : criteria)
  (mark : Bs4.node -> bool) :
  (forall n, Bs4.search c n = mark n) ->
  Bs4.find_next e c = first_following mark e.
Proof.
  intros Hs. unfold Bs4.find_next, first_following.
  rewrite (@matching_filter _ _ _ Hs). reflexivity.
Qed.

(** The searches of the price extractor. *)
Lemma search_price_testid (n : Bs4.node) :
  Bs4.search (by_tag "span" [("data-testid", Exact "price")]) n = price_testid n.
Proof.
  apply search_tag_attr. intros v. apply matches_exact. reflexivity.
Qed.

Lemma search_price_class (tag : string) (n : Bs4.node) :
  Bs4.search (by_tag tag [("class", Lambda (lower_has "price"))]) n
  = price_class tag n.
Proof.
  apply search_tag_attr. intros v.
  apply matches_test; [reflexivity|].
  intros x. apply lower_has_mentions; reflexivity.
Qed.

End SearchFacts.

(* ===================================================================== *)
(** * The price extractor on a parsed tree *)
(* ===================================================================== *)

Section PriceOnTree.

Import TreeFacts.

Variable contents : list Bs4.node.
Let soup : Bs4.PageElement := Bs4.BeautifulSoup contents.

(** One turn of the loop over the selectors. *)
Lemma price_selector_tree (sel : criteria) (mark : Bs4.node -> bool) :
  (forall n, Bs4.search sel n = mark n) ->
  (element <- find soup sel ;;
   match element with
   | Some element =>
       price_text <- get_text element ;;
       if Py.truthy price_text && Py.contains "$" price_text
       then Ok (Some price_text)
       else Ok None
   | None => Ok None
   end)
  = Ok (price_strategy_spec soup mark).
Proof.
  intros Hs. unfold price_strategy_spec. cbn [find get_text bs4_model bind].
  rewrite (@find_first_element _ _ _ Hs).
  destruct (first_element mark soup) as [el|]; [|reflexivity].
  rewrite truthy_and_contains by reflexivity.
  destruct (Py.contains "$" (Bs4.get_text el)); reflexivity.
Qed.

Lemma price_by_selectors_tree :
  price_by_selectors soup
  = Ok (first_some (price_strategy_spec soup)
          [price_testid; price_class "span"; price_class "div"]).
Proof.
  unfold price_by_selectors, price_selectors. cbn [for_ first_some].
  rewrite (@price_selector_tree _ _ search_price_testid). cbn [bind].
  destruct (price_strategy_spec soup price_testid); [reflexivity|].
  rewrite (@price_selector_tree _ _ (search_price_class "span")). cbn [bind].
  destruct (price_strategy_spec soup (price_class "span")); [reflexivity|].
  rewrite (@price_selector_tree _ _ (search_price_class "div")). cbn [bind].
  destruct (price_strategy_spec soup (price_class "div")); reflexivity.
Qed.

Lemma first_token_price (s : string) :
  looks_like_price s = true ->
  exists w, first_token s = Some w
            /\ first_item (Py.split (Py.strip s)) = Ok w.
Proof.
  unfold looks_like_price, first_token. intros Hl.
  apply andb_true_iff in Hl. destruct Hl as [Hs _].
  destruct (split_dollar _ Hs) as [w [rest [-> _]]].
  exists w. split; reflexivity.
Qed.

Lemma search_by_string_text (k : Bs4.string_class) (s : string) :
  Bs4.search (by_string dollar_and_digit) (Bs4.NavigableString k s)
  = has_dollar_and_digit s.
Proof.
  unfold has_dollar_and_digit. cbn [Bs4.search by_string c_name c_attrs c_string
                                      dollar_and_digit].
  rewrite (@truthy_and_contains "$" s eq_refl).
  destruct (Py.contains "$" s) eqn:Hc; simpl.
  - rewrite (@contains_truthy "$" s eq_refl Hc). reflexivity.
  - apply andb_false_r.
Qed.

Lemma price_fallback_scan (l : list (Bs4.path * Bs4.node)) :
  first_some
    (fun pn => if Bs4.search (by_string dollar_and_digit) (snd pn)
               then match snd pn with
                    | Bs4.NavigableString _ s =>
                        if looks_like_price s then first_token s else None
                    | Bs4.Tag _ _ _ => None
                    end
               else None) l
  = match List.find looks_like_price
            (filter has_dollar_and_digit
               (flat_map (fun pn => match snd pn with
                                    | Bs4.NavigableString _ s => [s]
                                    | Bs4.Tag _ _ _ => []
                                    end) l)) with
    | Some s => first_token s
    | None => None
    end.
Proof.
  induction l as [|[p [k s|name attrs cs]] l IH]; [reflexivity| |].
  - cbn [first_some flat_map snd app filter]. rewrite search_by_string_text.
    destruct (has_dollar_and_digit s); [|exact IH].
    cbn [List.find]. destruct (looks_like_price s) eqn:Hl; [|exact IH].
    destruct (first_token_price _ Hl) as [w [-> _]]. reflexivity.
  - cbn [first_some flat_map snd app]. rewrite IH.
    destruct (Bs4.search _ _); reflexivity.
Qed.

Lemma price_fallback_tree :
  price_fallback soup = Ok (price_fallback_spec soup).
Proof.
  unfold price_fallback, price_fallback_spec, text_nodes.
  cbn [find_all bs4_model bind]. unfold Bs4.find_all.
  rewrite <- price_fallback_scan.
  apply for_handles. intros [p n] Hin Hs.
  pose proof (descendants_valid contents) as Hv.
  rewrite Forall_forall in Hv. specialize (Hv _ Hin).
  unfold Bs4.valid in Hv. cbn [fst snd] in *.
  destruct n as [k s|name attrs cs]; [|discriminate].
  cbn [as_str bs4_model]. unfold Bs4.as_str, Bs4.here. cbn [Bs4.root Bs4.loc].
  fold soup. change (Bs4.node_at (Bs4.root soup) p) with
    (Bs4.node_at (Bs4.root (Bs4.BeautifulSoup contents)) p).
  rewrite Hv. cbn [bind].
  fold (looks_like_price s).
  destruct (looks_like_price s) eqn:Hl; [|reflexivity].
  destruct (first_token_price _ Hl) as [w [-> ->]]. reflexivity.
Qed.

End PriceOnTree.


(** The scenario page and a page whose only price is in a comment. *)
Example price_examples :
  price_spec (Bs4.BeautifulSoup main_st_listing) = "$350,000"
  /\ price_spec (Bs4.BeautifulSoup commented_price_listing) = "$1,250,000"
  /\ _extract_price (Bs4.BeautifulSoup commented_price_listing)
     = Ok "$1,250,000".
Proof. repeat split; reflexivity. Qed.

(* ===================================================================== *)
(** * The days-on-market extractor on a parsed tree *)
(* ===================================================================== *)

Lemma first_some_ext {A B} (f g : A -> option B) (xs : list A) :
  (forall x, In x xs -> f x = g x) -> first_some f xs = first_some g xs.
Proof.
  induction xs as [|x xs IH]; intros Hfg; simpl; [reflexivity|].
  rewrite (Hfg x (or_introl eq_refl)).
  destruct (g x); [reflexivity|]. apply IH. intros; apply Hfg; right; assumption.
Qed.

Lemma first_some_app {A B} (f : A -> option B) (xs ys : list A) :
  first_some f (xs ++ ys)
  = match first_some f xs with Some b => Some b | None => first_some f ys end.
Proof.
  induction xs as [|x xs IH]; simpl; [reflexivity|].
  destruct (f x); [reflexivity | exact IH].
Qed.

Lemma first_some_flat_map {A B C} (f : B -> option C) (h : A -> list B)
  (xs : list A) :
  first_some f (flat_map h xs) = first_some (fun x => first_some f (h x)) xs.
Proof.
  induction xs as [|x xs IH]; simpl; [reflexivity|].
  rewrite first_some_app, IH. reflexivity.
Qed.

Lemma first_some_map_filter {A B C} (f : B -> option C) (h : A -> B)
  (keep : A -> bool) (xs : list A) :
  first_some f (map h (filter keep xs))
  = first_some (fun x => if keep x then f (h x) else None) xs.
Proof.
  induction xs as [|x xs IH]; simpl; [reflexivity|].
  destruct (keep x); simpl; rewrite IH; reflexivity.
Qed.

Lemma first_some_map_result {A B C} (f : A -> option B) (h : B -> C)
  (xs : list A) :
  first_some (fun x => option_map h (f x)) xs = option_map h (first_some f xs).
Proof.
  induction xs as [|x xs IH]; simpl; [reflexivity|].
  destruct (f x); simpl; [reflexivity | exact IH].
Qed.

(** The loop over the words takes the first acceptable token. *)
Lemma scan_words_first_acceptable (ft : string) (words : list string) :
  scan_words ft words
  = option_map (fun w => (w ++ " days")%string) (first_acceptable ft words).
Proof.
  induction words as [|word following IH]; [reflexivity|].
  cbn [scan_words first_acceptable]. unfold acceptable.
  rewrite <- numeric_word_purely.
  change (followed_by_day following) with (next_is_day following).
  change (mentions "zillow" ft) with (Py.contains "zillow" (Py.lower ft)).
  change (mentions "market" ft) with (Py.contains "market" (Py.lower ft)).
  destruct (numeric_word word); cbn [andb]; [|exact IH].
  destruct (next_is_day following); cbn [orb]; [reflexivity|].
  destruct (Py.contains "zillow" (Py.lower ft) || Py.contains "market" (Py.lower ft));
    [reflexivity | exact IH].
Qed.

(** The search for a label finds the strings that mention it. *)
Lemma search_label (kw : string) (n : Bs4.node) :
  Py.truthy kw = true ->
  Bs4.search (by_string (ci_has kw)) n
  = match n with
    | Bs4.NavigableString _ s => mentions kw s
    | Bs4.Tag _ _ _ => false
    end.
Proof.
  intros Hkw. destruct n as [k s|name attrs cs]; [|reflexivity].
  cbn [Bs4.search by_string c_name c_attrs c_string].
  rewrite (@ci_has_mentions kw s Hkw).
  destruct (mentions kw s) eqn:Hm; [|apply andb_false_r].
  unfold mentions in Hm. rewrite andb_true_r.
  rewrite <- (truthy_lower s). apply (contains_truthy (Py.lower kw)); [|exact Hm].
  rewrite truthy_lower. exact Hkw.
Qed.

Lemma days_on_market_tree (contents : list Bs4.node) :
  days_on_market_try (Bs4.BeautifulSoup contents)
  = Ok (option_map (fun w => (w ++ " days")%string)
          (first_some days_in_text (days_full_texts (Bs4.BeautifulSoup contents)))).
Proof.
  set (soup := Bs4.BeautifulSoup contents).
  unfold days_on_market_try, days_full_texts.
  rewrite first_some_flat_map, <- first_some_map_result.
  apply for_pure. intros kw Hkw.
  assert (Hk : Py.truthy kw = true).
  { simpl in Hkw. decompose [or] Hkw; subst; try reflexivity; contradiction. }
  cbn [find_all bs4_model bind]. unfold Bs4.find_all, label_nodes.
  rewrite first_some_map_filter, <- first_some_map_result.
  rewrite (@TreeFacts.for_handles _ _ _ _ _
             (fun pn => option_map (fun w => (w ++ " days")%string)
                          (days_in_text (parent_full_text (Bs4.root soup) (fst pn))))).
  - f_equal. apply first_some_ext. intros [p n] _. cbn [snd fst].
    rewrite (@search_label kw n Hk).
    destruct n as [k s|name attrs cs]; [|reflexivity].
    destruct (mentions kw s); reflexivity.
  - intros [p n] _ _. cbn [fst find_parent get_text bs4_model bind].
    unfold parent_full_text.
    destruct (Bs4.find_parent _) as [parent|]; cbn [option_map days_in_text];
      [|reflexivity].
    rewrite scan_words_first_acceptable. reflexivity.
Qed.







(* ===================================================================== *)
(** * What follows an element in document order *)
(* ===================================================================== *)

Module OrderFacts.

Import Bs4 TreeFacts.

Lemma path_eqb_eq (p q : path) : path_eqb p q = true <-> p = q.
Proof.
  revert q. induction p as [|i p IH]; destruct q as [|j q]; simpl;
    try (split; [discriminate | discriminate]); [tauto|].
  rewrite andb_true_iff, Nat.eqb_eq, IH. split.
  - intros [-> ->]. reflexivity.
  - intros Heq. injection Heq. auto.
Qed.

Lemma path_eqb_refl (p : path) : path_eqb p p = true.
Proof. apply path_eqb_eq. reflexivity. Qed.

Lemma after_app (p : path) (l1 l2 : list (path * node)) :
  after p (l1 ++ l2)
  = if occurs p l1 then after p l1 ++ l2 else after p l2.
Proof.
  induction l1 as [|[q n] l1 IH]; simpl; [reflexivity|].
  destruct (path_eqb p q); simpl; [reflexivity | exact IH].
Qed.

Lemma occurs_app (p : path) (l1 l2 : list (path * node)) :
  occurs p (l1 ++ l2) = occurs p l1 || occurs p l2.
Proof. apply existsb_app. Qed.

Lemma walk_kids_below (b : path) : forall cs i,
  Forall (fun c => forall p, Forall (below p) (walk p c)) cs ->
  Forall (fun pn => exists j t, fst pn = b ++ j :: t /\ i <= j)
         (walk_kids b i cs).
Proof.
  induction cs as [|c cs IH]; intros i Hall; simpl; [constructor|].
  inversion Hall as [|c' cs' Hc Hcs]; subst.
  apply Forall_app. split.
  - specialize (Hc (b ++ [i])). rewrite Forall_forall in *.
    intros pn Hin. destruct (Hc pn Hin) as [t Ht].
    exists i, t. split; [|lia]. rewrite <- app_assoc in Ht. exact Ht.
  - specialize (IH (S i) Hcs). rewrite Forall_forall in *.
    intros pn Hin. destruct (IH pn Hin) as [j [t [Ht Hle]]].
    exists j, t. split; [exact Ht | lia].
Qed.

Lemma walk_below : forall n p, Forall (below p) (walk p n).
Proof.
  induction n as [s|name attrs cs IH] using node_induction; intros p.
  - simpl. repeat constructor. exists []. simpl. rewrite app_nil_r. reflexivity.
  - rewrite walk_tag. constructor.
    + exists []. simpl. rewrite app_nil_r. reflexivity.
    + pose proof (@walk_kids_below p cs 0 IH) as Hk.
      rewrite Forall_forall in *. intros pn Hin.
      destruct (Hk pn Hin) as [j [t [Ht _]]]. exists (j :: t). exact Ht.
Qed.

Lemma kids_below (b : path) (cs : list node) (i : nat) :
  Forall (fun pn => exists j t, fst pn = b ++ j :: t /\ i <= j)
         (walk_kids b i cs).
Proof.
  apply walk_kids_below. apply Forall_forall. intros c _. apply walk_below.
Qed.

Lemma not_occurs_kids (b : path) (cs : list node) (i k : nat) (t : path) :
  k < i -> occurs (b ++ k :: t) (walk_kids b i cs) = false.
Proof.
  intros Hlt. unfold occurs. apply not_true_is_false. intros Hex.
  apply existsb_exists in Hex. destruct Hex as [pn [Hin Heq]].
  apply path_eqb_eq in Heq.
  pose proof (kids_below b cs i) as Hk. rewrite Forall_forall in Hk.
  destruct (Hk pn Hin) as [j [t' [Hp Hle]]].
  pose proof (eq_trans Heq Hp) as He. apply app_inv_head in He.
  injection He as Hkj _. lia.
Qed.

Lemma not_occurs_other_kid (b : path) (c : node) (i k : nat) (t : path) :
  i <> k -> occurs (b ++ k :: t) (walk (b ++ [i]) c) = false.
Proof.
  intros Hne. unfold occurs. apply not_true_is_false. intros Hex.
  apply existsb_exists in Hex. destruct Hex as [pn [Hin Heq]].
  apply path_eqb_eq in Heq.
  pose proof (walk_below c (b ++ [i])) as Hw. rewrite Forall_forall in Hw.
  destruct (Hw pn Hin) as [t' Hp].
  pose proof (eq_trans Heq Hp) as He. rewrite <- app_assoc in He.
  apply app_inv_head in He. simpl in He. injection He as Hki _. congruence.
Qed.

(** In the walk of a node, the entry at a place below it is there,
    and what follows it starts with the descendants of that place. *)
Lemma after_in_walk : forall (q : path) (n : node) (b : path) (m : node),
  node_at n q = Some m ->
  occurs (b ++ q) (walk b n) = true
  /\ exists post, after (b ++ q) (walk b n) = tl (walk (b ++ q) m) ++ post.
Proof.
  induction q as [|i q IH]; intros n b m Hm.
  - simpl in Hm. injection Hm as <-. rewrite app_nil_r.
    assert (Hw : walk b n = (b, n) :: tl (walk b n))
      by (destruct n; reflexivity).
    set (rest := tl (walk b n)) in *. rewrite Hw.
    cbn [occurs existsb after fst]. rewrite path_eqb_refl.
    split; [reflexivity|]. exists []. rewrite app_nil_r. reflexivity.
  - destruct n as [s|name attrs cs]; [discriminate|].
    simpl in Hm. destruct (nth_error cs i) as [c|] eqn:Hc; [|discriminate].
    rewrite walk_tag.
    assert (Hhead : path_eqb (b ++ i :: q) b = false).
    { apply not_true_is_false. intros Heq. apply path_eqb_eq in Heq.
      apply (f_equal (@length nat)) in Heq. rewrite length_app in Heq.
      simpl in Heq. lia. }
    cbn [occurs existsb after fst]. rewrite Hhead. cbn [orb].
    assert (Hk : forall cs k j,
               nth_error cs j = Some c -> k + j = i ->
               occurs (b ++ i :: q) (walk_kids b k cs) = true
               /\ exists post, after (b ++ i :: q) (walk_kids b k cs)
                               = tl (walk (b ++ i :: q) m) ++ post).
    { clear Hc. induction cs0 as [|c0 cs0 IHk]; intros k j Hj Hkj.
      - destruct j; discriminate.
      - destruct j as [|j]; simpl in Hj.
        + injection Hj as ->. rewrite Nat.add_0_r in Hkj. subst k.
          cbn [walk_kids]. rewrite occurs_app, after_app.
          destruct (IH c (b ++ [i]) m Hm) as [Hocc [post Hpost]].
          rewrite <- app_assoc in Hocc, Hpost. simpl in Hocc, Hpost.
          rewrite Hocc. split; [reflexivity|].
          rewrite Hpost, <- app_assoc. eexists. reflexivity.
        + cbn [walk_kids]. rewrite occurs_app, after_app.
          rewrite (@not_occurs_other_kid b c0 k i q) by lia.
          cbn [orb]. apply (IHk (S k) j Hj). lia. }
    exact (Hk cs 0 i Hc eq_refl).
Qed.

End OrderFacts.

(* ===================================================================== *)
(** * The first strategy of the lot-size extractor on a parsed tree *)
(* ===================================================================== *)

Section LotOnTree.

Import TreeFacts OrderFacts.

Lemma search_lot_label (kw : string) (n : Bs4.node) :
  Py.truthy kw = true ->
  Bs4.search (by_tag_string "span" (text_has kw)) n = lot_label kw n.
Proof.
  intros Hkw. apply search_tag_string; [reflexivity|].
  intros s. apply text_has_contains. exact Hkw.
Qed.

Lemma lot_size_method1_tree (soup : Bs4.PageElement) :
  lot_size_method1 soup = Ok (lot_method1_spec soup).
Proof.
  unfold lot_size_method1, lot_method1_spec.
  apply for_pure. intros kw Hkw.
  assert (Hk : Py.truthy kw = true).
  { simpl in Hkw. decompose [or] Hkw; subst; try reflexivity; contradiction. }
  cbn [find_all bs4_model bind].
  rewrite (@find_all_elements soup _ _ (fun n => @search_lot_label kw n Hk)).
  fold (keyword_spans soup kw).
  apply for_pure. intros span _.
  cbn [find_parent find_next get_text bs4_model bind].
  unfold lot_candidate, lot_candidate_element.
  destruct (Bs4.find_parent span) as [parent|]; [|reflexivity].
  rewrite (@find_next_following parent _ _ (search_tag_only "span")).
  destruct (first_following _ parent) as [next_span|]; [|reflexivity].
  cbn [option_map lot_accept].
  destruct (Py.truthy _ && negb _); reflexivity.
Qed.

Lemma kid_in_walk_kids (q : Bs4.path) (c : Bs4.node) : forall cs k i,
  nth_error cs i = Some c -> In (q ++ [k + i], c) (Bs4.walk_kids q k cs).
Proof.
  induction cs as [|c0 cs IH]; intros k i Hi; [destruct i; discriminate|].
  cbn [Bs4.walk_kids]. apply in_or_app. destruct i as [|i]; simpl in Hi.
  - injection Hi as ->. left. rewrite Nat.add_0_r.
    destruct c; simpl; left; reflexivity.
  - right. rewrite Nat.add_succ_r. apply (IH (S k) i Hi).
Qed.

Lemma find_parent_below (r : Bs4.node) (p : Bs4.path) :
  p <> [] ->
  Bs4.find_parent (Bs4.mkPageElement r p)
  = Some (Bs4.mkPageElement r (removelast p)).
Proof.
  intros Hne. destruct p; [contradiction|reflexivity].
Qed.

Lemma number_from_places (q : Bs4.path) (cs : list Bs4.node) : forall i pn,
  In pn (Bs4.number_from q i cs) -> exists k, fst pn = q ++ [k].
Proof.
  induction cs as [|c cs IH]; intros i pn Hin; [contradiction|].
  cbn [Bs4.number_from] in Hin.
  destruct Hin as [<- | Hin]; [exists i; reflexivity|].
  apply (IH (S i)). exact Hin.
Qed.

Lemma in_skipn {A} (n : nat) : forall (l : list A) (x : A),
  In x (skipn n l) -> In x l.
Proof.
  induction n as [|n IH]; intros l x Hin; [exact Hin|].
  destruct l as [|a l]; [contradiction|]. right. apply IH. exact Hin.
Qed.

(** A sibling stands as deep in the tree as the element itself. *)
Lemma next_siblings_same_depth (e x : Bs4.PageElement) :
  In x (Bs4.find_next_siblings e) ->
  length (Bs4.loc x) = length (Bs4.loc e).
Proof.
  unfold Bs4.find_next_siblings, Bs4.handles, Bs4.matching, Bs4.next_siblings.
  rewrite in_map_iff. intros [pn [<- Hin]]. apply filter_In in Hin.
  destruct Hin as [Hin _]. cbn [Bs4.loc].
  unfold Bs4.siblings_split in Hin.
  destruct (Bs4.loc e) as [|j t] eqn:Hloc; [contradiction|].
  assert (Hne : j :: t <> []) by discriminate.
  destruct (Bs4.node_at (Bs4.root e) (removelast (j :: t)))
    as [[k s|name attrs cs]|]; try contradiction.
  cbn [snd] in Hin. apply in_skipn in Hin.
  destruct (@number_from_places _ _ _ _ Hin) as [k Hk]. rewrite Hk.
  rewrite (app_removelast_last 0 Hne) at 2.
  rewrite !length_app. reflexivity.
Qed.

(** The element whose text the first strategy takes stands inside the
    parent of the span that matched the keyword, so it is never one of
    the later siblings of that parent; when the parent is the document
    itself, there is no such element. *)
Lemma lot_candidate_place (contents : list Bs4.node) (kw : string)
  (span : Bs4.PageElement) :
  In span (keyword_spans (Bs4.BeautifulSoup contents) kw) ->
  exists parent,
    Bs4.find_parent span = Some parent
    /\ match lot_candidate_element span with
       | Some cand =>
           (exists j t, Bs4.loc cand = Bs4.loc parent ++ j :: t)
           /\ ~ In cand (Bs4.find_next_siblings parent)
       | None => Bs4.loc parent = []
       end.
Proof.
  set (soup := Bs4.BeautifulSoup contents).
  set (r := Bs4.root soup).
  unfold keyword_spans, elements, Bs4.handles.
  rewrite in_map_iff. intros [[p n] [<- Hin]].
  apply filter_In in Hin. cbn [fst snd] in Hin. destruct Hin as [Hin Hs].
  pose proof (descendants_valid contents) as Hv.
  rewrite Forall_forall in Hv. specialize (Hv _ Hin).
  unfold Bs4.valid in Hv. cbn [fst snd] in Hv. fold soup in Hv. fold r in Hv.
  (* the place of the span is not the root *)
  assert (Hp : exists j t, p = j :: t).
  { unfold Bs4.descendants, Bs4.here in Hin.
    unfold soup, Bs4.BeautifulSoup in Hin.
    cbn [Bs4.root Bs4.loc Bs4.node_at] in Hin.
    rewrite walk_tag in Hin. cbn [tl] in Hin.
    pose proof (kids_below [] contents 0) as Hk. rewrite Forall_forall in Hk.
    destruct (Hk _ Hin) as [j [t [Hjt _]]]. exists j, t. exact Hjt. }
  destruct Hp as [j0 [t0 Hp]].
  assert (Hne : p <> []) by (rewrite Hp; discriminate).
  pose proof (app_removelast_last 0 Hne) as Hsplit.
  set (q := removelast p) in *. set (i := last p 0) in *.
  (* the matched node is a span tag *)
  destruct n as [k s|name attrs cs0]; [discriminate Hs|].
  assert (Hname : name = "span").
  { unfold lot_label, tag_named in Hs. apply andb_true_iff in Hs.
    destruct Hs as [Hs _]. apply String.eqb_eq in Hs. exact Hs. }
  subst name.
  (* its parent is a tag that holds it *)
  rewrite Hsplit, node_at_app in Hv.
  destruct (Bs4.node_at r q) as [[k s|pname pattrs cs]|] eqn:Hq;
    try discriminate Hv.
  cbn [Bs4.node_at] in Hv.
  destruct (nth_error cs i) as [c|] eqn:Hi; [|discriminate Hv].
  injection Hv as ->.
  assert (Hparent : Bs4.find_parent (Bs4.mkPageElement (Bs4.root soup) p)
                    = Some (Bs4.mkPageElement r q)).
  { exact (find_parent_below r Hne). }
  exists (Bs4.mkPageElement r q). split; [exact Hparent|].
  unfold lot_candidate_element. cbn [fst]. rewrite Hparent.
  unfold first_following, Bs4.next_elements. cbn [Bs4.root Bs4.loc].
  destruct q as [|q0 qs] eqn:Eq; [reflexivity|]. rewrite <- Eq in *.
  (* what follows the parent starts with what it holds *)
  destruct (@after_in_walk q r [] _ Hq) as [_ [post Hpost]].
  cbn [app] in Hpost. rewrite walk_tag in Hpost. cbn [tl] in Hpost.
  pose proof (@kid_in_walk_kids q (Bs4.Tag "span" attrs cs0) cs 0 i Hi) as Hkid.
  cbn [Nat.add] in Hkid.
  assert (Hfilter : exists x rest,
            filter (fun pn => tag_named "span" (snd pn))
                   (Bs4.walk_kids q 0 cs) = x :: rest).
  { destruct (filter _ (Bs4.walk_kids q 0 cs)) as [|x rest] eqn:Hf; [|eauto].
    exfalso.
    assert (Hin' : In (q ++ [i], Bs4.Tag "span" attrs cs0)
                      (filter (fun pn => tag_named "span" (snd pn))
                              (Bs4.walk_kids q 0 cs))).
    { apply filter_In. split; [exact Hkid | reflexivity]. }
    rewrite Hf in Hin'. exact Hin'. }
  destruct Hfilter as [x [rest Hx]].
  assert (Hxin : In x (Bs4.walk_kids q 0 cs)).
  { assert (Hx' : In x (x :: rest)) by (left; reflexivity).
    rewrite <- Hx in Hx'. apply filter_In in Hx'. apply Hx'. }
  pose proof (kids_below q cs 0) as Hk. rewrite Forall_forall in Hk.
  destruct (Hk _ Hxin) as [j [t [Hjt _]]].
  rewrite Hpost, filter_app, Hx. cbn [app Bs4.handles map hd_error Bs4.loc].
  split; [exists j, t; exact Hjt|].
  intros Hsib. apply next_siblings_same_depth in Hsib.
  pose proof (f_equal (@length nat) Hjt) as Hlen.
  rewrite length_app in Hlen. cbn [length] in Hlen.
  cbn [Bs4.loc] in Hsib. unfold Bs4.path in *.
  clearbody q. rewrite Hsib in Hlen. lia.
Qed.

End LotOnTree.

(** C3.  The first strategy of the lot-size extractor does not look at
    the next sibling of the enclosing block.  On the page
    [lot_block_page], where the label [Lot size] stands in a block of
    its own and the value [7,405 sqft] in the next block, the element
    it takes is the label span itself, which it rejects as identical to
    the keyword: the extractor answers [N/A].  On every page the first
    strategy goes through the keywords [Lot size], [Lot Size],
    [lot size] and the spans whose single string contains the keyword,
    and takes the text, if not empty and not the keyword, of the first
    [span] after the start of the span's parent: an element inside that
    parent, never one of its later siblings, and none at all when the
    parent is the document itself. *)
Theorem lot_size_value_is_sought_inside_the_block :
  (In lot_block_label (keyword_spans lot_block_page "Lot size")
   /\ next_sibling_text lot_block_label = Some "7,405 sqft"
   /\ lot_candidate_element lot_block_label = Some lot_block_label
   /\ lot_candidate lot_block_label = Some "Lot size"
   /\ _extract_lot_size lot_block_page = Ok "N/A")
  /\ forall contents,
       let soup := Bs4.BeautifulSoup contents in
       lot_size_method1 soup = Ok (lot_method1_spec soup)
       /\ forall kw span,
            In span (keyword_spans soup kw) ->
            exists parent,
              Bs4.find_parent span = Some parent
              /\ match lot_candidate_element span with
                 | Some cand =>
                     (exists j t, Bs4.loc cand = Bs4.loc parent ++ j :: t)
                     /\ ~ In cand (Bs4.find_next_siblings parent)
                 | None => Bs4.loc parent = []
                 end.
Proof.
  split.
  - split; [left; reflexivity|]. repeat split; reflexivity.
  - intros contents soup. split; [apply lot_size_method1_tree|].
    intros kw span. apply lot_candidate_place.
Qed.

Lemma lot_size_value_is_sought_inside_the_block_witness :
  exists parent,
    Bs4.find_parent lot_block_label = Some parent
    /\ ~ In lot_block_label (Bs4.find_next_siblings parent).
Proof.
  destruct lot_size_value_is_sought_inside_the_block as [_ Hall].
  destruct (Hall [ Bs4.Tag "div" []
                     [ Bs4.Tag "div" []
                         [Bs4.Tag "span" []
                            [Bs4.NavigableString Bs4.Plain "Lot size"]];
                       Bs4.Tag "div" []
                         [Bs4.NavigableString Bs4.Plain "7,405 sqft"] ] ])
    as [_ Hplace].
  destruct (Hplace "Lot size" lot_block_label) as [parent [Hp Hc]].
  - left. reflexivity.
  - exists parent. split; [exact Hp|].
    assert (Hcand : lot_candidate_element lot_block_label = Some lot_block_label)
      by reflexivity.
    rewrite Hcand in Hc. apply Hc.
Defined.

(** Two more pages.  A label and a value in one span: the value taken
    is the text of that span, while the next sibling of its block holds
    another text.  Spans at the top of the document: their parent is
    the document, nothing follows it, and the first strategy finds no
    value.  A labelled fact: the second strategy takes its text. *)
Example lot_size_examples :
  _extract_lot_size lot_listing = Ok "Lot size: big"
  /\ next_sibling_text (Bs4.mkPageElement (Bs4.root lot_listing) [0; 0])
     = Some "7,405 sqft"
  /\ lot_method1_spec lot_top_listing = None
  /\ _extract_lot_size lot_top_listing = Ok "N/A"
  /\ _extract_lot_size lot_fact_listing = Ok "0.25 Acres".
Proof. repeat split; reflexivity. Qed.

(* ===================================================================== *)
(** * Two complete runs *)
(* ===================================================================== *)

(** The scenario of the specification: address and price are found,
    the other fields keep the sentinel and there is no error. *)
Example main_st_scenario :
  extract_property_data main_st_world "https://www.zillow.com/homedetails/123-Main-St"
  = [ ("url", Some "https://www.zillow.com/homedetails/123-Main-St");
      ("address", Some "123 Main St, Springfield");
      ("lot_size", Some "N/A");
      ("price", Some "$350,000");
      ("price_per_sqft", Some "N/A");
      ("days_on_market", Some "N/A");
      ("scrape_timestamp", Some "2024-05-01 12:00:00");
      ("error", None) ].
Proof. reflexivity. Qed.

(** An exception inside the address extractor is caught by
    [extract_property_data] and recorded as a parsing error; the
    extractors after it are not called. *)
Example broken_document_scenario :
  dict_get "error"
    (@extract_property_data unit broken_document broken_world
       "https://www.zillow.com/homedetails/1")
  = Some (Some "Parsing error: boom")
  /\ @extract_property_data_trace unit broken_document broken_world
       "https://www.zillow.com/homedetails/1"
     = [ Fetch "https://www.zillow.com/homedetails/1"; ParseHtml;
         Extract "address" ].
Proof. split; reflexivity. Qed.

(* ===================================================================== *)
(** * More on the record assembler *)
(* ===================================================================== *)

Lemma try_or_never_raises (dflt : string) (body : result (option string))
  (e : exn) :
  try_or dflt body <> Raise e.
Proof. destruct body as [[v|]|e']; discriminate. Qed.

(** Discards the cases in which one of the four guarded extractors
    would have raised. *)
Ltac no_raise :=
  match goal with
  | Hx : _extract_lot_size _ = Raise _ |- _ =>
      exfalso; exact (try_or_never_raises _ _ Hx)
  | Hx : _extract_price _ = Raise _ |- _ =>
      exfalso; exact (try_or_never_raises _ _ Hx)
  | Hx : _extract_price_per_sqft _ = Raise _ |- _ =>
      exfalso; exact (try_or_never_raises _ _ Hx)
  | Hx : _extract_days_on_market _ = Raise _ |- _ =>
      exfalso; exact (try_or_never_raises _ _ Hx)
  end.

Section AssemblerMore.

Context {E : Type} `{DocumentModel E}.
Variable w : World E.
Variable url : string.

(** The error of a record is [None] or one of five tags. *)
Theorem error_is_a_known_tag :
  let error := dict_get "error" (extract_property_data w url) in
  error = Some None
  \/ error = Some (Some "Invalid Zillow URL")
  \/ error = Some (Some "Request timeout")
  \/ (exists code, error = Some (Some ("HTTP " ++ Py.str_int code)%string))
  \/ (exists msg, error = Some (Some ("Request failed: " ++ msg)%string))
  \/ (exists msg, error = Some (Some ("Parsing error: " ++ msg)%string)).
Proof.
  simpl. run_unfold.
  destruct (validate_url w url); simpl; [|one_of].
  run_cases; one_of.
Qed.

(** A record keeps the URL and the clock reading it was created with,
    and it is all or nothing: when its error is not [None], the five
    data fields still hold [N/A]. *)
Theorem record_is_all_or_nothing :
  let r := extract_property_data w url in
  dict_get "url" r = Some (Some url)
  /\ dict_get "scrape_timestamp" r = Some (Some (now w))
  /\ (dict_get "error" r = Some None \/ data_fields_na r).
Proof.
  simpl. run_unfold. unfold data_fields_na.
  destruct (validate_url w url); simpl; [|repeat split; right; reflexivity].
  run_cases; try no_raise; repeat split;
    first [left; reflexivity | right; reflexivity].
Qed.

(** The events of a run are an initial part of the full sequence, so
    there is at most one fetch and no extractor runs before the parse;
    the sequence is complete exactly when the record has no error. *)
Theorem trace_is_a_prefix :
  exists n,
    extract_property_data_trace w url = firstn n (full_trace url)
    /\ n <= 7
    /\ (dict_get "error" (extract_property_data w url) = Some None <-> n = 7).
Proof.
  run_unfold.
  destruct (validate_url w url); simpl;
    [|exists 0; repeat split; try lia; intros Hx; discriminate Hx].
  run_cases; try no_raise;
    match goal with
    | |- exists n, ?t = _ /\ _ => exists (length t)
    end;
    (split; [reflexivity|]); (split; [simpl; lia|]);
    split; intros Hx; first [reflexivity | discriminate Hx].
Qed.

(** When the URL is valid, the page is fetched with a status that is
    not an error, it parses, and the address extractor returns, the
    record has no error and its data fields are what the five
    extractors return on the parsed page. *)
Theorem successful_run_record (resp : Response) (soup : E) (address : string) :
  validate_url w url = true ->
  session_get w url = Ok resp ->
  status_code resp < 400 \/ 600 <= status_code resp ->
  html_parser w (text resp) = Ok soup ->
  _extract_address soup = Ok address ->
  exists lot_size price price_per_sqft days_on_market,
    _extract_lot_size soup = Ok lot_size
    /\ _extract_price soup = Ok price
    /\ _extract_price_per_sqft soup = Ok price_per_sqft
    /\ _extract_days_on_market soup = Ok days_on_market
    /\ extract_property_data w url
       = complete_record url (now w) address lot_size price price_per_sqft
           days_on_market
    /\ extract_property_data_trace w url = full_trace url.
Proof.
  intros Hv Hget Hstatus Hparse Haddr.
  destruct (try_or_total "N/A" (lot_size_try soup)) as [l Hl].
  destruct (try_or_total "N/A" (price_try soup)) as [p Hp].
  destruct (try_or_total "N/A" (price_per_sqft_try soup)) as [q Hq].
  destruct (try_or_total "N/A" (days_on_market_try soup)) as [d Hd].
  fold (_extract_lot_size soup) in Hl. fold (_extract_price soup) in Hp.
  fold (_extract_price_per_sqft soup) in Hq.
  fold (_extract_days_on_market soup) in Hd.
  exists l, p, q, d. repeat (split; [assumption|]).
  assert (Hok : raise_for_status resp = Ok tt).
  { unfold raise_for_status.
    destruct Hstatus as [Hlt | Hge].
    - replace (Nat.leb 400 (status_code resp)) with false
        by (symmetry; apply Nat.leb_gt; lia). reflexivity.
    - replace (Nat.ltb (status_code resp) 600) with false
        by (symmetry; apply Nat.ltb_ge; lia).
      rewrite andb_false_r. reflexivity. }
  run_unfold. rewrite Hv, Hget. cbv beta iota zeta delta [negb snd fst].
  rewrite Hok, Hparse, Haddr, Hl, Hp, Hq, Hd. split; reflexivity.
Qed.

End AssemblerMore.

Lemma successful_run_record_witness :
  extract_property_data main_st_world "https://www.zillow.com/homedetails/123-Main-St"
  = complete_record "https://www.zillow.com/homedetails/123-Main-St"
      "2024-05-01 12:00:00" "123 Main St, Springfield" "N/A" "$350,000"
      "N/A" "N/A".
Proof.
  destruct (@successful_run_record _ _ main_st_world
              "https://www.zillow.com/homedetails/123-Main-St"
              (mkResponse 200 "<html>...</html>")
              (Bs4.BeautifulSoup main_st_listing)
              "123 Main St, Springfield" eq_refl eq_refl)
    as [l [p [q [d [Hl [Hp [Hq [Hd [Hr _]]]]]]]]];
    [left; simpl; lia | reflexivity | reflexivity |].
  rewrite Hr.
  assert (El : Ok l = Ok "N/A") by (rewrite <- Hl; reflexivity).
  assert (Ep : Ok p = Ok "$350,000") by (rewrite <- Hp; reflexivity).
  assert (Eq : Ok q = Ok "N/A") by (rewrite <- Hq; reflexivity).
  assert (Ed : Ok d = Ok "N/A") by (rewrite <- Hd; reflexivity).
  injection El as ->. injection Ep as ->. injection Eq as ->.
  injection Ed as ->. reflexivity.
Defined.

(* ===================================================================== *)
(** * More on [scrape_urls] *)
(* ===================================================================== *)

Section ScrapeUrlsMore.

Context {E : Type} `{DocumentModel E}.
Variable world : nat -> World E.
Variable disk : Disk.
Variable stdin : option string.

Lemma records_from_length (i : nat) (urls : list string) :
  length (records_from world i urls) = length urls.
Proof.
  revert i. induction urls as [|u urls IH]; intros i; simpl; [reflexivity|].
  rewrite IH. reflexivity.
Qed.

(** The file the loop leaves is the one [file_after] describes. *)
Lemma file_after_loop (append : bool) (f : file) (done : list dict) :
  match done with
  | [] => f
  | _ :: _ =>
      Some (match mode_of append f with
            | mode_a =>
                text_of f
                ++ lines_of_rows
                     ((if header_due append f then [header_row] else [])
                      ++ map row_of done)
            | mode_w =>
                lines_of_rows
                  ((if header_due append f && is_nil (tl done)
                    then [header_row] else [])
                   ++ [row_of (last done [])])
            end)%string
  end
  = file_after append f done.
Proof.
  unfold file_after, header_due, mode_of, text_after_overwrite.
  destruct done as [|r [|r' rs]]; [reflexivity| |];
    destruct append, f as [old|]; reflexivity.
Qed.

(** A run with [k] iterations whose [open] returns, and either no
    iteration more or a next one whose [open] raises. *)
Lemma scrape_urls_reaches (urls : list string) (append : bool) (k : nat) :
  goes_ahead urls stdin ->
  (append = true -> stat_raises disk = None) ->
  k <= length urls ->
  (forall i, 1 <= i <= k -> open_raises disk i = None) ->
  (k = length urls \/ exists e, open_raises disk (S k) = Some e) ->
  exists st,
    scrape_urls world disk stdin urls append
    = match open_raises disk (S k), Nat.ltb k (length urls), urls with
      | Some e, true, _ => Crashed e st
      | _, _, [] => Crashed ZeroDivisionError st
      | _, _, _ :: _ => Finished st
      end
    /\ output st
       = file_after append (existing disk) (records_from world 1 (firstn k urls))
    /\ (let made :=
          records_from world 1
            (firstn (if Nat.ltb k (length urls) then S k else k) urls) in
        results st = made
        /\ failed_count st = length (filter failed made)).
Proof.
  intros Hgo Hstat Hk Hopen Hnext.
  destruct (scrape_urls_run world disk stdin urls append)
    as [[Hlt Hstop] | [_ [[e [Ha [Hs _]]] | [_ [st [oe [Hrun Ho]]]]]]].
  - exfalso. destruct Hgo as [Hle | [response [Hs Hy]]].
    + lia.
    + destruct Hstop as [[Hnone _] | [response' [Hs' [Hy' _]]]]; congruence.
  - rewrite (Hstat Ha) in Hs. discriminate.
  - exists st. apply scrape_loop_run in Hrun.
    destruct Hrun as [k' [Hk' [Hopen' [[_ Hout] [[Hr Hf] Hoe]]]]].
    cbn [output results failed_count write_header app Nat.add] in Hout, Hr, Hf.
    cbn [Nat.add] in Hopen', Hoe.
    assert (Hsame : k' = k
                    /\ match oe with
                       | None => k = length urls
                       | Some e => k < length urls /\ open_raises disk (S k) = Some e
                       end).
    { destruct oe as [e'|].
      - destruct Hoe as [Hlt' He'].
        destruct (Nat.lt_trichotomy k' k) as [Hlt | [-> | Hgt]].
        + rewrite (Hopen (S k')) in He' by lia. discriminate.
        + auto.
        + exfalso. destruct Hnext as [-> | [e He]]; [lia|].
          rewrite (Hopen' k Hgt) in He. discriminate.
      - subst k'. destruct Hnext as [-> | [e He]]; [auto|].
        destruct (Nat.eq_dec k (length urls)) as [-> | Hne]; [auto|].
        exfalso. rewrite (Hopen' k) in He by lia. discriminate. }
    destruct Hsame as [-> Hend].
    rewrite file_after_loop in Hout.
    split; [|split; [exact Hout|]].
    + rewrite Ho. destruct oe as [e|].
      * destruct Hend as [Hlt ->].
        replace (Nat.ltb k (length urls)) with true
          by (symmetry; apply Nat.ltb_lt; exact Hlt).
        reflexivity.
      * rewrite Hend, Nat.ltb_irrefl.
        destruct (open_raises disk (S (length urls))), urls; reflexivity.
    + destruct oe as [e|].
      * destruct Hend as [Hlt _].
        replace (Nat.ltb k (length urls)) with true
          by (symmetry; apply Nat.ltb_lt; exact Hlt).
        split; assumption.
      * rewrite Hend, Nat.ltb_irrefl. rewrite Hend in Hr, Hf.
        split; assumption.
Qed.

(** What the output file holds after a run that is not stopped at the
    prompt and whose test for the file does not raise.  When every
    [open] returns, the run finishes: appending to a file that exists
    keeps its text and adds one line per record, without a header, and
    right after the text as it ends; otherwise the file is opened with
    ['w'] again for every record, so that a run of one URL leaves the
    header and its row, and a run of several URLs leaves the row of the
    last record alone.  When the [open] of an iteration raises, the
    exception leaves [scrape_urls]: the file is as the iterations before
    have left it, and the record made in this iteration is not
    written. *)
Theorem scrape_urls_output (urls : list string) (append : bool) (k : nat) :
  goes_ahead urls stdin ->
  (append = true -> stat_raises disk = None) ->
  k <= length urls ->
  (forall i, 1 <= i <= k -> open_raises disk i = None) ->
  (k = length urls -> urls <> [] ->
   exists st,
     scrape_urls world disk stdin urls append = Finished st
     /\ output st
        = Some (match existing disk with
                | Some old =>
                    if append
                    then (old ++ lines_of_rows
                                   (map row_of (records_from world 1 urls)))%string
                    else text_after_overwrite (records_from world 1 urls)
                | None => text_after_overwrite (records_from world 1 urls)
                end))
  /\ (forall e,
        k < length urls -> open_raises disk (S k) = Some e ->
        exists st,
          scrape_urls world disk stdin urls append = Crashed e st
          /\ output st
             = file_after append (existing disk)
                 (records_from world 1 (firstn k urls))
          /\ results st = records_from world 1 (firstn (S k) urls)).
Proof.
  intros Hgo Hstat Hk Hopen. split.
  - intros -> Hne.
    destruct (@scrape_urls_reaches urls append (length urls) Hgo Hstat Hk Hopen)
      as [st [Hs [Hout _]]]; [left; reflexivity|].
    exists st. rewrite Nat.ltb_irrefl in Hs. rewrite firstn_all in Hout.
    split.
    + rewrite Hs. destruct (open_raises disk _), urls;
        try reflexivity; contradiction.
    + rewrite Hout. unfold file_after.
      destruct urls as [|u urls]; [contradiction|].
      cbn [records_from]. destruct (existing disk); reflexivity.
  - intros e Hlt He.
    destruct (@scrape_urls_reaches urls append k Hgo Hstat Hk Hopen)
      as [st [Hs [Hout [Hr _]]]]; [right; exists e; exact He|].
    exists st.
    replace (Nat.ltb k (length urls)) with true in Hs, Hr
      by (symmetry; apply Nat.ltb_lt; exact Hlt).
    rewrite He in Hs. auto.
Qed.

(** The tally of a run, whatever way it ends: the records are those of
    the first URLs, in order, each made in the world of its iteration,
    and the failure count is the number of them whose error is not
    [None]; a run that finishes has a record for every URL. *)
Theorem scrape_urls_tally (urls : list string) (append : bool) :
  match scrape_urls world disk stdin urls append with
  | Finished st =>
      results st = records_from world 1 urls
      /\ length (results st) = length urls
      /\ failed_count st = length (filter failed (results st))
      /\ failed_count st <= length urls
  | Crashed _ st =>
      exists n,
        n <= length urls
        /\ results st = records_from world 1 (firstn n urls)
        /\ failed_count st = length (filter failed (results st))
  | Exited code => code = 0 /\ MAX_URLS_WARNING < length urls
  end.
Proof.
  assert (Hfresh : exists n,
            n <= length urls
            /\ results (untouched disk) = records_from world 1 (firstn n urls)
            /\ failed_count (untouched disk)
               = length (filter failed (results (untouched disk)))).
  { exists 0. split; [lia|]. split; reflexivity. }
  destruct (scrape_urls_run world disk stdin urls append)
    as [[Hlt [[_ ->] | [response [_ [_ ->]]]]]
       | [_ [[e [_ [_ ->]]] | [_ [st [oe [Hrun Ho]]]]]]];
    try exact Hfresh; [split; [reflexivity | exact Hlt]|].
  apply scrape_loop_run in Hrun.
  destruct Hrun as [k [Hk [_ [_ [[Hr Hf] Hoe]]]]].
  cbn [results failed_count app Nat.add] in Hr, Hf.
  rewrite Ho. destruct oe as [e|].
  - destruct Hoe as [Hlt _]. exists (S k). split; [lia|].
    split; [exact Hr|]. rewrite Hf, Hr. reflexivity.
  - subst k. rewrite firstn_all in Hr, Hf.
    destruct urls as [|u urls].
    + exists 0. split; [lia|]. split; [exact Hr|]. rewrite Hf, Hr. reflexivity.
    + split; [exact Hr|]. split; [rewrite Hr; apply records_from_length|].
      split; [rewrite Hf, Hr; reflexivity|].
      rewrite Hf, <- (records_from_length 1 (u :: urls)).
      apply filter_length_le.
Qed.

End ScrapeUrlsMore.

(** A disk that lets everything through, and one whose [open] raises. *)
Lemma scrape_urls_output_witness :
  (exists st,
     scrape_urls (fun _ => demo_world) (mkDisk None None (fun _ => None)) None
       ["https://www.zillow.com/a"; "https://www.zillow.com/missing"] false
     = Finished st
     /\ output st
        = Some (lines_of_rows
                  [ [ "https://www.zillow.com/missing"; "N/A"; "N/A"; "N/A";
                      "N/A"; "N/A"; "2024-05-01 12:00:00"; "HTTP 404" ] ]))
  /\ (exists st,
        scrape_urls (fun _ => demo_world)
          (mkDisk (Some "old") None
             (fun _ => Some (OSError "No such file or directory")))
          None ["https://www.zillow.com/a"] true
        = Crashed (OSError "No such file or directory") st
        /\ output st = Some "old").
Proof.
  split.
  - destruct (@scrape_urls_output _ _ (fun _ => demo_world)
                (mkDisk None None (fun _ => None)) None
                ["https://www.zillow.com/a"; "https://www.zillow.com/missing"]
                false 2) as [Hfin _].
    + left. unfold MAX_URLS_WARNING. simpl. lia.
    + discriminate.
    + simpl. lia.
    + reflexivity.
    + destruct (Hfin eq_refl) as [st [Hs Ho]]; [discriminate|].
      exists st. split; [exact Hs|]. rewrite Ho. reflexivity.
  - destruct (@scrape_urls_output _ _ (fun _ => demo_world)
                (mkDisk (Some "old") None
                   (fun _ => Some (OSError "No such file or directory")))
                None ["https://www.zillow.com/a"] true 0) as [_ Hcrash].
    + left. unfold MAX_URLS_WARNING. simpl. lia.
    + reflexivity.
    + simpl. lia.
    + intros i Hi. lia.
    + destruct (Hcrash (OSError "No such file or directory"))
        as [st [Hs [Ho _]]]; [simpl; lia | reflexivity |].
      exists st. split; [exact Hs|]. rewrite Ho. reflexivity.
Defined.

(** Appending to a file whose last line has no line end: the row comes
    right after the last character, and the file reads back with one
    line of nine cells. *)
Example append_after_open_line :
  match scrape_urls (fun _ => demo_world)
          (mkDisk (Some "url,address") None (fun _ => None)) None
          ["https://www.zillow.com/missing"] true with
  | Finished st =>
      output st
      = Some ("url,addresshttps://www.zillow.com/missing,N/A,N/A,N/A,N/A,N/A,"
              ++ "2024-05-01 12:00:00,HTTP 404" ++ crlf)%string
      /\ written st
         = [ [ "https://www.zillow.com/missing"; "N/A"; "N/A"; "N/A"; "N/A";
               "N/A"; "2024-05-01 12:00:00"; "HTTP 404" ] ]
  | _ => False
  end.
Proof. split; reflexivity. Qed.

Example scrape_urls_tally_example :
  match scrape_urls (fun _ => demo_world) (mkDisk None None (fun _ => None)) None
          ["https://www.zillow.com/a"; "https://www.zillow.com/missing"] false with
  | Finished st => failed_count st = 1
  | _ => False
  end.
Proof. reflexivity. Qed.

(* ===================================================================== *)
(** * [read_urls_from_file] *)
(* ===================================================================== *)

Lemma rstrip_idempotent (s : string) : Py.rstrip (Py.rstrip s) = Py.rstrip s.
Proof.
  induction s as [|c s IH]; [reflexivity|].
  cbn [Py.rstrip].
  destruct (Py.isspace c && negb (Py.truthy (Py.rstrip s))) eqn:Hc;
    [reflexivity|].
  cbn [Py.rstrip]. rewrite IH, Hc. reflexivity.
Qed.

Lemma lstrip_head (s : string) :
  Py.lstrip_by Py.isspace s = ""
  \/ exists c t, Py.lstrip_by Py.isspace s = String c t /\ Py.isspace c = false.
Proof.
  induction s as [|c s IH]; [left; reflexivity|].
  cbn [Py.lstrip_by]. destruct (Py.isspace c) eqn:Hc; [exact IH|].
  right. exists c, s. auto.
Qed.

Lemma rstrip_head (c : ascii) (t : string) :
  Py.isspace c = false -> Py.rstrip (String c t) = String c (Py.rstrip t).
Proof. intros Hc. cbn [Py.rstrip]. rewrite Hc. reflexivity. Qed.

Lemma strip_idempotent (s : string) : Py.strip (Py.strip s) = Py.strip s.
Proof.
  unfold Py.strip.
  destruct (lstrip_head s) as [-> | [c [t [-> Hc]]]]; [reflexivity|].
  rewrite (@rstrip_head c t Hc). cbn [Py.lstrip_by]. rewrite Hc.
  rewrite <- (@rstrip_head c t Hc). apply rstrip_idempotent.
Qed.

(** Every URL read is the trimmed text of a line of the file; it is
    not empty, has no whitespace at either end and is not a comment;
    there are no more URLs than lines, and they come in the order of
    their lines. *)
Theorem urls_of_lines_are_trimmed (lines : list string) :
  (forall u, In u (urls_of_lines lines) ->
     Py.truthy u = true
     /\ Py.strip u = u
     /\ Py.startswith "#" u = false
     /\ exists line, In line lines /\ u = Py.strip line)
  /\ length (urls_of_lines lines) <= length lines
  /\ (forall before after,
        urls_of_lines (before ++ after)
        = urls_of_lines before ++ urls_of_lines after).
Proof.
  unfold urls_of_lines. split; [|split].
  - intros u Hu. apply in_map_iff in Hu. destruct Hu as [line [<- Hin]].
    apply filter_In in Hin. destruct Hin as [Hin Hl].
    unfold is_url_line in Hl. apply andb_true_iff in Hl.
    destruct Hl as [Ht Hc]. apply negb_true_iff in Hc.
    repeat split; try assumption; [apply strip_idempotent|].
    exists line. auto.
  - rewrite length_map. apply filter_length_le.
  - intros before after. rewrite filter_app, map_app. reflexivity.
Qed.

Lemma urls_of_lines_are_trimmed_witness :
  urls_of_lines ["# listings" ; "  https://www.zillow.com/a  " ; "   " ]
  = ["https://www.zillow.com/a"]
  /\ Py.strip "https://www.zillow.com/a" = "https://www.zillow.com/a".
Proof.
  split; [reflexivity|].
  destruct (urls_of_lines_are_trimmed
              ["# listings" ; "  https://www.zillow.com/a  " ; "   " ])
    as [Hall _].
  apply (Hall "https://www.zillow.com/a"). left. reflexivity.
Defined.

Lemma length_rstrip (s : string) : String.length (Py.rstrip s) <= String.length s.
Proof.
  induction s as [|c s IH]; [reflexivity|].
  cbn [Py.rstrip]. destruct (Py.isspace c && _); simpl; lia.
Qed.

Lemma lstrip_fixed_or_shorter (s : string) :
  Py.lstrip_by Py.isspace s = s
  \/ String.length (Py.lstrip_by Py.isspace s) < String.length s.
Proof.
  induction s as [|c s IH]; [left; reflexivity|].
  cbn [Py.lstrip_by]. destruct (Py.isspace c); [|left; reflexivity].
  right. simpl. destruct IH as [-> | Hlt]; lia.
Qed.

Lemma strip_fixed (u : string) :
  Py.strip u = u ->
  Py.lstrip_by Py.isspace u = u /\ Py.rstrip u = u.
Proof.
  intros Hs. unfold Py.strip in Hs.
  destruct (lstrip_fixed_or_shorter u) as [Hl | Hlt].
  - rewrite Hl in Hs. auto.
  - exfalso. pose proof (length_rstrip (Py.lstrip_by Py.isspace u)) as Hr.
    rewrite Hs in Hr. lia.
Qed.

Lemma rstrip_app_space (x : string) (c : ascii) :
  Py.isspace c = true -> Py.rstrip (x ++ String c "") = Py.rstrip x.
Proof.
  intros Hc. induction x as [|a x IH]; simpl.
  - rewrite Hc. reflexivity.
  - rewrite IH. reflexivity.
Qed.

Lemma strip_line (u : string) :
  Py.truthy u = true -> Py.strip u = u ->
  Py.strip (u ++ String newline "") = u.
Proof.
  intros Ht Hs. destruct (strip_fixed Hs) as [Hl Hr].
  unfold Py.strip. destruct u as [|c u]; [discriminate|].
  cbn [Py.lstrip_by] in Hl.
  destruct (Py.isspace c) eqn:Hc.
  - exfalso. pose proof (lstrip_fixed_or_shorter u) as Hu.
    rewrite Hl in Hu. simpl in Hu. destruct Hu as [Hu | Hu]; [|lia].
    apply (f_equal String.length) in Hu. simpl in Hu. lia.
  - cbn [append Py.lstrip_by]. rewrite Hc.
    change (String c (u ++ String newline ""))
      with (String c u ++ String newline "")%string.
    rewrite rstrip_app_space by reflexivity. exact Hr.
Qed.

Lemma lines_from_line (u : string) : forall cur rest,
  Py.contains (String newline "") u = false ->
  lines_from cur (u ++ String newline rest)
  = (cur ++ u ++ String newline "")%string :: lines_from "" rest.
Proof.
  induction u as [|c u IH]; intros cur rest Hn.
  - cbn [append lines_from]. rewrite Ascii.eqb_refl. reflexivity.
  - cbn [Py.contains Py.startswith] in Hn.
    apply orb_false_iff in Hn. destruct Hn as [Hhead Htail].
    rewrite andb_true_r in Hhead.
    cbn [append lines_from]. rewrite Ascii.eqb_sym, Hhead.
    rewrite IH by exact Htail.
    f_equal. rewrite string_app_assoc. reflexivity.
Qed.

(** Reading back a file written with one clean URL per line gives the
    URLs again. *)
Theorem read_back_one_per_line (open_ : string -> read_result)
  (path : string) (urls : list string) :
  Forall clean_url urls ->
  open_ path = Content (one_per_line urls) ->
  read_urls_from_file open_ (Some path) = Returned urls.
Proof.
  intros Hclean Hopen. unfold read_urls_from_file. rewrite Hopen.
  clear Hopen. f_equal. unfold lines_of.
  induction Hclean as [|u urls [Ht [Hs [Hc Hn]]] Hrest IH]; [reflexivity|].
  cbn [one_per_line]. rewrite lines_from_line by exact Hn.
  cbn [append]. unfold urls_of_lines in *. cbn [filter].
  unfold is_url_line at 1. rewrite (strip_line Ht Hs), Ht, Hc.
  cbn [andb negb map]. rewrite (strip_line Ht Hs), IH. reflexivity.
Qed.

Lemma read_back_one_per_line_witness :
  read_urls_from_file
    (fun _ => Content (one_per_line ["https://www.zillow.com/a"; "https://www.zillow.com/b"]))
    (Some "urls.txt")
  = Returned ["https://www.zillow.com/a"; "https://www.zillow.com/b"].
Proof.
  apply (@read_back_one_per_line
           (fun _ => Content (one_per_line ["https://www.zillow.com/a";
                                            "https://www.zillow.com/b"]))
           "urls.txt").
  - repeat constructor.
  - reflexivity.
Defined.

(* ===================================================================== *)
(** * [main] *)
(* ===================================================================== *)

Section MainProps.

Context {E : Type} `{DocumentModel E}.
Variable parse_args : exit_or Namespace.
Variable open_ : string -> read_result.
Variable disk_at : string -> Disk.
Variable stamp : string.
Variable world : nat -> World E.
Variable stdin : option string.

Lemma gather_urls_exit (args : Namespace) (code : nat) :
  gather_urls open_ args = SysExit code -> code = 1.
Proof.
  unfold gather_urls, read_urls_from_file.
  destruct (arg_url args) as [u|]; [destruct (Py.truthy u); [discriminate|]|];
    destruct (arg_file args) as [path|];
    try (destruct (open_ path)); congruence.
Qed.

(** The ways [main] ends, the console taking what is printed and an
    opened file what is written.  It exits with the status of
    [parse_args] when that ends the process; with status 1 exactly when
    it has no URL to process; with status 0 when the user declines a
    run of more than twenty URLs.  An exception leaves it only where
    the prompt meets the end of the input, the test for the output file
    raises, or an [open] of the output file raises: the list of URLs is
    never empty when [scrape_urls] is called, so the division by its
    length does not fail.  Otherwise it returns, with one record per
    URL gathered. *)
Theorem main_outcomes :
  match main parse_args open_ disk_at stamp world stdin with
  | Exited code =>
      parse_args = SysExit code
      \/ exists args,
           parse_args = Returned args
           /\ ((code = 1
                /\ (gather_urls open_ args = SysExit 1
                    \/ gather_urls open_ args = Returned []))
               \/ (code = 0
                   /\ exists urls response,
                        gather_urls open_ args = Returned urls
                        /\ MAX_URLS_WARNING < length urls
                        /\ stdin = Some response
                        /\ Py.lower response <> "y"))
  | Crashed e st =>
      exists args urls,
        parse_args = Returned args
        /\ gather_urls open_ args = Returned urls
        /\ urls <> []
        /\ ((MAX_URLS_WARNING < length urls /\ stdin = None /\ e = EOFError)
            \/ (arg_append args = true
                /\ stat_raises (disk_at (output_file_of stamp args)) = Some e)
            \/ (exists i,
                  1 <= i <= length urls
                  /\ open_raises (disk_at (output_file_of stamp args)) i = Some e))
  | Finished st =>
      exists args urls,
        parse_args = Returned args
        /\ gather_urls open_ args = Returned urls
        /\ urls <> []
        /\ results st = records_from world 1 urls
  end.
Proof.
  unfold main.
  destruct parse_args as [args|code]; [|left; reflexivity].
  destruct (gather_urls open_ args) as [urls|code] eqn:Hg.
  - destruct urls as [|url urls]; cbn [is_nil].
    { right. exists args. split; [reflexivity|]. left. auto. }
    set (disk := disk_at (output_file_of stamp args)).
    assert (Hne : url :: urls <> []) by discriminate.
    destruct (scrape_urls_run world disk stdin (url :: urls) (arg_append args))
      as [[Hlt [[Hs ->] | [response [Hs [Hy ->]]]]]
         | [_ [[e [Ha [Hs ->]]] | [_ [st [oe [Hrun ->]]]]]]].
    + exists args, (url :: urls). repeat split; auto.
    + right. exists args. split; [reflexivity|]. right.
      split; [reflexivity|]. exists (url :: urls), response. auto.
    + exists args, (url :: urls). repeat split; auto.
    + apply scrape_loop_run in Hrun.
      destruct Hrun as [k [Hk [_ [_ [[Hr _] Hoe]]]]].
      cbn [results app Nat.add] in Hr, Hoe.
      destruct oe as [e|].
      * destruct Hoe as [Hlt He]. exists args, (url :: urls).
        repeat split; auto. right. right. exists (S k). split; [lia | exact He].
      * subst k. rewrite firstn_all in Hr.
        exists args, (url :: urls). repeat split; auto.
  - right. exists args. split; [reflexivity|]. left.
    pose proof (gather_urls_exit _ Hg) as Hcode. subst code.
    split; [reflexivity | left; exact Hg].
Qed.

(** A run on a single URL given on the command line never prompts.
    When the test for the output file does not raise and [open]
    returns, it finishes with the record of this URL; the output file,
    the one named by [--output] or a file named after the clock, ends
    up with the header and one row, or, when appending to a file that
    exists, with its old text and one row more.  When [open] raises,
    the exception leaves [main]: the record has been made and is lost,
    and the file is as it was. *)
Theorem main_single_url (args : Namespace) (url : string) :
  parse_args = Returned args ->
  arg_url args = Some url ->
  Py.truthy url = true ->
  let disk := disk_at (output_file_of stamp args) in
  let record := extract_property_data (world 1) url in
  (arg_append args = true -> stat_raises disk = None) ->
  exists st,
    results st = [record]
    /\ match open_raises disk 1 with
       | None =>
           main parse_args open_ disk_at stamp world stdin = Finished st
           /\ output st
              = Some (match existing disk with
                      | Some old =>
                          if arg_append args
                          then (old ++ csv_line (row_of record))%string
                          else (csv_line header_row ++ csv_line (row_of record))%string
                      | None =>
                          (csv_line header_row ++ csv_line (row_of record))%string
                      end)
       | Some e =>
           main parse_args open_ disk_at stamp world stdin = Crashed e st
           /\ output st = existing disk
       end.
Proof.
  intros Hp Hu Ht disk record Hstat.
  unfold main, gather_urls. rewrite Hp, Hu, Ht. cbn [is_nil]. fold disk.
  assert (Hgo : goes_ahead [url] stdin)
    by (left; unfold MAX_URLS_WARNING; simpl; lia).
  destruct (open_raises disk 1) as [e|] eqn:Ho.
  - destruct (@scrape_urls_reaches _ _ world disk stdin [url] (arg_append args) 0
                Hgo Hstat) as [st [Hs [Hout [Hr _]]]].
    + simpl. lia.
    + intros i Hi. lia.
    + right. exists e. exact Ho.
    + exists st. rewrite Ho in Hs. split; [exact Hr|]. split; [exact Hs | exact Hout].
  - destruct (@scrape_urls_reaches _ _ world disk stdin [url] (arg_append args) 1
                Hgo Hstat) as [st [Hs [Hout [Hr _]]]].
    + simpl. lia.
    + intros i Hi. replace i with 1 by lia. exact Ho.
    + left. reflexivity.
    + exists st. split; [exact Hr|]. split.
      * rewrite Hs. destruct (open_raises disk 2); reflexivity.
      * rewrite Hout. unfold file_after. cbn [firstn records_from].
        fold record. unfold text_after_overwrite. cbn [map lines_of_rows].
        rewrite !string_app_nil_r.
        destruct (existing disk), (arg_append args); reflexivity.
Qed.

End MainProps.

Lemma main_single_url_witness :
  exists st,
    main (Returned (mkNamespace
                      (Some "https://www.zillow.com/homedetails/123-Main-St")
                      None None false))
      (fun _ => FileNotFoundError) (fun _ => mkDisk None None (fun _ => None))
      "2024-05-01_12-00" (fun _ => main_st_world) None
    = Finished st
    /\ output st
       = Some (lines_of_rows
                 [ header_row;
                   [ "https://www.zillow.com/homedetails/123-Main-St";
                     "123 Main St, Springfield"; "N/A"; "$350,000"; "N/A"; "N/A";
                     "2024-05-01 12:00:00"; "" ] ]).
Proof.
  destruct (@main_single_url _ _
              (Returned (mkNamespace
                           (Some "https://www.zillow.com/homedetails/123-Main-St")
                           None None false))
              (fun _ => FileNotFoundError)
              (fun _ => mkDisk None None (fun _ => None))
              "2024-05-01_12-00" (fun _ => main_st_world) None
              (mkNamespace (Some "https://www.zillow.com/homedetails/123-Main-St")
                 None None false)
              "https://www.zillow.com/homedetails/123-Main-St"
              eq_refl eq_refl eq_refl) as [st [_ [Hs Ho]]].
  - discriminate.
  - exists st. split; [exact Hs|]. rewrite Ho. reflexivity.
Defined.

(** The same run from a directory that does not exist: the page is
    fetched, the record made, and the exception of [open] ends the
    program with nothing written. *)
Example main_missing_directory :
  exists st,
    main (Returned (mkNamespace
                      (Some "https://www.zillow.com/homedetails/123-Main-St")
                      None (Some "missing/out.csv") false))
      (fun _ => FileNotFoundError)
      (fun _ => mkDisk None None
                  (fun _ => Some (OSError "No such file or directory")))
      "2024-05-01_12-00" (fun _ => main_st_world) None
    = Crashed (OSError "No such file or directory") st
    /\ output st = None
    /\ length (results st) = 1.
Proof. eexists. repeat split. Qed.

(* ===================================================================== *)
(** * More on [validate_url] *)
(* ===================================================================== *)

Lemma no_scheme_before_slash (r : string) :
  Urllib.split_scheme ("www.zillow.com/" ++ r)
  = ("", ("www.zillow.com/" ++ r)%string).
Proof.
  unfold Urllib.split_scheme. simpl.
  destruct (Py.find_char (Urllib.is_char ":") r); reflexivity.
Qed.

(** A listing URL is accepted whatever follows the host, and the same
    address typed without its scheme is rejected: without [//] after a
    scheme, [urlparse] finds no network location. *)
Theorem scheme_is_required {E : Type} `{DocumentModel E} (w : World E)
  (path : string) :
  validate_url w ("https://www.zillow.com/" ++ path) = true
  /\ validate_url w ("www.zillow.com/" ++ path) = false.
Proof.
  split; [reflexivity|].
  unfold validate_url, Urllib.urlparse. cbv zeta.
  replace (Urllib.remove_unsafe
             (Py.lstrip_by Urllib.c0_control_or_space
                ("www.zillow.com/" ++ path)))
    with ("www.zillow.com/" ++ Urllib.remove_unsafe path)%string
    by reflexivity.
  rewrite no_scheme_before_slash. reflexivity.
Qed.

(* ===================================================================== *)
(** * What the extractors return, on every document model *)
(* ===================================================================== *)

Section ExtractorValues.

Context {E : Type} `{DocumentModel E}.
Variable soup : E.

Lemma address_by_selectors_value (v : string) :
  address_by_selectors soup = Ok (Some v) -> Py.truthy v = true.
Proof.
  intros Ha. apply for_some in Ha. destruct Ha as [sel [_ Hb]].
  destruct (find soup sel) as [[el|]|e]; cbn [bind] in Hb; try discriminate.
  destruct (get_text el) as [t|e]; cbn [bind] in Hb; try discriminate.
  destruct (Py.truthy t) eqn:Ht; [|discriminate].
  injection Hb as <-. exact Ht.
Qed.

(** A value of the first strategy: the text of the span found after
    the parent of a span that matched a keyword, not empty and not the
    keyword. *)
Lemma lot_size_method1_found (v : string) :
  lot_size_method1 soup = Ok (Some v) ->
  exists kw spans span parent cand,
    In kw ["Lot size"; "Lot Size"; "lot size"]
    /\ find_all soup (by_tag_string "span" (text_has kw)) = Ok spans
    /\ In span spans
    /\ find_parent span = Ok (Some parent)
    /\ find_next parent (by_tag "span" []) = Ok (Some cand)
    /\ get_text cand = Ok v
    /\ Py.truthy v = true
    /\ v <> kw.
Proof.
  intros Hm. apply for_some in Hm. destruct Hm as [kw [Hkw Hb]].
  destruct (find_all soup _) as [spans|e] eqn:Hspans; cbn [bind] in Hb;
    [|discriminate].
  apply for_some in Hb. destruct Hb as [span [Hspan Hb]].
  destruct (find_parent span) as [[parent|]|e] eqn:Hparent; cbn [bind] in Hb;
    try discriminate.
  destruct (find_next parent _) as [[next_span|]|e] eqn:Hnext; cbn [bind] in Hb;
    try discriminate.
  destruct (get_text next_span) as [t|e] eqn:Htext; cbn [bind] in Hb;
    try discriminate.
  destruct (Py.truthy t && negb (String.eqb t kw)) eqn:Hc; [|discriminate].
  injection Hb as <-. apply andb_true_iff in Hc. destruct Hc as [Ht Hne].
  exists kw, spans, span, parent, next_span.
  repeat (split; [assumption|]).
  apply negb_true_iff in Hne. apply String.eqb_neq. exact Hne.
Qed.

Lemma lot_size_method1_value (v : string) :
  lot_size_method1 soup = Ok (Some v) -> Py.truthy v = true.
Proof.
  intros Hm. apply lot_size_method1_found in Hm.
  destruct Hm as [kw [spans [span [parent [cand [_ [_ [_ [_ [_ [_ [Ht _]]]]]]]]]]]].
  exact Ht.
Qed.

(** A value of the second strategy: the text, with a unit in it, of a
    span found by its [data-testid]. *)
Lemma lot_size_method2_value (v : string) :
  lot_size_method2 soup = Ok (Some v) ->
  exists facts fact unit,
    find_all soup (by_tag "span" [("data-testid", Lambda (lower_has "lot"))])
    = Ok facts
    /\ In fact facts
    /\ get_text fact = Ok v
    /\ In unit ["sqft"; "sq ft"; "acres"; "acre"]
    /\ Py.contains unit (Py.lower v) = true.
Proof.
  unfold lot_size_method2.
  destruct (find_all soup _) as [facts|e] eqn:Hfacts; cbn [bind]; [|discriminate].
  intros Hm. apply for_some in Hm. destruct Hm as [fact [Hfact Hb]].
  destruct (get_text fact) as [t|e] eqn:Htext; cbn [bind] in Hb; [|discriminate].
  destruct (existsb _ lot_units) eqn:Hex; [|discriminate].
  injection Hb as <-. apply existsb_exists in Hex. destruct Hex as [unit [Hin Hc]].
  exists facts, fact, unit. auto.
Qed.

Lemma scan_words_value (ft : string) (words : list string) (v : string) :
  scan_words ft words = Some v ->
  exists w, In w words /\ numeric_word w = true /\ v = (w ++ " days")%string.
Proof.
  induction words as [|word following IH]; [discriminate|].
  cbn [scan_words]. destruct (numeric_word word) eqn:Hn.
  - destruct (next_is_day following).
    + intros Hv. injection Hv as <-. exists word. repeat split; auto.
      left. reflexivity.
    + destruct (Py.contains "zillow" (Py.lower ft)
                || Py.contains "market" (Py.lower ft)).
      * intros Hv. injection Hv as <-. exists word. repeat split; auto.
        left. reflexivity.
      * intros Hv. destruct (IH Hv) as [w [Hin Hw]]. exists w.
        split; [right; exact Hin | exact Hw].
  - intros Hv. destruct (IH Hv) as [w [Hin Hw]]. exists w.
    split; [right; exact Hin | exact Hw].
Qed.

Lemma days_on_market_try_value (v : string) :
  days_on_market_try soup = Ok (Some v) ->
  exists w, numeric_word w = true /\ v = (w ++ " days")%string.
Proof.
  intros Hd. apply for_some in Hd. destruct Hd as [kw [_ Hb]].
  destruct (find_all soup _) as [elements|e]; cbn [bind] in Hb; [|discriminate].
  apply for_some in Hb. destruct Hb as [elem [_ Hb]].
  destruct (find_parent elem) as [[parent|]|e]; cbn [bind] in Hb;
    try discriminate.
  destruct (get_text parent) as [ft|e]; cbn [bind] in Hb; try discriminate.
  injection Hb as Hb. apply scan_words_value in Hb.
  destruct Hb as [w [_ Hw]]. exists w. exact Hw.
Qed.

(** Whatever the page, the values of the address, lot-size, price and
    days-on-market fields are never the empty string. *)
Theorem values_are_never_empty (v : string) :
  _extract_address soup = Ok v
  \/ _extract_lot_size soup = Ok v
  \/ _extract_price soup = Ok v
  \/ _extract_days_on_market soup = Ok v ->
  Py.truthy v = true.
Proof.
  intros [Ha | [Hl | [Hp | Hd]]].
  - unfold _extract_address in Ha.
    destruct (address_by_selectors soup) as [[a|]|e] eqn:Hs; cbn [bind] in Ha;
      try discriminate; injection Ha as <-; [|reflexivity].
    apply address_by_selectors_value. exact Hs.
  - unfold _extract_lot_size, lot_size_try in Hl.
    destruct (lot_size_method1 soup) as [[a|]|e] eqn:H1; cbn [bind otherwise] in Hl.
    + injection Hl as <-. apply (lot_size_method1_value H1).
    + destruct (lot_size_method2 soup) as [[b|]|e] eqn:H2; cbn [try_or] in Hl;
        injection Hl as <-; try reflexivity.
      destruct (lot_size_method2_value H2) as [facts [fact [unit [_ [_ [_ [Hin Hc]]]]]]].
      rewrite <- truthy_lower. apply (contains_truthy unit); [|exact Hc].
      simpl in Hin. decompose [or] Hin; subst; try reflexivity; contradiction.
    + injection Hl as <-. reflexivity.
  - unfold _extract_price in Hp.
    destruct (price_try soup) as [[a|]|e] eqn:Hs; cbn [try_or] in Hp;
      injection Hp as <-; try reflexivity.
    apply (contains_truthy "$"); [reflexivity|].
    eapply price_try_dollar. exact Hs.
  - unfold _extract_days_on_market in Hd.
    destruct (days_on_market_try soup) as [[a|]|e] eqn:Hs; cbn [try_or] in Hd;
      injection Hd as <-; try reflexivity.
    destruct (days_on_market_try_value Hs) as [w [_ ->]].
    destruct w; reflexivity.
Qed.

(** Whatever the page, the days-on-market value is [N/A] or a number
    followed by [ days], the number made of digits and commas with at
    least one digit. *)
Theorem days_value_shape (v : string) :
  _extract_days_on_market soup = Ok v ->
  v = "N/A"
  \/ exists number,
       v = (number ++ " days")%string
       /\ Urllib.all_chars digit_or_comma number = true
       /\ Py.any_isdigit number = true.
Proof.
  unfold _extract_days_on_market. intros Hd.
  destruct (days_on_market_try soup) as [[a|]|e] eqn:Hs; cbn [try_or] in Hd;
    injection Hd as <-; auto.
  right. destruct (days_on_market_try_value Hs) as [w [Hn ->]].
  exists w. split; [reflexivity|]. apply numeric_word_shape. exact Hn.
Qed.

(** Whatever the page, the lot-size value is [N/A]; or it is the
    text, not empty and different from the keyword, of the span found
    after the parent of a span that the search for one of the keywords
    [Lot size], [Lot Size], [lot size] returned; or it is the text,
    containing one of the units [sqft], [sq ft], [acres], [acre] in any
    case, of a span found by a [data-testid] that contains [lot]. *)
Theorem lot_size_value_shape (v : string) :
  _extract_lot_size soup = Ok v ->
  v = "N/A"
  \/ (exists kw spans span parent cand,
        In kw ["Lot size"; "Lot Size"; "lot size"]
        /\ find_all soup (by_tag_string "span" (text_has kw)) = Ok spans
        /\ In span spans
        /\ find_parent span = Ok (Some parent)
        /\ find_next parent (by_tag "span" []) = Ok (Some cand)
        /\ get_text cand = Ok v
        /\ Py.truthy v = true
        /\ v <> kw)
  \/ (exists facts fact unit,
        find_all soup (by_tag "span" [("data-testid", Lambda (lower_has "lot"))])
        = Ok facts
        /\ In fact facts
        /\ get_text fact = Ok v
        /\ In unit ["sqft"; "sq ft"; "acres"; "acre"]
        /\ Py.contains unit (Py.lower v) = true).
Proof.
  unfold _extract_lot_size, lot_size_try. intros Hl.
  destruct (lot_size_method1 soup) as [[a|]|e] eqn:H1; cbn [bind otherwise] in Hl.
  - injection Hl as <-. right. left. apply (lot_size_method1_found H1).
  - destruct (lot_size_method2 soup) as [[b|]|e] eqn:H2; cbn [try_or] in Hl;
      injection Hl as <-; auto.
    right. right. apply (lot_size_method2_value H2).
  - injection Hl as <-. auto.
Qed.

(** Whatever the page, the price-per-sqft value is [N/A], or contains a
    dollar sign, or is the text of the element found by its
    [data-testid], which is taken as it is. *)
Theorem price_per_sqft_value_shape (v : string) :
  _extract_price_per_sqft soup = Ok v ->
  v = "N/A"
  \/ Py.contains "$" v = true
  \/ (exists el, find soup sqft_testid = Ok (Some el) /\ get_text el = Ok v).
Proof.
  unfold _extract_price_per_sqft, price_per_sqft_try. intros Hq.
  destruct (price_per_sqft_labels soup) as [[a|]|e] eqn:H1;
    cbn [bind otherwise] in Hq.
  - injection Hq as <-. right. left.
    apply for_some in H1. destruct H1 as [pattern [_ Hb]].
    destruct (find_all soup _) as [spans|e]; cbn [bind] in Hb; [|discriminate].
    apply for_some in Hb. destruct Hb as [span [_ Hb]].
    destruct (find_parent span) as [[parent|]|e]; cbn [bind] in Hb;
      try discriminate.
    destruct (find_next_siblings parent) as [sibs|e]; cbn [bind] in Hb;
      try discriminate.
    destruct (for_ sibs _) as [[t|]|e] eqn:Hs; cbn [bind otherwise] in Hb;
      try discriminate.
    + injection Hb as <-. apply for_some in Hs. destruct Hs as [sib [_ Hs]].
      destruct (get_text sib) as [t'|e]; cbn [bind] in Hs; try discriminate.
      destruct (Py.truthy t' && Py.contains "$" t') eqn:Hc; [|discriminate].
      injection Hs as <-. apply andb_true_iff in Hc. apply Hc.
    + destruct (find_previous_sibling parent) as [[prev|]|e]; cbn [bind] in Hb;
        try discriminate.
      destruct (get_text prev) as [t'|e]; cbn [bind] in Hb; try discriminate.
      destruct (Py.truthy t' && Py.contains "$" t') eqn:Hc; [|discriminate].
      injection Hb as <-. apply andb_true_iff in Hc. apply Hc.
  - unfold price_per_sqft_testid in Hq. fold sqft_testid in Hq.
    destruct (find soup sqft_testid) as [[el|]|e] eqn:Hf; cbn [bind try_or] in Hq.
    + destruct (get_text el) as [t|e] eqn:Ht; cbn [bind try_or] in Hq;
        injection Hq as <-; auto.
      right. right. exists el. auto.
    + injection Hq as <-. auto.
    + injection Hq as <-. auto.
  - injection Hq as <-. auto.
Qed.

End ExtractorValues.

(* ===================================================================== *)
(** * The address, lot-size and price-per-sqft extractors on a tree *)
(* ===================================================================== *)

Section MoreOnTrees.

Lemma find_some_in (e : Bs4.PageElement) (c : criteria) (el : Bs4.PageElement) :
  Bs4.find e c = Some el ->
  exists pn, In pn (Bs4.descendants e)
             /\ Bs4.search c (snd pn) = true
             /\ el = Bs4.mkPageElement (Bs4.root e) (fst pn).
Proof.
  unfold Bs4.find, Bs4.find_all, Bs4.handles, Bs4.matching.
  destruct (filter _ (Bs4.descendants e)) as [|pn l] eqn:Hf; [discriminate|].
  cbn [map hd_error]. intros Hs. injection Hs as <-.
  exists pn. assert (Hin : In pn (pn :: l)) by (left; reflexivity).
  rewrite <- Hf in Hin. apply filter_In in Hin. destruct Hin as [Hin Hs].
  auto.
Qed.

Lemma find_none_if (e : Bs4.PageElement) (c : criteria) :
  (forall pn, In pn (Bs4.descendants e) -> Bs4.search c (snd pn) = false) ->
  Bs4.find e c = None.
Proof.
  intros Hall. destruct (Bs4.find e c) as [el|] eqn:Hf; [|reflexivity].
  destruct (@find_some_in _ _ _ Hf) as [pn [Hin [Hs _]]].
  rewrite (Hall pn Hin) in Hs. discriminate.
Qed.

Lemma search_h1 (attrs : list (string * matcher)) (n : Bs4.node) :
  Bs4.search (by_tag "h1" attrs) n = true ->
  exists a cs, n = Bs4.Tag "h1" a cs.
Proof.
  destruct n as [s|name a cs].
  - cbn. rewrite andb_false_r. discriminate.
  - cbn [Bs4.search by_tag c_name c_attrs c_string is_some andb negb].
    intros Hs. apply andb_true_iff in Hs. destruct Hs as [Hs _].
    apply andb_true_iff in Hs. destruct Hs as [Hs _].
    apply String.eqb_eq in Hs. subst name. eauto.
Qed.

Lemma address_selectors_h1 (sel : criteria) :
  In sel address_selectors -> exists attrs, sel = by_tag "h1" attrs.
Proof.
  intros Hin. simpl in Hin. decompose [or] Hin; subst; eauto; contradiction.
Qed.

Lemma address_by_selectors_tree (soup : Bs4.PageElement) :
  address_by_selectors soup
  = Ok (first_some (address_strategy soup) address_selectors).
Proof.
  unfold address_by_selectors. apply for_pure. intros sel _.
  unfold address_strategy. cbn [find get_text bs4_model bind].
  destruct (Bs4.find soup sel) as [el|]; [|reflexivity].
  cbn [bind]. destruct (Py.truthy _); reflexivity.
Qed.

Lemma address_strategy_h1 (soup : Bs4.PageElement) (sel : criteria) (v : string) :
  In sel address_selectors ->
  address_strategy soup sel = Some v ->
  is_h1_text soup v.
Proof.
  intros Hsel. unfold address_strategy.
  destruct (Bs4.find soup sel) as [el|] eqn:Hf; [|discriminate].
  destruct (Py.truthy (Bs4.get_text el)) eqn:Ht; [|discriminate].
  intros Hv. injection Hv as <-. split; [exact Ht|].
  destruct (@find_some_in _ _ _ Hf) as [[p n] [Hin [Hs ->]]].
  destruct (@address_selectors_h1 _ Hsel) as [attrs ->].
  destruct (@search_h1 _ _ Hs) as [a [cs Hn]]. cbn [snd fst] in *. subst n.
  exists p, a, cs. auto.
Qed.

(** On every parsed page the address is the text of an [h1] element
    of the page, or [N/A]; it is [N/A] when the page has no [h1], and
    it is the text of an [h1] as soon as the first [h1] of the page has
    a text. *)
Theorem address_on_tree (contents : list Bs4.node) :
  let soup := Bs4.BeautifulSoup contents in
  exists v,
    _extract_address soup = Ok v
    /\ (v = "N/A" \/ is_h1_text soup v)
    /\ ((forall p attrs cs,
           ~ In (p, Bs4.Tag "h1" attrs cs) (Bs4.descendants soup)) ->
        v = "N/A")
    /\ (forall el,
          Bs4.find soup (by_tag "h1" []) = Some el ->
          Py.truthy (Bs4.get_text el) = true ->
          is_h1_text soup v).
Proof.
  intros soup. unfold _extract_address.
  rewrite address_by_selectors_tree. cbn [bind].
  destruct (first_some (address_strategy soup) address_selectors) as [v|] eqn:Hf.
  - exists v. split; [reflexivity|].
    apply first_some_in in Hf. destruct Hf as [sel [Hsel Hv]].
    pose proof (@address_strategy_h1 _ _ _ Hsel Hv) as Hh1.
    split; [right; exact Hh1|]. split; [|intros; exact Hh1].
    intros Hno. exfalso. destruct Hh1 as [_ [p [a [cs [Hin _]]]]].
    exact (Hno p a cs Hin).
  - exists "N/A". split; [reflexivity|]. split; [left; reflexivity|].
    split; [reflexivity|].
    intros el Hfind Ht. exfalso.
    rewrite first_some_none in Hf.
    specialize (Hf (by_tag "h1" [])).
    unfold address_strategy in Hf. rewrite Hfind, Ht in Hf.
    assert (Hin : In (by_tag "h1" []) address_selectors)
      by (right; right; left; reflexivity).
    specialize (Hf Hin). discriminate.
Qed.

Lemma first_some_find_map {A} (keep : string -> bool) (h : A -> string)
  (l : list A) :
  first_some (fun x => if keep (h x) then Some (h x) else None) l
  = List.find keep (map h l).
Proof.
  induction l as [|x l IH]; [reflexivity|].
  cbn [first_some map List.find]. destruct (keep (h x)); [reflexivity | exact IH].
Qed.

Lemma search_lot_fact (n : Bs4.node) :
  Bs4.search (by_tag "span" [("data-testid", Lambda (lower_has "lot"))]) n
  = lot_fact n.
Proof.
  apply search_tag_attr. intros v. apply matches_test; [reflexivity|].
  intros x. apply lower_has_mentions; reflexivity.
Qed.

Lemma has_unit_units (t : string) :
  existsb (fun unit => Py.contains unit (Py.lower t)) lot_units = has_unit t.
Proof.
  unfold has_unit, mentions, lot_units. cbn [existsb].
  rewrite orb_false_r, !orb_assoc. reflexivity.
Qed.

Lemma lot_size_method2_tree (soup : Bs4.PageElement) :
  lot_size_method2 soup = Ok (lot_method2_spec soup).
Proof.
  unfold lot_size_method2, lot_method2_spec.
  cbn [find_all bs4_model bind].
  rewrite (@find_all_elements soup _ _ search_lot_fact).
  rewrite <- first_some_find_map.
  apply for_pure. intros fact _. cbn [get_text bs4_model bind].
  rewrite has_unit_units.
  destruct (has_unit _); reflexivity.
Qed.

(** On every parsed page the lot-size extractor returns the value of
    its first strategy: for the keywords [Lot size], [Lot Size],
    [lot size] in this order and the spans whose single string contains
    the keyword, in document order, the text of the first [span] after
    the start of the span's parent, if not empty and not the keyword.
    Failing that, the first text mentioning [sqft], [sq ft], [acres]
    or [acre], in any case, among the spans whose [data-testid]
    contains [lot] in any case, in document order; failing that,
    [N/A]. *)
Theorem lot_size_on_tree (contents : list Bs4.node) :
  _extract_lot_size (Bs4.BeautifulSoup contents)
  = Ok (lot_size_spec (Bs4.BeautifulSoup contents)).
Proof.
  unfold _extract_lot_size, lot_size_try, lot_size_spec.
  rewrite lot_size_method1_tree. cbn [bind].
  destruct (lot_method1_spec _); [reflexivity|].
  cbn [otherwise]. rewrite lot_size_method2_tree.
  destruct (lot_method2_spec _); reflexivity.
Qed.

Lemma has_dollar_text (t : string) :
  Py.truthy t && Py.contains "$" t = has_dollar t.
Proof. apply truthy_and_contains. reflexivity. Qed.

Lemma search_sqft_label (label : string) (n : Bs4.node) :
  Py.truthy label = true ->
  Bs4.search (by_tag_string "span" (ci_has label)) n = sqft_label label n.
Proof.
  intros Hl. apply search_tag_string; [reflexivity|].
  intros s. apply ci_has_mentions. exact Hl.
Qed.

Lemma search_sqft_fact (n : Bs4.node) :
  Bs4.search sqft_testid n = sqft_fact n.
Proof.
  apply search_tag_attr. intros v. apply matches_test; [reflexivity|].
  intros x. apply lower_has_mentions; reflexivity.
Qed.

Lemma price_per_sqft_labels_tree (soup : Bs4.PageElement) :
  price_per_sqft_labels soup = Ok (sqft_labels_spec soup).
Proof.
  unfold price_per_sqft_labels, sqft_labels_spec.
  apply for_pure. intros pattern Hp.
  assert (Hl : Py.truthy pattern = true).
  { simpl in Hp. decompose [or] Hp; subst; try reflexivity; contradiction. }
  cbn [find_all bs4_model bind].
  rewrite (@find_all_elements soup _ _ (fun n => @search_sqft_label pattern n Hl)).
  apply for_pure. intros span _.
  cbn [find_parent find_next_siblings find_previous_sibling bs4_model bind].
  unfold sqft_value_near.
  destruct (Bs4.find_parent span) as [parent|]; [|reflexivity].
  rewrite (@for_pure _ _ (Bs4.find_next_siblings parent) _
             (fun sib => if has_dollar (Bs4.get_text sib)
                         then Some (Bs4.get_text sib) else None)).
  - cbn [bind]. rewrite first_some_find_map.
    destruct (List.find has_dollar _); [reflexivity|].
    cbn [otherwise]. destruct (Bs4.find_previous_sibling parent) as [prev|];
      [|reflexivity].
    cbn [get_text bs4_model bind]. rewrite has_dollar_text.
    destruct (has_dollar _); reflexivity.
  - intros sib _. cbn [get_text bs4_model bind]. rewrite has_dollar_text.
    destruct (has_dollar _); reflexivity.
Qed.

(** On every parsed page the price-per-sqft extractor goes through the
    labels [$/sqft], [per sqft] and [Price/sqft], in this order, and
    for each through the spans whose single string contains it in any
    case, in document order; around such a span it takes the first text
    with a dollar sign among the later sibling elements of the span's
    parent, else the text of the nearest earlier sibling element if it
    has a dollar sign.  Failing all, it returns the text, whatever it
    is, of the first span whose [data-testid] contains
    [price-per-sqft] in any case, else [N/A]. *)
Theorem price_per_sqft_on_tree (contents : list Bs4.node) :
  _extract_price_per_sqft (Bs4.BeautifulSoup contents)
  = Ok (sqft_spec (Bs4.BeautifulSoup contents)).
Proof.
  unfold _extract_price_per_sqft, price_per_sqft_try, sqft_spec.
  rewrite price_per_sqft_labels_tree. cbn [bind].
  destruct (sqft_labels_spec _); [reflexivity|].
  cbn [otherwise]. unfold price_per_sqft_testid. fold sqft_testid.
  cbn [find get_text bs4_model bind].
  rewrite (@find_first_element _ _ _ search_sqft_fact).
  destruct (first_element sqft_fact _); reflexivity.
Qed.

End MoreOnTrees.

(* ===================================================================== *)
(** * Pages on which nothing matches *)
(* ===================================================================== *)

Lemma filter_none {A} (f : A -> bool) (l : list A) :
  (forall x, In x l -> f x = false) -> filter f l = [].
Proof.
  induction l as [|x l IH]; intros Hall; [reflexivity|].
  cbn [filter]. rewrite (Hall x (or_introl eq_refl)).
  apply IH. intros y Hy. apply Hall. right. exact Hy.
Qed.

Section PlainPages.

Variable contents : list Bs4.node.
Hypothesis Hplain : plain_page contents.
Let soup : Bs4.PageElement := Bs4.BeautifulSoup contents.

Lemma plain_not_named (name : string) (pn : Bs4.path * Bs4.node) :
  In name ["h1"; "span"; "div"] ->
  In pn (Bs4.descendants soup) ->
  tag_named name (snd pn) = false.
Proof.
  intros Hname Hin. destruct pn as [p [k s|nm attrs cs]]; [reflexivity|].
  pose proof (Hplain p _ Hin) as [H1 [H2 H3]].
  cbn [snd tag_named]. apply String.eqb_neq.
  simpl in Hname. decompose [or] Hname; subst; try assumption; contradiction.
Qed.

Lemma plain_no_elements (mark : Bs4.node -> bool) (name : string) :
  In name ["h1"; "span"; "div"] ->
  (forall n, tag_named name n = false -> mark n = false) ->
  elements mark soup = [].
Proof.
  intros Hname Hmark. unfold elements. rewrite filter_none; [reflexivity|].
  intros pn Hin. apply Hmark. apply plain_not_named; assumption.
Qed.

Lemma plain_no_string (keep : string -> bool) :
  (forall s, Py.contains "$" s = false -> keep s = false) ->
  filter keep (text_nodes soup) = [].
Proof.
  intros Hkeep. apply filter_none. intros s Hin. apply Hkeep.
  unfold text_nodes in Hin. apply in_flat_map in Hin.
  destruct Hin as [[p [k t|nm attrs cs]] [Hin Hs]]; [|contradiction].
  cbn [snd] in Hs. destruct Hs as [<- | []].
  apply (Hplain p _ Hin).
Qed.

Lemma plain_no_label (label : string) :
  In label ["Time on Zillow"; "Days on Zillow"; "on Zillow"; "Days on market"] ->
  label_nodes soup label = [].
Proof.
  intros Hlabel. unfold label_nodes. apply filter_none.
  intros [p [k t|nm attrs cs]] Hin; [|reflexivity].
  cbn [snd]. apply (Hplain p _ Hin). exact Hlabel.
Qed.

(** On a page without headings, spans and divisions, and without a
    string that holds a dollar sign or mentions a label of the days on
    market, no search of the five extractors finds anything, and each
    of them answers the sentinel. *)
Lemma plain_page_gives_na :
  _extract_address soup = Ok "N/A"
  /\ _extract_lot_size soup = Ok "N/A"
  /\ _extract_price soup = Ok "N/A"
  /\ _extract_price_per_sqft soup = Ok "N/A"
  /\ _extract_days_on_market soup = Ok "N/A".
Proof.
  assert (Hspan : forall mark,
            (forall n, tag_named "span" n = false -> mark n = false) ->
            elements mark soup = []).
  { intros mark. apply plain_no_elements. right. left. reflexivity. }
  assert (Hdiv : forall mark,
            (forall n, tag_named "div" n = false -> mark n = false) ->
            elements mark soup = []).
  { intros mark. apply plain_no_elements. right. right. left. reflexivity. }
  unfold soup in *.
  split; [|split; [|split; [|split]]].
  - unfold _extract_address. rewrite address_by_selectors_tree.
    assert (Hnone : first_some (address_strategy (Bs4.BeautifulSoup contents))
                      address_selectors = None); [|rewrite Hnone; reflexivity].
    apply first_some_none. intros sel Hsel.
    unfold address_strategy. rewrite find_none_if; [reflexivity|].
    intros pn Hin.
    destruct (@address_selectors_h1 _ Hsel) as [attrs ->].
    apply not_true_is_false. intros Hs.
    destruct (@search_h1 _ _ Hs) as [a [cs Hn]].
    pose proof (@plain_not_named "h1" pn (or_introl eq_refl) Hin) as Hnot.
    rewrite Hn in Hnot. discriminate Hnot.
  - unfold _extract_lot_size, lot_size_try.
    rewrite lot_size_method1_tree, lot_size_method2_tree.
    unfold lot_method1_spec, lot_method2_spec, keyword_spans.
    cbn [first_some].
    rewrite !Hspan;
      try (intros n Hn; unfold lot_fact, lot_label; rewrite Hn; reflexivity).
    reflexivity.
  - unfold _extract_price, price_try.
    rewrite price_by_selectors_tree.
    unfold price_strategy_spec, first_element. cbn [first_some].
    rewrite (Hspan price_testid), (Hspan (price_class "span")),
      (Hdiv (price_class "div")); cbn [hd_error bind otherwise];
      try (intros n Hn; unfold price_testid, price_class; rewrite Hn;
           reflexivity).
    rewrite price_fallback_tree. unfold price_fallback_spec.
    rewrite plain_no_string; [reflexivity|].
    intros s Hs. unfold has_dollar_and_digit. rewrite Hs. reflexivity.
  - unfold _extract_price_per_sqft, price_per_sqft_try.
    rewrite price_per_sqft_labels_tree. unfold sqft_labels_spec.
    cbn [first_some].
    rewrite !Hspan; cbn [first_some bind otherwise];
      try (intros n Hn; unfold sqft_label; rewrite Hn; reflexivity).
    unfold price_per_sqft_testid. fold sqft_testid.
    cbn [find bs4_model bind].
    rewrite (@find_first_element _ _ _ search_sqft_fact).
    unfold first_element. rewrite Hspan; [reflexivity|].
    intros n Hn. unfold sqft_fact. rewrite Hn. reflexivity.
  - unfold _extract_days_on_market. rewrite days_on_market_tree.
    unfold days_full_texts. cbn [flat_map].
    rewrite !plain_no_label; [reflexivity|..]; simpl; tauto.
Qed.

End PlainPages.

Example plain_listing_gives_na :
  plain_page plain_listing
  /\ _extract_address (Bs4.BeautifulSoup plain_listing) = Ok "N/A"
  /\ _extract_days_on_market (Bs4.BeautifulSoup plain_listing) = Ok "N/A".
Proof.
  assert (Hplain : plain_page plain_listing).
  { intros p n Hin. cbv in Hin.
    repeat (destruct Hin as [Hin | Hin];
            [injection Hin as <- <-;
             first [ repeat split; discriminate
                   | split; [reflexivity|];
                     intros label Hl; simpl in Hl;
                     decompose [or] Hl; subst; try reflexivity; contradiction ]
            |]).
    contradiction. }
  split; [exact Hplain|].
  destruct (plain_page_gives_na Hplain) as [Ha [_ [_ [_ Hd]]]].
  split; assumption.
Qed.

Lemma values_are_never_empty_witness :
  Py.truthy "123 Main St, Springfield" = true.
Proof.
  apply (@values_are_never_empty _ bs4_model (Bs4.BeautifulSoup main_st_listing)).
  left. reflexivity.
Defined.

Lemma days_value_shape_witness :
  "12 days" = "N/A"
  \/ exists number,
       "12 days" = (number ++ " days")%string
       /\ Urllib.all_chars digit_or_comma number = true
       /\ Py.any_isdigit number = true.
Proof.
  apply (@days_value_shape _ bs4_model (Bs4.BeautifulSoup days_listing)).
  reflexivity.
Defined.

Lemma lot_size_value_shape_witness :
  _extract_lot_size lot_listing = Ok "Lot size: big"
  /\ "Lot size: big" <> "N/A"
  /\ ~ (exists unit, In unit ["sqft"; "sq ft"; "acres"; "acre"]
                     /\ Py.contains unit (Py.lower "Lot size: big") = true)
  /\ exists kw spans cand,
       In kw ["Lot size"; "Lot Size"; "lot size"]
       /\ find_all lot_listing (by_tag_string "span" (text_has kw)) = Ok spans
       /\ spans <> []
       /\ get_text cand = Ok "Lot size: big"
       /\ "Lot size: big" <> kw.
Proof.
  split; [reflexivity|]. split; [discriminate|].
  assert (Hno : ~ (exists unit, In unit ["sqft"; "sq ft"; "acres"; "acre"]
                     /\ Py.contains unit (Py.lower "Lot size: big") = true)).
  { intros [unit [Hin Hc]]. simpl in Hin.
    decompose [or] Hin; subst; try discriminate Hc; contradiction. }
  split; [exact Hno|].
  destruct (@lot_size_value_shape _ bs4_model lot_listing "Lot size: big" eq_refl)
    as [Hna | [Hfound | Hunit]].
  - discriminate Hna.
  - destruct Hfound
      as [kw [spans [span [parent [cand [Hkw [Hs [Hin [_ [_ [Ht [_ Hne]]]]]]]]]]]].
    exists kw, spans, cand. repeat (split; [assumption|]).
    split; [|split; assumption].
    intros ->. contradiction.
  - exfalso. apply Hno.
    destruct Hunit as [facts [fact [unit [_ [_ [_ [Hin Hc]]]]]]]. exists unit. auto.
Defined.

Lemma price_per_sqft_value_shape_witness :
  _extract_price_per_sqft empty_sqft_listing = Ok ""
  /\ ("" = "N/A"
      \/ Py.contains "$" "" = true
      \/ (exists el, find empty_sqft_listing sqft_testid = Ok (Some el)
                     /\ get_text el = Ok "")).
Proof.
  split; [reflexivity|].
  apply (@price_per_sqft_value_shape _ bs4_model empty_sqft_listing).
  reflexivity.
Defined.

Lemma address_on_tree_witness :
  is_h1_text (Bs4.BeautifulSoup main_st_listing) "123 Main St, Springfield".
Proof.
  destruct (address_on_tree main_st_listing) as [v [Hv [_ [_ Hfirst]]]].
  assert (Ev : Ok v = Ok "123 Main St, Springfield")
    by (rewrite <- Hv; reflexivity).
  injection Ev as ->.
  apply (Hfirst (Bs4.mkPageElement
                   (Bs4.root (Bs4.BeautifulSoup main_st_listing)) [0; 0; 0])).
  - reflexivity.
  - reflexivity.
Defined.

(** The price per square foot found before its label. *)
Example sqft_before_label :
  _extract_price_per_sqft sqft_listing = Ok "$212".
Proof. reflexivity. Qed.
